(** * NFL data pipeline: the transformation stage

    A shallow embedding of [nfl-data-pipeline/src/etl/transform.py]
    (class [NFLDataTransformer]) and the properties of its four stages:
    the team cleaner [clean_teams_data], the game cleaner
    [clean_games_data], the feature engine [create_game_features] and the
    team aggregator [create_team_aggregations].

    The code is written against pandas.  A data frame is modelled the way
    pandas stores it: an ordered list of column labels and a rectangular
    body of cells addressed by position.  Numbers (int64 and float64
    values alike) are exact rationals; a missing value (NaN, None, NaT)
    is one distinguished cell. *)

From Stdlib Require Import Ascii String QArith Qround Qabs.
From stdpp Require Import base option list sorting strings pretty gmap.

Local Open Scope string_scope.
Local Open Scope list_scope.

(** ** Cells *)

(** What a cell of a frame can hold: a Python [str], a number, a
    [datetime.date] (as its day number, counted from the epoch), a pandas
    [Timestamp] (in nanoseconds since the epoch), or the missing value. *)
Inductive cell : Type :=
| CStr (s : string)
| CNum (q : Q)
| CDate (d : Z)
| CStamp (t : Z)
| CNaN.

(** Equality as [drop_duplicates] sees it: by value, with two missing
    values equal to each other. *)
Definition cell_eqb (a b : cell) : bool :=
  match a, b with
  | CStr s, CStr t => bool_decide (s = t)
  | CNum p, CNum q => Qeq_bool p q
  | CDate d, CDate e => bool_decide (d = e)
  | CStamp t, CStamp u => bool_decide (t = u)
  | CNaN, CNaN => true
  | _, _ => false
  end.

(** Elementwise [==] of two series: a missing value equals nothing, not
    even itself. *)
Definition series_eq (a b : cell) : bool :=
  match a, b with
  | CNaN, _ | _, CNaN => false
  | _, _ => cell_eqb a b
  end.

Definition Qlt_bool (p q : Q) : bool := negb (Qle_bool q p).

(** Elementwise [<] and [>] of a numeric series against a constant: every
    comparison with a missing value is false. *)
Definition series_lt (a : cell) (q : Q) : bool :=
  match a with CNum p => Qlt_bool p q | _ => false end.

Definition series_gt (a : cell) (q : Q) : bool :=
  match a with CNum p => Qlt_bool q p | _ => false end.

Definition isna (a : cell) : bool :=
  match a with CNaN => true | _ => false end.

(** [Series.fillna(v)] *)
Definition fillna (v : cell) (a : cell) : cell :=
  if isna a then v else a.

(** [Series.isin(values)] *)
Definition isin (values : list cell) (a : cell) : bool :=
  existsb (cell_eqb a) values.

(** ** Python's [str.strip] *)

(** The ASCII characters Python counts as whitespace. *)
Definition is_space (a : ascii) : bool :=
  let n := nat_of_ascii a in
  ((9 <=? n)%nat && (n <=? 13)%nat) || ((28 <=? n)%nat && (n <=? 32)%nat).

Fixpoint lstrip (s : string) : string :=
  match s with
  | EmptyString => EmptyString
  | String a s' => if is_space a then lstrip s' else s
  end.

Fixpoint rstrip (s : string) : string :=
  match s with
  | EmptyString => EmptyString
  | String a s' =>
      match rstrip s' with
      | EmptyString => if is_space a then EmptyString else String a EmptyString
      | t => String a t
      end
  end.

Definition strip (s : string) : string := rstrip (lstrip s).

(** ** Data frames *)

Abbreviation row := (list cell).

Record DataFrame : Type := mkDF {
  columns : list string;
  rows : list row
}.

(** [pd.DataFrame()]: no columns and no rows. *)
Definition empty_frame : DataFrame := mkDF [] [].

(** [df.empty]: true when either axis has length 0. *)
Definition empty (df : DataFrame) : bool :=
  match columns df, rows df with
  | [], _ | _, [] => true
  | _, _ => false
  end.

(** [col in df.columns] *)
Definition has_column (col : string) (df : DataFrame) : bool :=
  bool_decide (col ∈ columns df).

(** Position of a label among the columns. *)
Fixpoint index_of (col : string) (cols : list string) : option nat :=
  match cols with
  | [] => None
  | c :: cols' => if decide (c = col) then Some 0%nat else S <$> index_of col cols'
  end.

(** The cell of a row at a position; a row too short reads as missing. *)
Definition cell_at (i : nat) (r : row) : cell := default CNaN (r !! i).

(** The cell of a row under a label. *)
Definition getc (cols : list string) (col : string) (r : row) : cell :=
  match index_of col cols with
  | Some i => cell_at i r
  | None => CNaN
  end.

Definition get (df : DataFrame) : string → row → cell := getc (columns df).

(** [df[col] = f(df[col])] for an elementwise [f], on a column that exists. *)
Definition assign (col : string) (f : cell → cell) (df : DataFrame) : DataFrame :=
  match index_of col (columns df) with
  | Some i => mkDF (columns df) (alter f i <$> rows df)
  | None => df
  end.

(** [df[mask]] with the mask computed row by row. *)
Definition select (mask : row → bool) (df : DataFrame) : DataFrame :=
  mkDF (columns df) (filter (λ r, mask r) (rows df)).

(** [df.dropna(subset=[col])] *)
Definition dropna (col : string) (df : DataFrame) : DataFrame :=
  select (λ r, negb (isna (get df col r))) df.

(** [df.drop_duplicates(subset=[col])], which keeps the first row of every
    key: a row is dropped when its key was seen on an earlier row. *)
Fixpoint dedup (key : row → cell) (seen : list cell) (rs : list row) : list row :=
  match rs with
  | [] => []
  | r :: rs' =>
      if existsb (cell_eqb (key r)) seen
      then dedup key seen rs'
      else r :: dedup key (key r :: seen) rs'
  end.

Definition drop_duplicates (col : string) (df : DataFrame) : DataFrame :=
  mkDF (columns df) (dedup (get df col) [] (rows df)).

(** The dictionary [rename_map] the cleaners build: the entries of the
    fixed mapping whose old label is a column of the frame. *)
Definition rename_map (mapping : gmap string string) (df : DataFrame)
  : gmap string string :=
  filter (λ kv, kv.1 ∈ columns df) mapping.

(** [df.rename(columns=m)]: labels change, the body does not. *)
Definition rename (m : gmap string string) (df : DataFrame) : DataFrame :=
  mkDF ((λ c, default c (m !! c)) <$> columns df) (rows df).

(** ** Logging *)

(** The records the cleaners hand to the logger, with the counts they
    carry. *)
Inductive log_entry : Type :=
| WarnNoTeams
| InfoCleaningTeams
| InfoDuplicateTeams (n : nat)
| WarnInvalidConferences (n : nat)
| InfoTeamsCleaned (n : nat)
| WarnNoGames
| InfoCleaningGames
| InfoDuplicateGames (n : nat)
| WarnSelfPlay (n : nat)
| WarnInvalidWeeks (n : nat)
| InfoGamesCleaned (n : nat).

(** A computation that logs: its value and the records written, oldest
    first. *)
Definition Logged (A : Type) : Type := A * list log_entry.

#[export] Instance logged_ret : MRet Logged := λ A a, (a, []).
#[export] Instance logged_bind : MBind Logged := λ A B f m,
  (fst (f (fst m)), snd m ++ snd (f (fst m))).

Definition log (e : log_entry) : Logged unit := (tt, [e]).

(** ** Conversions *)

(** pandas' own parsers and printers are not part of the repository; the
    cleaners are stated over any choice of them. *)
Section Cleaners.

(** [pd.to_numeric] on a string: the number it denotes, if any. *)
Variable parse_num : string → option Q.
(** [pd.to_datetime] on a string and on a number: the instant, in
    nanoseconds since the epoch, if any. *)
Variable parse_datetime : string → option Z.
Variable num_datetime : Q → option Z.
(** Python's [str] on a number, a date and a timestamp. *)
Variable str_num : Q → string.
Variable str_date : Z → string.
Variable str_stamp : Z → string.

(** [pd.to_numeric(s, errors='coerce')]: what does not denote a number
    becomes the missing value. *)
Definition to_numeric (a : cell) : cell :=
  match a with
  | CStr s => match parse_num s with Some q => CNum q | None => CNaN end
  | CNum q => CNum q
  | CDate _ | CStamp _ | CNaN => CNaN
  end.

(** Rounding toward zero, as numpy casts a float to an integer. *)
Definition Qtrunc (q : Q) : Z := Z.quot (Qnum q) (Zpos (Qden q)).

(** [Series.astype(int)]; the code applies it to a numeric column from
    which the missing values were dropped.  The cast is to int64: the
    truncation without a bound written here is that cast for the numbers
    of magnitude below 2^63. *)
Definition astype_int (a : cell) : cell :=
  match a with
  | CNum q => CNum (inject_Z (Qtrunc q))
  | _ => a
  end.

(** [Series.astype(str)], as pandas has it before version 3, where the
    missing value becomes the string 'nan'; from version 3 on the missing
    value stays missing.  On the other cells the versions agree. *)
Definition astype_str (a : cell) : string :=
  match a with
  | CStr s => s
  | CNum q => str_num q
  | CDate d => str_date d
  | CStamp t => str_stamp t
  | CNaN => "nan"
  end.

(** [Series.str.strip()] after [astype(str)] *)
Definition str_strip (a : cell) : cell := CStr (strip (astype_str a)).

Definition day_ns : Z := 86400 * 1000000000.

(** [pd.to_datetime(s, errors='coerce')]: a timestamp, or the missing
    value (NaT).  A [datetime.date] is read as its midnight. *)
Definition to_datetime (a : cell) : cell :=
  match a with
  | CStr s => from_option CStamp CNaN (parse_datetime s)
  | CNum q => from_option CStamp CNaN (num_datetime q)
  | CDate d => CStamp (d * day_ns)
  | CStamp t => CStamp t
  | CNaN => CNaN
  end.

(** [Series.dt.date] on a column of timestamps: the calendar day. *)
Definition dt_date (a : cell) : cell :=
  match a with
  | CStamp t => CDate (t / day_ns)
  | _ => a
  end.

(** [if col in df.columns: df[col] = f(df[col])] *)
Definition on_column (col : string) (f : cell → cell) (df : DataFrame) : DataFrame :=
  if has_column col df then assign col f df else df.

(** Number of rows a mask selects: [mask.sum()]. *)
Definition mask_sum (mask : row → bool) (df : DataFrame) : nat :=
  length (filter (λ r, mask r) (rows df)).

(** ** The team cleaner *)

Definition teams_column_mapping : gmap string string :=
  list_to_map
    [("TeamID", "team_id"); ("Name", "name"); ("City", "city");
     ("Key", "abbreviation"); ("Conference", "conference");
     ("Division", "division"); ("PrimaryColor", "primary_color");
     ("SecondaryColor", "secondary_color"); ("WikipediaLogoUrl", "logo_url");
     ("Founded", "founded_year"); ("HeadCoach", "head_coach")].

Definition id_columns : list string := ["TeamID"; "team_id"; "Key"].

(** The first of [id_columns] that is a column of the frame. *)
Definition id_column (df : DataFrame) : option string :=
  List.find (λ c, has_column c df) id_columns.

Definition text_columns : list string :=
  ["name"; "city"; "abbreviation"; "conference"; "division"].

Definition valid_conferences : list cell :=
  [CStr "AFC"; CStr "NFC"; CStr "Unknown"].

(** Removes duplicates based on the team identifier. *)
Definition dedup_teams (original_count : nat) (teams_df : DataFrame)
  : Logged DataFrame :=
  match id_column teams_df with
  | Some c =>
      let teams_df := drop_duplicates c teams_df in
      log (InfoDuplicateTeams (original_count - length (rows teams_df))) ;;
      mret teams_df
  | None => mret teams_df
  end.

(** Handles missing values. *)
Definition fill_missing (teams_df : DataFrame) : DataFrame :=
  foldl (λ df col, on_column col (fillna (CStr "Unknown")) df)
        teams_df ["city"; "conference"; "division"].

(** Standardizes text fields. *)
Definition strip_text (teams_df : DataFrame) : DataFrame :=
  foldl (λ df col, on_column col str_strip df) teams_df text_columns.

(** The mask [~teams_df['conference'].isin(valid_conferences + ['Unknown'])]. *)
Definition invalid_conferences (df : DataFrame) (r : row) : bool :=
  negb (isin valid_conferences (get df "conference" r)).

(** Validates conference values:
    [teams_df.loc[invalid_conferences, 'conference'] = 'Unknown']. *)
Definition validate_conferences (teams_df : DataFrame) : Logged DataFrame :=
  if has_column "conference" teams_df then
    if existsb (invalid_conferences teams_df) (rows teams_df) then
      log (WarnInvalidConferences
             (mask_sum (invalid_conferences teams_df) teams_df)) ;;
      mret (assign "conference"
              (λ a, if isin valid_conferences a then a else CStr "Unknown")
              teams_df)
    else mret teams_df
  else mret teams_df.

(** Ensures team_id is integer. *)
Definition integer_team_id (teams_df : DataFrame) : DataFrame :=
  if has_column "team_id" teams_df then
    assign "team_id" astype_int
      (dropna "team_id" (assign "team_id" to_numeric teams_df))
  else teams_df.

Definition clean_teams_data (teams_df : DataFrame) : Logged DataFrame :=
  if empty teams_df then
    log WarnNoTeams ;; mret empty_frame
  else
    log InfoCleaningTeams ;;
    let original_count := length (rows teams_df) in
    teams_df ← dedup_teams original_count teams_df;
    let teams_df := rename (rename_map teams_column_mapping teams_df) teams_df in
    let teams_df := fill_missing teams_df in
    let teams_df := strip_text teams_df in
    teams_df ← validate_conferences teams_df;
    let teams_df := integer_team_id teams_df in
    log (InfoTeamsCleaned (length (rows teams_df))) ;;
    mret teams_df.

(** ** The game cleaner *)

Definition games_column_mapping : gmap string string :=
  list_to_map
    [("GameID", "game_id"); ("Season", "season"); ("SeasonType", "season_type");
     ("Week", "week"); ("Date", "date"); ("DateTime", "datetime");
     ("HomeTeamID", "home_team_id"); ("AwayTeamID", "away_team_id");
     ("HomeScore", "home_score"); ("AwayScore", "away_score");
     ("Status", "status"); ("Quarter", "quarter");
     ("TimeRemainingMinutes", "time_remaining");
     ("Temperature", "weather_temperature"); ("WindSpeed", "wind_speed")].

Definition score_columns : list string := ["home_score"; "away_score"].

Definition numeric_columns : list string :=
  ["season"; "week"; "home_team_id"; "away_team_id"].

(** The mask [games_df['home_team_id'] == games_df['away_team_id']]. *)
Definition same_team_games (df : DataFrame) (r : row) : bool :=
  series_eq (get df "home_team_id" r) (get df "away_team_id" r).

(** The mask [(games_df['week'] < 1) | (games_df['week'] > 22)]. *)
Definition invalid_weeks (df : DataFrame) (r : row) : bool :=
  series_lt (get df "week" r) 1 || series_gt (get df "week" r) 22.

(** Removes duplicates based on game_id. *)
Definition dedup_games (original_count : nat) (games_df : DataFrame)
  : Logged DataFrame :=
  if has_column "game_id" games_df then
    let games_df := drop_duplicates "game_id" games_df in
    log (InfoDuplicateGames (original_count - length (rows games_df))) ;;
    mret games_df
  else mret games_df.

(** Handles missing scores. *)
Definition fill_scores (games_df : DataFrame) : DataFrame :=
  foldl (λ df col, on_column col (λ a, fillna (CNum 0) (to_numeric a)) df)
        games_df score_columns.

(** Cleans and validates the date column. *)
Definition clean_dates (games_df : DataFrame) : DataFrame :=
  if has_column "date" games_df then
    assign "date" dt_date
      (dropna "date" (assign "date" to_datetime games_df))
  else games_df.

(** Ensures numeric columns are proper types. *)
Definition coerce_numeric (games_df : DataFrame) : DataFrame :=
  foldl (λ df col, on_column col to_numeric df) games_df numeric_columns.

(** Removes games where a team plays itself. *)
Definition drop_self_play (games_df : DataFrame) : Logged DataFrame :=
  if has_column "home_team_id" games_df && has_column "away_team_id" games_df
  then
    if existsb (same_team_games games_df) (rows games_df) then
      log (WarnSelfPlay (mask_sum (same_team_games games_df) games_df)) ;;
      mret (select (λ r, negb (same_team_games games_df r)) games_df)
    else mret games_df
  else mret games_df.

(** Validates week numbers. *)
Definition drop_invalid_weeks (games_df : DataFrame) : Logged DataFrame :=
  if has_column "week" games_df then
    if existsb (invalid_weeks games_df) (rows games_df) then
      log (WarnInvalidWeeks (mask_sum (invalid_weeks games_df) games_df)) ;;
      mret (select (λ r, negb (invalid_weeks games_df r)) games_df)
    else mret games_df
  else mret games_df.

Definition clean_games_data (games_df : DataFrame) : Logged DataFrame :=
  if empty games_df then
    log WarnNoGames ;; mret empty_frame
  else
    log InfoCleaningGames ;;
    let original_count := length (rows games_df) in
    let games_df := rename (rename_map games_column_mapping games_df) games_df in
    games_df ← dedup_games original_count games_df;
    let games_df := fill_scores games_df in
    let games_df := clean_dates games_df in
    let games_df := coerce_numeric games_df in
    games_df ← drop_self_play games_df;
    games_df ← drop_invalid_weeks games_df;
    log (InfoGamesCleaned (length (rows games_df))) ;;
    mret games_df.

End Cleaners.

(** ** Concrete parsers, for running the cleaners on tables *)

(** Stand-ins for pandas' parsers on the plainest literals: a decimal
    integer with an optional minus sign, and an ISO calendar date
    [YYYY-MM-DD]. *)
Definition digit_of (a : ascii) : option Z :=
  let n := nat_of_ascii a in
  if (48 <=? n)%nat && (n <=? 57)%nat then Some (Z.of_nat n - 48)%Z else None.

Fixpoint digits_value (acc : Z) (s : string) : option Z :=
  match s with
  | EmptyString => Some acc
  | String a s' =>
      match digit_of a with
      | Some d => digits_value (10 * acc + d) s'
      | None => None
      end
  end.

Definition natural_literal (s : string) : option Z :=
  match s with
  | EmptyString => None
  | _ => digits_value 0 s
  end.

Definition integer_literal (s : string) : option Q :=
  match s with
  | String "-" s' => (λ z, inject_Z (- z)) <$> natural_literal s'
  | _ => inject_Z <$> natural_literal s
  end.

(** Days from the epoch to a civil date of the proleptic Gregorian
    calendar. *)
Definition days_from_civil (y m d : Z) : Z :=
  let y' := if (m <=? 2)%Z then (y - 1)%Z else y in
  let era := (y' / 400)%Z in
  let yoe := (y' - era * 400)%Z in
  let mp := ((m + 9) mod 12)%Z in
  let doy := ((153 * mp + 2) / 5 + d - 1)%Z in
  let doe := (yoe * 365 + yoe / 4 - yoe / 100 + doy)%Z in
  (era * 146097 + doe - 719468)%Z.

Definition iso_date (s : string) : option Z :=
  if bool_decide (String.length s = 10%nat) &&
     bool_decide (String.get 4 s = Some "-"%char) &&
     bool_decide (String.get 7 s = Some "-"%char)
  then
    y ← natural_literal (String.substring 0 4 s);
    m ← natural_literal (String.substring 5 2 s);
    d ← natural_literal (String.substring 8 2 s);
    if bool_decide (1 ≤ m ≤ 12)%Z && bool_decide (1 ≤ d ≤ 31)%Z
    then Some (days_from_civil y m d * day_ns)%Z
    else None
  else None.

Definition epoch_ns (q : Q) : option Z := Some (Qfloor q).

Definition show_num (q : Q) : string := pretty (Qtrunc q).
Definition show_day (d : Z) : string := pretty d.

Definition clean_teams : DataFrame → Logged DataFrame :=
  clean_teams_data integer_literal show_num show_day show_day.

Definition clean_games : DataFrame → Logged DataFrame :=
  clean_games_data integer_literal iso_date epoch_ns.

(** ** The cleaners, row by row *)

(** The label a column carries after [rename]. *)
Definition renamed (mapping : gmap string string) (col : string) : string :=
  default col (mapping !! col).

(** A frame whose labels stay pairwise distinct under the renaming; on a
    frame with a repeated label, [df[col]] is a frame and not a series. *)
Definition labels_ok (mapping : gmap string string) (df : DataFrame) : Prop :=
  NoDup (renamed mapping <$> columns df).

(** A rewrite of every cell by a function its column label selects. *)
Definition map_cells (h : string → cell → cell) (cols : list string) (r : row) : row :=
  imap (λ j a, match cols !! j with Some l => h l a | None => a end) r.

(** Keys pairwise different as [drop_duplicates] compares them. *)
Inductive distinct : list cell → Prop :=
| distinct_nil : distinct []
| distinct_cons a l :
    Forall (λ b, cell_eqb a b = false) l → distinct l → distinct (a :: l).

(** Row [k] is the first row of the table with its key. *)
Definition first_occurrence (key : row → cell) (rs : list row) (k : nat) (r : row) : Prop :=
  rs !! k = Some r ∧
  ∀ j r0, (j < k)%nat → rs !! j = Some r0 → cell_eqb (key r) (key r0) = false.

Section RowView.

Variable parse_num : string → option Q.
Variable parse_datetime : string → option Z.
Variable num_datetime : Q → option Z.
Variable str_num : Q → string.
Variable str_date : Z → string.
Variable str_stamp : Z → string.

(** What each stage of the team cleaner does to a cell, by the label of
    its column after renaming. *)
Definition fill_cell (l : string) (a : cell) : cell :=
  if bool_decide (l ∈ ["city"; "conference"; "division"])
  then fillna (CStr "Unknown") a else a.

Definition strip_cell (l : string) (a : cell) : cell :=
  if bool_decide (l ∈ text_columns)
  then str_strip str_num str_date str_stamp a else a.

Definition conference_cell (l : string) (a : cell) : cell :=
  if bool_decide (l = "conference")
  then (if isin valid_conferences a then a else CStr "Unknown") else a.

Definition team_id_cell (l : string) (a : cell) : cell :=
  if bool_decide (l = "team_id")
  then astype_int (to_numeric parse_num a) else a.

Definition teams_cell (l : string) (a : cell) : cell :=
  team_id_cell l (conference_cell l (strip_cell l (fill_cell l a))).

Definition teams_row (cols : list string) : row → row :=
  map_cells teams_cell cols.

(** The rows the team cleaner keeps once duplicates are gone: those whose
    team_id, when there is such a column, is a number. *)
Definition teams_keep (cols : list string) (r : row) : bool :=
  negb (bool_decide ("team_id" ∈ cols)) ||
  negb (isna (getc cols "team_id" (teams_row cols r))).

(** The rows left by the team cleaner's [drop_duplicates]. *)
Definition teams_dedup (df : DataFrame) : list row :=
  match id_column df with
  | Some c => dedup (get df c) [] (rows df)
  | None => rows df
  end.

(** What each stage of the game cleaner does to a cell, by the label of
    its column after renaming. *)
Definition scores_cell (l : string) (a : cell) : cell :=
  if bool_decide (l ∈ score_columns)
  then fillna (CNum 0) (to_numeric parse_num a) else a.

Definition dates_cell (l : string) (a : cell) : cell :=
  if bool_decide (l = "date")
  then dt_date (to_datetime parse_datetime num_datetime a) else a.

Definition numeric_cell (l : string) (a : cell) : cell :=
  if bool_decide (l ∈ numeric_columns) then to_numeric parse_num a else a.

Definition games_cell (l : string) (a : cell) : cell :=
  numeric_cell l (dates_cell l (scores_cell l a)).

Definition games_row (cols : list string) : row → row :=
  map_cells games_cell cols.

(** The three row filters of the game cleaner, on a cleaned row. *)
Definition date_ok (cols : list string) (r : row) : bool :=
  negb (bool_decide ("date" ∈ cols)) || negb (isna (getc cols "date" r)).

Definition self_play (cols : list string) (r : row) : bool :=
  bool_decide ("home_team_id" ∈ cols) && bool_decide ("away_team_id" ∈ cols) &&
  same_team_games (mkDF cols []) r.

Definition week_out_of_range (cols : list string) (r : row) : bool :=
  bool_decide ("week" ∈ cols) && invalid_weeks (mkDF cols []) r.

Definition games_keep (cols : list string) (r : row) : bool :=
  date_ok cols (games_row cols r) &&
  negb (self_play cols (games_row cols r)) &&
  negb (week_out_of_range cols (games_row cols r)).

(** The rows left by the game cleaner's [drop_duplicates]. *)
Definition games_dedup (cols : list string) (rs : list row) : list row :=
  if bool_decide ("game_id" ∈ cols) then dedup (getc cols "game_id") [] rs else rs.

(** The table that reaches the business-rule filters: duplicates and
    undated rows gone, every cell coerced. *)
Definition entering (cols : list string) (rs : list row) : list row :=
  games_row cols <$>
    filter (λ r, date_ok cols (games_row cols r)) (games_dedup cols rs).

End RowView.

(** The elementwise update of one column. *)
Definition upd (col : string) (f : cell → cell) (l : string) (a : cell) : cell :=
  if bool_decide (l = col) then f a else a.

(** A frame in row form: the rows of a table [rs] that pass [p], each
    rewritten cell by cell with [h]. *)
Definition view (cols : list string) (h : string → cell → cell)
    (p : row → bool) (rs : list row) : DataFrame :=
  mkDF cols (map_cells h cols <$> filter (λ r, p r) rs).

(** A string that does not start with whitespace. *)
Definition no_lead (s : string) : Prop :=
  match s with String a _ => is_space a = false | EmptyString => True end.

(** No new label of a mapping is itself an old label. *)
Definition closed_mapping (m : gmap string string) : Prop :=
  ∀ c v, m !! c = Some v → m !! v = None.

(** The warning a filter writes: none when it removes nothing. *)
Definition warn_count (w : nat → log_entry) (n : nat) : list log_entry :=
  if (0 <? n)%nat then [w n] else [].


(** ** The feature engine *)

(** [df[col] = values], the values computed row by row: the column is
    replaced where it stands, or appended on the right when it is new. *)
Definition set_column (col : string) (f : row → cell) (df : DataFrame) : DataFrame :=
  match index_of col (columns df) with
  | Some i => mkDF (columns df) ((λ r, <[i := f r]> r) <$> rows df)
  | None => mkDF (columns df ++ [col]) ((λ r, r ++ [f r]) <$> rows df)
  end.

(** Arithmetic of numeric series: a missing operand gives a missing
    result.  The engine runs on cleaned games, whose score columns hold
    numbers; on a cell that is not a number, where pandas raises, the
    model yields the missing value.  The results are exact: the code
    computes in int64 or float64, which give the exact result on whole
    numbers of magnitude up to 2^52 ([small_whole] below), and wrap or
    round beyond. *)
Definition num_sub (a b : cell) : cell :=
  match a, b with CNum p, CNum q => CNum (p - q) | _, _ => CNaN end.

Definition num_add (a b : cell) : cell :=
  match a, b with CNum p, CNum q => CNum (p + q) | _, _ => CNaN end.

Definition num_abs (a : cell) : cell :=
  match a with CNum p => CNum (Qabs p) | _ => CNaN end.

(** Elementwise [>] of two numeric series. *)
Definition num_gt (a b : cell) : bool :=
  match a, b with CNum p, CNum q => Qlt_bool q p | _, _ => false end.

(** [np.where(cond, x, y)], element by element. *)
Definition np_where (cond : bool) (x y : cell) : cell := if cond then x else y.

(** A Python [bool] as the number it is. *)
Definition of_bool (b : bool) : cell := CNum (if b then 1 else 0).

(** A bin edge of [pd.cut]: a number or [float('inf')]. *)
Inductive edge : Type :=
| Finite (q : Q)
| Infinity.

Definition edge_lt (e : edge) (x : Q) : bool :=
  match e with Finite q => Qlt_bool q x | Infinity => false end.

Definition edge_eq (e : edge) (x : Q) : bool :=
  match e with Finite q => Qeq_bool q x | Infinity => false end.

Definition le_edge (x : Q) (e : edge) : bool :=
  match e with Finite q => Qle_bool x q | Infinity => true end.

(** The label of the interval [(lo, hi]] that holds [x], walking the
    edges upward; [lowest] marks the first interval, closed on the left
    too under [include_lowest=True]. *)
Fixpoint cut_from (lowest : bool) (lo : edge) (bins : list edge)
    (labels : list string) (x : Q) : cell :=
  match bins, labels with
  | hi :: bins', l :: labels' =>
      if (edge_lt lo x || (lowest && edge_eq lo x)) && le_edge x hi
      then CStr l
      else cut_from false hi bins' labels' x
  | _, _ => CNaN
  end.

(** [pd.cut(s, bins=bins, labels=labels, include_lowest=True)]: a value
    outside every interval, like a missing one, gets no category. *)
Definition cut (bins : list edge) (labels : list string) (a : cell) : cell :=
  match a, bins with
  | CNum x, lo :: bins' => cut_from true lo bins' labels x
  | _, _ => CNaN
  end.

Definition closeness_bins : list edge :=
  [Finite 0; Finite 3; Finite 7; Finite 14; Infinity].
Definition closeness_labels : list string :=
  ["Very Close (1-3)"; "Close (4-7)"; "Moderate (8-14)"; "Blowout (15+)"].

Definition scoring_bins : list edge :=
  [Finite 0; Finite 35; Finite 45; Finite 55; Infinity].
Definition scoring_labels : list string :=
  ["Low Scoring (≤35)"; "Average (36-45)"; "High (46-55)"; "Very High (56+)"].

Definition completed_statuses : list cell :=
  [CStr "Final"; CStr "F"; CStr "Completed"].

(** Point differential, winner, margin of victory and closeness. *)
Definition score_features (games_df : DataFrame) : DataFrame :=
  if has_column "home_score" games_df && has_column "away_score" games_df then
    let games_df :=
      set_column "point_differential"
        (λ r, num_sub (get games_df "home_score" r) (get games_df "away_score" r))
        games_df in
    let games_df :=
      set_column "winner_team_id"
        (λ r, np_where
                (num_gt (get games_df "home_score" r) (get games_df "away_score" r))
                (get games_df "home_team_id" r)
                (np_where
                   (num_gt (get games_df "away_score" r) (get games_df "home_score" r))
                   (get games_df "away_team_id" r)
                   CNaN))
        games_df in
    let games_df :=
      set_column "margin_of_victory"
        (λ r, num_abs (get games_df "point_differential" r)) games_df in
    set_column "game_closeness"
      (λ r, cut closeness_bins closeness_labels (get games_df "margin_of_victory" r))
      games_df
  else games_df.

(** The game completion flag. *)
Definition completion_flag (games_df : DataFrame) : DataFrame :=
  if has_column "status" games_df then
    set_column "is_completed"
      (λ r, of_bool (isin completed_statuses (get games_df "status" r))) games_df
  else games_df.

(** Total points and the scoring category. *)
Definition total_features (games_df : DataFrame) : DataFrame :=
  if has_column "home_score" games_df && has_column "away_score" games_df then
    let games_df :=
      set_column "total_points"
        (λ r, num_add (get games_df "home_score" r) (get games_df "away_score" r))
        games_df in
    set_column "scoring_category"
      (λ r, cut scoring_bins scoring_labels (get games_df "total_points" r))
      games_df
  else games_df.

(** [create_game_features], without its log records and without the
    calendar block (the conversion of the date and the columns year,
    month, day_of_week, day_name, is_prime_time, is_sunday), which runs
    between the completion flag and the total points and reads nothing
    but the date: [create_game_features_dated] below is the function with
    that block.  [np.where] reads home_team_id and away_team_id: on a frame
    with scores and without them pandas raises a KeyError, where the
    model reads missing values. *)
Definition create_game_features (games_df : DataFrame) : DataFrame :=
  if empty games_df then empty_frame
  else
    let games_df := score_features games_df in
    let games_df := completion_flag games_df in
    total_features games_df.

(** ** The calendar block of the feature engine *)

(** What is left out of [create_game_features] above.  A frame of the
    model holds cells and no dtypes, so the dtype of the date column, on
    which the block branches, is given beside the frame: object (strings,
    [datetime.date] values, as the cleaner leaves them), datetime64, or
    numeric (dates kept as numbers, on which [.dt] is not available). *)
Inductive dtype : Type :=
| ObjectDtype
| DatetimeDtype
| NumericDtype.

(** The exceptions of the block: [pd.to_datetime] on a value it cannot
    read, and [.dt] on a column that is not datetime-like. *)
Inductive calendar_exception : Type :=
| ValueError
| AttributeError.

Inductive calendar_result : Type :=
| Dated (games_df : DataFrame)
| DateError (e : calendar_exception).

Section Calendar.

(** pandas' parsers, as for the cleaners: a value is read on its own,
    as an instant without a time zone.  And its accessors [dt.year],
    [dt.month], [dt.dayofweek] and [dt.day_name()] on an instant. *)
Variable parse_datetime : string → option Z.
Variable num_datetime : Q → option Z.
Variable dt_year : Z → Z.
Variable dt_month : Z → Z.
Variable dt_dayofweek : Z → Z.
Variable dt_day_name : Z → string.

(** [pd.to_datetime] without [errors='coerce'], on one value: no result
    where pandas raises. *)
Definition to_datetime_strict (a : cell) : option cell :=
  match a with
  | CStr s => CStamp <$> parse_datetime s
  | CNum q => CStamp <$> num_datetime q
  | CDate d => Some (CStamp (d * day_ns))
  | CStamp t => Some (CStamp t)
  | CNaN => Some CNaN
  end.

(** [games_df['date'] = pd.to_datetime(games_df['date'])], which raises
    when a value does not read.  The conversion here reads value by
    value; pandas from version 2 on settles on one format for the strings
    of a column, so that it may also raise on strings that each read
    alone.  On a column without strings the two agree. *)
Definition convert_dates (games_df : DataFrame) : option DataFrame :=
  if forallb (λ r, bool_decide (is_Some (to_datetime_strict (get games_df "date" r))))
             (rows games_df)
  then Some (assign "date" (λ a, default CNaN (to_datetime_strict a)) games_df)
  else None.

(** A numeric accessor of [.dt], and [dt.day_name()]: missing on NaT. *)
Definition dt_field (f : Z → Z) (a : cell) : cell :=
  match a with
  | CStamp t => CNum (inject_Z (f t))
  | _ => CNaN
  end.

Definition dt_name (a : cell) : cell :=
  match a with
  | CStamp t => CStr (dt_day_name t)
  | _ => CNaN
  end.

(** The date cell the accessors read: converted when the column has
    dtype object. *)
Definition date_read (date_dtype : dtype) (a : cell) : cell :=
  match date_dtype with
  | ObjectDtype => default CNaN (to_datetime_strict a)
  | _ => a
  end.

(** The six columns derived from a datetime column. *)
Definition calendar_columns_of (games_df : DataFrame) : DataFrame :=
  let games_df :=
    set_column "year" (λ r, dt_field dt_year (get games_df "date" r)) games_df in
  let games_df :=
    set_column "month" (λ r, dt_field dt_month (get games_df "date" r)) games_df in
  let games_df :=
    set_column "day_of_week"
      (λ r, dt_field dt_dayofweek (get games_df "date" r)) games_df in
  let games_df :=
    set_column "day_name" (λ r, dt_name (get games_df "date" r)) games_df in
  let games_df :=
    set_column "is_prime_time"
      (λ r, of_bool (isin [CNum 0; CNum 3] (get games_df "day_of_week" r))) games_df in
  set_column "is_sunday"
    (λ r, of_bool (series_eq (get games_df "day_of_week" r) (CNum 6))) games_df.

(** Extracts temporal features from date. *)
Definition temporal_features (date_dtype : dtype) (games_df : DataFrame)
  : calendar_result :=
  if has_column "date" games_df then
    match date_dtype with
    | ObjectDtype =>
        match convert_dates games_df with
        | Some games_df => Dated (calendar_columns_of games_df)
        | None => DateError ValueError
        end
    | DatetimeDtype => Dated (calendar_columns_of games_df)
    | NumericDtype => DateError AttributeError
    end
  else Dated games_df.

(** [create_game_features] with its calendar block, the dtype of the
    date column given beside the table. *)
Definition create_game_features_dated (date_dtype : dtype) (games_df : DataFrame)
  : calendar_result :=
  if empty games_df then Dated empty_frame
  else
    let games_df := score_features games_df in
    let games_df := completion_flag games_df in
    match temporal_features date_dtype games_df with
    | Dated games_df => Dated (total_features games_df)
    | DateError e => DateError e
    end.

End Calendar.

(** Stand-ins for the accessors: the civil date of a day number of the
    proleptic Gregorian calendar, and the weekday from the fact that day 0
    was a Thursday. *)
Definition civil_from_days (z : Z) : Z * Z * Z :=
  let z := (z + 719468)%Z in
  let era := (z / 146097)%Z in
  let doe := (z - era * 146097)%Z in
  let yoe := ((doe - doe / 1460 + doe / 36524 - doe / 146096) / 365)%Z in
  let doy := (doe - (365 * yoe + yoe / 4 - yoe / 100))%Z in
  let mp := ((5 * doy + 2) / 153)%Z in
  let d := (doy - (153 * mp + 2) / 5 + 1)%Z in
  let m := if (mp <? 10)%Z then (mp + 3)%Z else (mp - 9)%Z in
  let y := (yoe + era * 400)%Z in
  (if (m <=? 2)%Z then (y + 1)%Z else y, m, d).

Definition year_of (t : Z) : Z := (civil_from_days (t / day_ns)).1.1.
Definition month_of (t : Z) : Z := (civil_from_days (t / day_ns)).1.2.
Definition weekday_of (t : Z) : Z := ((t / day_ns + 3) mod 7)%Z.
Definition weekday_name (t : Z) : string :=
  default "" (["Monday"; "Tuesday"; "Wednesday"; "Thursday"; "Friday"; "Saturday";
               "Sunday"] !! Z.to_nat (weekday_of t)).

Definition dated_features : dtype → DataFrame → calendar_result :=
  create_game_features_dated iso_date epoch_ns year_of month_of weekday_of weekday_name.

(** ** The team aggregator *)

(** What a call comes to: a value returned or an exception raised. *)
Inductive exception : Type :=
| KeyError (key : string).

Inductive outcome (A : Type) : Type :=
| Returned (a : A)
| Raised (e : exception).

Arguments Returned {A} a.
Arguments Raised {A} e.

#[export] Instance outcome_ret : MRet outcome := λ A a, Returned a.
#[export] Instance outcome_bind : MBind outcome := λ A B f m,
  match m with
  | Returned a => f a
  | Raised e => Raised e
  end.

(** A game as the aggregator reads it off the feature table: identifiers
    are integers or missing, scores are numbers (the cleaner has filled
    the missing ones with 0). *)
Record Game : Type := mkGame {
  game_id : option Z;
  home_team_id : option Z;
  away_team_id : option Z;
  home_score : Q;
  away_score : Q;
  point_differential : Q;
  is_completed : bool
}.

(** A frame of aggregates: the labels of its columns, and its rows, each
    with the team it belongs to (the first column) and the cells of the
    other columns. *)
Record Table (A : Type) : Type := mkTable {
  labels : list string;
  body : list (Z * A)
}.

Arguments mkTable {A} labels body.
Arguments labels {A} t.
Arguments body {A} t.

(** One side (home or away) of a team's record, as [groupby(...).agg]
    computes it.  The standard deviation of the points, a square root that
    no derived column reads, is left out. *)
Record SideAgg : Type := mkAgg {
  agg_games : Q;
  agg_avg_points_scored : Q;
  agg_total_points : Q;
  agg_avg_points_allowed : Q;
  agg_avg_differential : Q
}.

(** The same once the wins are merged in. *)
Record SideStats : Type := mkSide {
  side_games : Q;
  avg_points_scored_side : Q;
  total_points_side : Q;
  avg_points_allowed_side : Q;
  avg_differential_side : Q;
  side_wins : Q
}.

(** A row of team_stats before ranking. *)
Record TeamStats : Type := mkTeam {
  team_id : Z;
  home : SideStats;
  away : SideStats;
  total_games : Q;
  total_wins : Q;
  total_losses : Q;
  win_percentage : Q;
  avg_points_scored : Q;
  avg_points_allowed : Q;
  net_points : Q;
  home_field_advantage : Q
}.

(** A row of the ranked table. *)
Record RankedTeam : Type := mkRanked {
  stats : TeamStats;
  power_ranking : nat
}.

Definition of_nat (n : nat) : Q := inject_Z (Z.of_nat n).

Definition Qsum (l : list Q) : Q := foldr Qplus 0%Q l.

(** [Series.mean()] of a non-empty group. *)
Definition mean (l : list Q) : Q := (Qsum l / of_nat (length l))%Q.

(** The keys of [groupby(col)]: the values present, each once, in
    increasing order; rows with a missing key belong to no group. *)
Definition group_keys (col : Game → option Z) (games : list Game) : list Z :=
  merge_sort Z.le (remove_dups (omap col games)).

Definition group (col : Game → option Z) (k : Z) (games : list Game) : list Game :=
  filter (λ g, col g = Some k) games.

(** [groupby(col)] followed by an aggregation and [reset_index()]: one
    row per key. *)
Definition groupby {A} (col : Game → option Z) (agg : list Game → A)
    (games : list Game) : list (Z * A) :=
  (λ k, (k, agg (group col k games))) <$> group_keys col games.

(** ['game_id': 'count']: the rows of the group whose game_id is not
    missing. *)
Definition count_game_id (games : list Game) : nat :=
  length (filter (λ g, is_Some (game_id g)) games).

Definition home_agg (grp : list Game) : SideAgg :=
  {| agg_games := of_nat (count_game_id grp);
     agg_avg_points_scored := mean (home_score <$> grp);
     agg_total_points := Qsum (home_score <$> grp);
     agg_avg_points_allowed := mean (away_score <$> grp);
     agg_avg_differential := mean (point_differential <$> grp) |}.

(** The away side, with the differential seen from the away team. *)
Definition away_agg (grp : list Game) : SideAgg :=
  {| agg_games := of_nat (count_game_id grp);
     agg_avg_points_scored := mean (away_score <$> grp);
     agg_total_points := Qsum (away_score <$> grp);
     agg_avg_points_allowed := mean (home_score <$> grp);
     agg_avg_differential := (- mean (point_differential <$> grp))%Q |}.

(** home_stats and away_stats under the labels the code gives their
    columns. *)
Definition home_stats (completed_games : list Game) : Table SideAgg :=
  mkTable ["team_id"; "home_games"; "avg_points_scored_home"; "total_points_home";
           "std_points_home"; "avg_points_allowed_home"; "avg_differential_home"]
          (groupby home_team_id home_agg completed_games).

Definition away_stats (completed_games : list Game) : Table SideAgg :=
  mkTable ["team_id"; "away_games"; "avg_points_scored_away"; "total_points_away";
           "std_points_away"; "avg_points_allowed_away"; "avg_differential_away"]
          (groupby away_team_id away_agg completed_games).

Definition home_win (g : Game) : bool := Qlt_bool (away_score g) (home_score g).
Definition away_win (g : Game) : bool := Qlt_bool (home_score g) (away_score g).

(** [completed_games[home_score > away_score].groupby('home_team_id')
    .size().reset_index(name='home_wins')]: the key column keeps the label
    it was grouped under. *)
Definition home_wins (completed_games : list Game) : Table nat :=
  mkTable ["home_team_id"; "home_wins"]
          (groupby home_team_id length (filter (λ g, home_win g) completed_games)).

Definition away_wins (completed_games : list Game) : Table nat :=
  mkTable ["away_team_id"; "away_wins"]
          (groupby away_team_id length (filter (λ g, away_win g) completed_games)).

(** The row of a team, if the frame has one. *)
Definition row_of {A} (t : Table A) (k : Z) : option A :=
  (list_to_map (body t) : gmap Z A) !! k.

(** The labels of a merged frame: the join column comes once. *)
Definition merged_labels (on : string) (left right : list string) : list string :=
  left ++ filter (λ l, l ≠ on) right.

(** [left.merge(right, on=on, how='left')].  pandas looks the label [on]
    up in both frames and raises KeyError when one of them has no such
    column.  In this program [on] names the team column of the left
    frame, on which the rows are matched. *)
Definition merge_left {A B} (on : string) (left : Table A) (right : Table B)
  : outcome (Table (A * option B)) :=
  if bool_decide (on ∈ labels left ∧ on ∈ labels right) then
    Returned (mkTable (merged_labels on (labels left) (labels right))
                      ((λ r, (r.1, (r.2, row_of right r.1))) <$> body left))
  else Raised (KeyError on).

(** [left.merge(right, on=on, how='outer')]: one row per key of either
    frame, in increasing order of the key. *)
Definition merge_outer {A B} (on : string) (left : Table A) (right : Table B)
  : outcome (Table (option A * option B)) :=
  if bool_decide (on ∈ labels left ∧ on ∈ labels right) then
    Returned (mkTable (merged_labels on (labels left) (labels right))
                      ((λ k, (k, (row_of left k, row_of right k)))
                       <$> merge_sort Z.le (remove_dups ((body left).*1 ++ (body right).*1))))
  else Raised (KeyError on).

(** [frame['home_wins'] = frame['home_wins'].fillna(0)], and the same for
    the away side. *)
Definition fill_wins (t : Table (SideAgg * option nat)) : Table SideStats :=
  mkTable (labels t)
          ((λ r, (r.1,
                  {| side_games := agg_games r.2.1;
                     avg_points_scored_side := agg_avg_points_scored r.2.1;
                     total_points_side := agg_total_points r.2.1;
                     avg_points_allowed_side := agg_avg_points_allowed r.2.1;
                     avg_differential_side := agg_avg_differential r.2.1;
                     side_wins := of_nat (default 0%nat r.2.2) |}))
           <$> body t).

(** A side absent from the outer merge, after [fillna(0)]. *)
Definition no_side : SideStats := mkSide 0 0 0 0 0 0.

(** [Series.replace(0, 1)] *)
Definition replace_0_1 (x : Q) : Q := if Qeq_bool x 0 then 1%Q else x.

(** The overall columns of a merged row. *)
Definition overall (k : Z) (h a : SideStats) : TeamStats :=
  let total_games := (side_games h + side_games a)%Q in
  let total_wins := (side_wins h + side_wins a)%Q in
  let avg_points_scored :=
    ((avg_points_scored_side h * side_games h +
      avg_points_scored_side a * side_games a) / replace_0_1 total_games)%Q in
  let avg_points_allowed :=
    ((avg_points_allowed_side h * side_games h +
      avg_points_allowed_side a * side_games a) / replace_0_1 total_games)%Q in
  {| team_id := k; home := h; away := a;
     total_games := total_games;
     total_wins := total_wins;
     total_losses := (total_games - total_wins)%Q;
     win_percentage := (total_wins / replace_0_1 total_games)%Q;
     avg_points_scored := avg_points_scored;
     avg_points_allowed := avg_points_allowed;
     net_points := (avg_points_scored - avg_points_allowed)%Q;
     home_field_advantage := (avg_differential_side h - avg_differential_side a)%Q |}.

(** [team_stats.fillna(0)] and the overall columns, row by row. *)
Definition overall_stats (t : Table (option SideStats * option SideStats))
  : list TeamStats :=
  (λ r, overall r.1 (default no_side r.2.1) (default no_side r.2.2)) <$> body t.

(** The order of [sort_values(['win_percentage', 'net_points'],
    ascending=[False, False])]: [a] goes strictly before [b]. *)
Definition ranks_above (a b : TeamStats) : bool :=
  Qlt_bool (win_percentage b) (win_percentage a) ||
  (Qeq_bool (win_percentage a) (win_percentage b) &&
   Qlt_bool (net_points b) (net_points a)).

(** Sorting on several columns is stable in pandas (a lexicographic
    sort on the keys): rows with equal keys keep the order they came in.
    A row is inserted after the rows that rank strictly above it. *)
Fixpoint insert_row (a : TeamStats) (l : list TeamStats) : list TeamStats :=
  match l with
  | [] => [a]
  | b :: l' => if ranks_above b a then b :: insert_row a l' else a :: l
  end.

Definition sort_values (l : list TeamStats) : list TeamStats :=
  foldr insert_row [] l.

(** [team_stats['power_ranking'] = range(1, len(team_stats) + 1)] *)
Definition rank (l : list TeamStats) : list RankedTeam :=
  imap (λ i t, mkRanked t (S i)) l.

(** The completed games: by the flag when the table has one, else by a
    positive score. *)
Definition completed (flagged : bool) (games_df : list Game) : list Game :=
  if flagged then filter (λ g, is_completed g) games_df
  else filter (λ g, Qlt_bool 0 (home_score g) || Qlt_bool 0 (away_score g)) games_df.

(** [create_team_aggregations], without its log records; [flagged] says
    whether the table has an is_completed column.  An empty table stands
    for [pd.DataFrame()]. *)
Definition create_team_aggregations (flagged : bool) (games_df : list Game)
  : outcome (list RankedTeam) :=
  match games_df with
  | [] => mret []
  | _ =>
      let completed_games := completed flagged games_df in
      match completed_games with
      | [] => mret []
      | _ =>
          home_merged ← merge_left "team_id" (home_stats completed_games)
                                             (home_wins completed_games);
          let home_stats := fill_wins home_merged in
          away_merged ← merge_left "team_id" (away_stats completed_games)
                                             (away_wins completed_games);
          let away_stats := fill_wins away_merged in
          team_stats ← merge_outer "team_id" home_stats away_stats;
          let team_stats := overall_stats team_stats in
          mret (rank (sort_values team_stats))
      end
  end.


(** ** Tables to run the pipeline on *)

(** A team table with no identifier column. *)
Definition teams_without_id : DataFrame :=
  mkDF ["Name"; "City"; "Conference"]
       [[CStr "Bears"; CStr " Chicago"; CStr "NFC"];
        [CStr "Bears"; CStr "Chicago"; CStr "XFC"]].

(** A team table whose identifiers are the numbers 7 and 7.5. *)
Definition teams_fractional_id : DataFrame :=
  mkDF ["TeamID"; "Name"]
       [[CNum 7; CStr "Bears"]; [CNum (15 # 2); CStr "Lions"]].

(** A team table with a repeated identifier. *)
Definition teams_repeated_id : DataFrame :=
  mkDF ["TeamID"; "Name"; "Conference"]
       [[CNum 7; CStr "Bears"; CStr "NFC "];
        [CStr "12"; CStr "Lions"; CNaN];
        [CNum 7; CStr "Bears again"; CStr "AFC"]].

(** A game whose season, week and home team do not parse. *)
Definition games_unparsable : DataFrame :=
  mkDF ["GameID"; "Season"; "Week"; "HomeTeamID"; "AwayTeamID"]
       [[CNum 1; CStr "abc"; CStr "n/a"; CStr "?"; CNum 2]].

(** A single game, in week 25. *)
Definition games_week_25 : DataFrame :=
  mkDF ["GameID"; "Week"] [[CNum 1; CNum 25]].

(** Games with a repeated identifier, a self-play game, a game in week
    25 and a game with both faults. *)
Definition games_mixed : DataFrame :=
  mkDF ["GameID"; "Week"; "HomeTeamID"; "AwayTeamID"; "Date"; "HomeScore"; "AwayScore"]
       [[CNum 1; CStr "1"; CNum 10; CNum 20; CStr "2024-09-08"; CStr "21"; CStr "14"];
        [CNum 1; CStr "2"; CNum 30; CNum 40; CStr "2024-09-15"; CStr "3"; CStr "0"];
        [CNum 2; CStr "2"; CNum 30; CNum 30; CStr "2024-09-15"; CStr "7"; CStr "7"];
        [CNum 3; CStr "25"; CNum 10; CNum 40; CStr "2024-09-15"; CNaN; CNaN];
        [CNum 4; CStr "25"; CNum 20; CNum 20; CStr "2024-09-15"; CNaN; CNaN];
        [CNum 5; CStr "3"; CNum 20; CNum 10; CStr "2024-09-22"; CStr "17"; CStr "17"]].

(** A game whose two team identifiers are the same name, not a number. *)
Definition games_same_name : DataFrame :=
  mkDF ["GameID"; "HomeTeamID"; "AwayTeamID"; "Week"]
       [[CNum 1; CStr "CHI"; CStr "CHI"; CNum 1]].

(** One completed game that ends level. *)
Definition one_tie : list Game :=
  [mkGame (Some 1%Z) (Some 10%Z) (Some 20%Z) 17 17 0 true].

(** Two completed games with the same score: teams 10 and 30 win at home,
    teams 20 and 40 lose away. *)
Definition level_teams : list Game :=
  [mkGame (Some 1%Z) (Some 10%Z) (Some 20%Z) 24 17 7 true;
   mkGame (Some 2%Z) (Some 30%Z) (Some 40%Z) 24 17 7 true].

(** Sixteen completed games of team 1: ten at home, where it scores 24,
    and six away, where it scores 20. *)
Definition sixteen_games : list Game :=
  ((λ i, mkGame (Some i) (Some 1%Z) (Some 2%Z) 24 17 7 true) <$> seqZ 1 10)
  ++ ((λ i, mkGame (Some i) (Some 2%Z) (Some 1%Z) 17 20 (-3) true) <$> seqZ 11 6).


(** Three rows, two games: the first row of game 1 has a date that does
    not read, the second row of game 1 is in order. *)
Definition games_bad_first : DataFrame :=
  mkDF ["GameID"; "Date"; "Week"]
       [[CNum 1; CStr "soon"; CNum 1];
        [CNum 1; CStr "2024-09-08"; CNum 1];
        [CNum 2; CStr "2024-09-15"; CNum 2]].

(** A team table with a repeated identifier, an identifier that is not a
    number, one with a fraction, and conferences of every kind. *)
Definition teams_mixed : DataFrame :=
  mkDF ["TeamID"; "Name"; "City"; "Conference"]
       [[CNum 1; CStr " Bears "; CStr "Chicago"; CStr "NFC "];
        [CNum 1; CStr "Bears B"; CNaN; CStr "AFC"];
        [CStr "x"; CStr "Ghosts"; CNaN; CStr "XFC"];
        [CNum (5 # 2); CStr "Lions"; CNaN; CNaN]].

(** A table with one score column only, and a status spelt two ways. *)
Definition games_one_score : DataFrame :=
  mkDF ["game_id"; "home_score"; "status"]
       [[CNum 1; CNum 21; CStr "Final"]; [CNum 2; CNum 3; CStr "final"]].

(** Ten home games at 24 points with seven wins, six away games at 20
    points with two wins. *)
Definition ten_home_games : SideStats := mkSide 10 24 240 17 7 7.
Definition six_away_games : SideStats := mkSide 6 20 120 23 (-3) 2.

(** Three completed games, the second one level. *)
Definition games_with_tie : list Game :=
  [mkGame (Some 1%Z) (Some 10%Z) (Some 20%Z) 21 14 7 true;
   mkGame (Some 2%Z) (Some 30%Z) (Some 40%Z) 17 17 0 true;
   mkGame (Some 3%Z) (Some 30%Z) (Some 10%Z) 3 10 (-7) true].

(** A cleaned table of two games with their dates, a Sunday and a
    Monday: a home win that is final and a tie still scheduled. *)
Definition games_dated : DataFrame :=
  mkDF ["game_id"; "date"; "home_team_id"; "away_team_id"; "home_score"; "away_score";
        "status"]
       [[CNum 1; CDate 19974; CNum 10; CNum 20; CNum 21; CNum 14; CStr "Final"];
        [CNum 2; CDate 19975; CNum 30; CNum 40; CNum 17; CNum 17; CStr "Scheduled"]].

(** The same games before cleaning, the second date unreadable. *)
Definition games_undated : DataFrame :=
  mkDF ["game_id"; "date"; "home_team_id"; "away_team_id"; "home_score"; "away_score";
        "status"]
       [[CNum 1; CStr "2024-09-08"; CNum 10; CNum 20; CNum 21; CNum 14; CStr "Final"];
        [CNum 2; CStr "soon"; CNum 30; CNum 40; CNum 17; CNum 17; CStr "Scheduled"]].

(** What the engine makes of the two games: the score features, the
    completion flag, the calendar columns and the totals. *)
Definition games_dated_features : DataFrame :=
  mkDF ["game_id"; "date"; "home_team_id"; "away_team_id"; "home_score"; "away_score";
        "status"; "point_differential"; "winner_team_id"; "margin_of_victory";
        "game_closeness"; "is_completed"; "year"; "month"; "day_of_week"; "day_name";
        "is_prime_time"; "is_sunday"; "total_points"; "scoring_category"]
       [[CNum 1; CStamp 1725753600000000000; CNum 10; CNum 20; CNum 21; CNum 14;
         CStr "Final"; CNum 7; CNum 10; CNum 7; CStr "Close (4-7)"; CNum 1;
         CNum 2024; CNum 9; CNum 6; CStr "Sunday"; CNum 0; CNum 1; CNum 35;
         CStr "Low Scoring (≤35)"];
        [CNum 2; CStamp 1725840000000000000; CNum 30; CNum 40; CNum 17; CNum 17;
         CStr "Scheduled"; CNum 0; CNaN; CNum 0; CStr "Very Close (1-3)"; CNum 0;
         CNum 2024; CNum 9; CNum 0; CStr "Monday"; CNum 1; CNum 0; CNum 34;
         CStr "Low Scoring (≤35)"]].

(** What the engine makes of the table with one score column. *)
Definition games_one_score_features : DataFrame :=
  mkDF ["game_id"; "home_score"; "status"; "is_completed"]
       [[CNum 1; CNum 21; CStr "Final"; CNum 1];
        [CNum 2; CNum 3; CStr "final"; CNum 0]].

(** ** Notions the properties are stated with *)

(** A frame as pandas holds it: labels pairwise distinct, every row as
    long as the list of columns. *)
Definition well_formed (df : DataFrame) : Prop :=
  NoDup (columns df) ∧ Forall (λ r : row, length r = length (columns df)) (rows df).

(** The row of [set_column], for a value already computed. *)
Definition put_cell (cols : list string) (col : string) (v : cell) (r : row) : row :=
  match index_of col cols with
  | Some i => <[i := v]> r
  | None => r ++ [v]
  end.

(** A frame transformation that keeps the rows in place and leaves
    alone every column outside [S]. *)
Definition sets_only (S : list string) (T : DataFrame → DataFrame) : Prop :=
  ∀ df, well_formed df →
    well_formed (T df) ∧
    ∃ t : row → row,
      rows (T df) = t <$> rows df ∧
      ∀ r c, r ∈ rows df → c ∉ S → get (T df) c (t r) = get df c r.

(** The winner and the closeness category of a game, from its cells. *)
Definition winner_of (home_score away_score home_team_id away_team_id : cell) : cell :=
  np_where (num_gt home_score away_score) home_team_id
    (np_where (num_gt away_score home_score) away_team_id CNaN).


(** [a] is not ranked below [b]. *)
Definition not_below (a b : TeamStats) : Prop := ranks_above b a = false.

(** [a] stands at an earlier position of the table than [b]. *)
Definition precedes (a b : TeamStats) (l : list TeamStats) : Prop :=
  ∃ i j, (i < j)%nat ∧ l !! i = Some a ∧ l !! j = Some b.

(** The columns the feature engine sets in the model, and the columns of
    its calendar block: the date, which it turns into timestamps, and the
    six it derives from it. *)
Definition feature_columns : list string :=
  ["point_differential"; "winner_team_id"; "margin_of_victory"; "game_closeness";
   "is_completed"; "total_points"; "scoring_category"].

Definition calendar_columns : list string :=
  ["date"; "year"; "month"; "day_of_week"; "day_name"; "is_prime_time"; "is_sunday"].


(** The columns the engine derives from the scores. *)
Definition score_feature_columns : list string :=
  ["point_differential"; "winner_team_id"; "margin_of_victory"; "game_closeness";
   "total_points"; "scoring_category"].

(** A cell of a numeric column: a number or the missing value. *)
Definition numeric (a : cell) : bool :=
  match a with CNum _ | CNaN => true | _ => false end.

(** What the score block needs in order not to raise: a table with both
    score columns has the two team columns that [np.where] reads, and its
    scores are numbers, which is what [-], [>] and [abs] work on. *)
Definition scores_usable (df : DataFrame) : Prop :=
  "home_score" ∈ columns df → "away_score" ∈ columns df →
  "home_team_id" ∈ columns df ∧ "away_team_id" ∈ columns df ∧
  Forall (λ r, numeric (get df "home_score" r) = true ∧
               numeric (get df "away_score" r) = true) (rows df).


(** A whole number of magnitude at most 2^52: int64 and float64 both
    hold it exactly, and sums and differences of two such numbers too. *)
Definition small_whole (q : Q) : bool :=
  Qeq_bool (inject_Z (Qfloor q)) q && (Z.abs (Qfloor q) <=? 2 ^ 52)%Z.

(** A score on which the arithmetic of the engine is exact. *)
Definition exact_score (a : cell) : bool :=
  match a with CNum q => small_whole q | _ => false end.

Definition scores_exact (df : DataFrame) : Prop :=
  Forall (λ r, exact_score (get df "home_score" r) = true ∧
               exact_score (get df "away_score" r) = true) (rows df).

(** * Properties *)

(** ** Columns and positions *)

Lemma index_of_Some col cols i :
  index_of col cols = Some i → cols !! i = Some col.
Proof.
  revert i. induction cols as [|c cols IH]; intros i; simpl; [done|].
  case_decide as Hc.
  - intros [= <-]. by subst.
  - destruct (index_of col cols) as [j|]; simpl; [|done].
    intros [= <-]. by apply IH.
Qed.

Lemma index_of_is_Some col cols :
  is_Some (index_of col cols) ↔ col ∈ cols.
Proof.
  induction cols as [|c cols IH]; simpl.
  - split; [by intros [? ?]|by intros ?%elem_of_nil].
  - case_decide as Hc.
    + subst. split; [intros _; left|by eauto].
    + rewrite elem_of_cons, <- IH, fmap_is_Some. split; [by right|].
      by intros [->|?].
Qed.

Lemma index_of_None col cols :
  index_of col cols = None ↔ col ∉ cols.
Proof. rewrite <- index_of_is_Some, eq_None_not_Some. done. Qed.

Lemma index_of_NoDup cols i col :
  NoDup cols → cols !! i = Some col → index_of col cols = Some i.
Proof.
  intros Hnd. revert i. induction Hnd as [|c cols Hc Hnd IH]; intros i; [done|].
  destruct i as [|i]; simpl.
  - intros [= ->]. by rewrite decide_True.
  - intros Hi. rewrite decide_False.
    + by rewrite (IH i Hi).
    + intros ->. apply Hc. by eapply list_elem_of_lookup_2.
Qed.

Lemma has_column_elem col df : has_column col df = bool_decide (col ∈ columns df).
Proof. reflexivity. Qed.

Lemma index_of_fmap_inj (f : string → string) cols col :
  NoDup (f <$> cols) → col ∈ cols →
  index_of (f col) (f <$> cols) = index_of col cols.
Proof.
  intros Hnd Hin.
  apply index_of_is_Some in Hin as [i Hi]. rewrite Hi.
  apply index_of_NoDup; [done|].
  rewrite list_lookup_fmap. by rewrite (index_of_Some _ _ _ Hi).
Qed.

(** ** Cell rewrites *)

Lemma lookup_map_cells h cols (r : row) j :
  map_cells h cols r !! j =
  (λ a, match cols !! j with Some l => h l a | None => a end) <$> r !! j.
Proof. unfold map_cells. by rewrite list_lookup_imap. Qed.

Lemma length_map_cells h cols (r : row) : length (map_cells h cols r) = length r.
Proof. unfold map_cells. by rewrite length_imap. Qed.

Lemma map_cells_compose h1 h2 cols (r : row) :
  map_cells h2 cols (map_cells h1 cols r) = map_cells (λ l a, h2 l (h1 l a)) cols r.
Proof.
  apply list_eq; intros j. rewrite !lookup_map_cells.
  destruct (r !! j); simpl; [|done]. by destruct (cols !! j).
Qed.

Lemma map_cells_ext h1 h2 cols (r : row) :
  (∀ l a, h1 l a = h2 l a) → map_cells h1 cols r = map_cells h2 cols r.
Proof.
  intros Hh. apply list_eq; intros j. rewrite !lookup_map_cells.
  destruct (r !! j); simpl; [|done]. destruct (cols !! j); by rewrite ?Hh.
Qed.

Lemma map_cells_id h cols (r : row) :
  (∀ j l a, cols !! j = Some l → r !! j = Some a → h l a = a) →
  map_cells h cols r = r.
Proof.
  intros Hh. apply list_eq; intros j. rewrite lookup_map_cells.
  destruct (r !! j) as [a|] eqn:Hr; simpl; [|done].
  destruct (cols !! j) as [l|] eqn:Hl; [|done]. by rewrite (Hh j l a).
Qed.

Lemma getc_map_cells h cols col (r : row) :
  col ∈ cols →
  getc cols col (map_cells h cols r) =
  match index_of col cols with
  | Some i => match r !! i with Some a => h col a | None => CNaN end
  | None => CNaN
  end.
Proof.
  intros [i Hi]%index_of_is_Some. unfold getc, cell_at. rewrite Hi.
  rewrite lookup_map_cells, (index_of_Some _ _ _ Hi).
  by destruct (r !! i).
Qed.

Lemma alter_map_cells col f cols i (r : row) :
  NoDup cols → index_of col cols = Some i →
  alter f i r = map_cells (upd col f) cols r.
Proof.
  intros Hnd Hi. apply list_eq; intros j.
  rewrite lookup_map_cells, list_lookup_alter.
  case_decide as Hij; [subst j|].
  - rewrite (index_of_Some _ _ _ Hi). unfold upd. by rewrite bool_decide_eq_true_2.
  - destruct (r !! j) as [a|]; simpl; [|done].
    destruct (cols !! j) as [l|] eqn:Hl; [|done].
    unfold upd. rewrite bool_decide_eq_false_2; [done|].
    intros ->. apply (index_of_NoDup _ _ _ Hnd) in Hl. congruence.
Qed.

Lemma map_cells_upd_absent col f cols (r : row) :
  col ∉ cols → map_cells (upd col f) cols r = r.
Proof.
  intros Hc. apply map_cells_id. intros j l a Hl _.
  unfold upd. rewrite bool_decide_eq_false_2; [done|].
  intros ->. apply Hc. by eapply list_elem_of_lookup_2.
Qed.

(** ** Frame operations as row operations *)

Lemma assign_rows col f df :
  NoDup (columns df) →
  assign col f df = mkDF (columns df) (map_cells (upd col f) (columns df) <$> rows df).
Proof.
  intros Hnd. unfold assign.
  destruct (index_of col (columns df)) as [i|] eqn:Hi.
  - f_equal. apply list_fmap_ext. intros _ r _. by eapply alter_map_cells.
  - apply index_of_None in Hi. destruct df as [cols rs]; simpl in *. f_equal.
    rewrite <- (list_fmap_id rs) at 1. apply list_fmap_ext.
    intros _ r _. simpl. by rewrite map_cells_upd_absent.
Qed.

Lemma on_column_rows col f df :
  NoDup (columns df) →
  on_column col f df
  = mkDF (columns df) (map_cells (upd col f) (columns df) <$> rows df).
Proof.
  intros Hnd. unfold on_column. rewrite <- assign_rows by done.
  unfold has_column. case_bool_decide as Hc; [done|].
  unfold assign. apply index_of_None in Hc. by rewrite Hc.
Qed.

Lemma rename_map_lookup mapping df col :
  col ∈ columns df → rename_map mapping df !! col = mapping !! col.
Proof.
  intros Hc. unfold rename_map.
  destruct (mapping !! col) as [new|] eqn:Hm.
  - by apply map_lookup_filter_Some_2.
  - apply map_lookup_filter_None_2. by left.
Qed.

Lemma rename_frame mapping df :
  rename (rename_map mapping df) df
  = mkDF (renamed mapping <$> columns df) (rows df).
Proof.
  unfold rename. f_equal. apply list_fmap_ext. intros i col Hc.
  unfold renamed. rewrite rename_map_lookup; [done|].
  by eapply list_elem_of_lookup_2.
Qed.

Lemma map_cells_ext_in h1 h2 cols (r : row) :
  (∀ l a, l ∈ cols → h1 l a = h2 l a) → map_cells h1 cols r = map_cells h2 cols r.
Proof.
  intros Hh. apply list_eq; intros j. rewrite !lookup_map_cells.
  destruct (r !! j); simpl; [|done].
  destruct (cols !! j) as [l|] eqn:Hl; [|done].
  rewrite Hh; [done|]. by eapply list_elem_of_lookup_2.
Qed.

Lemma filter_ext_in {A} (p q : A → bool) (l : list A) :
  (∀ x, x ∈ l → p x = q x) → filter (λ x, p x) l = filter (λ x, q x) l.
Proof.
  induction l as [|x l IH]; intros Hpq; [done|].
  rewrite !filter_cons, (Hpq x) by left.
  rewrite IH; [done|]. intros y Hy. apply Hpq. by right.
Qed.

Lemma filter_fmap_bool {A B} (f : A → B) (p : B → bool) (l : list A) :
  filter (λ y, p y) (f <$> l) = f <$> filter (λ x, p (f x)) l.
Proof.
  induction l as [|x l IH]; [done|].
  rewrite fmap_cons, !filter_cons, IH. by destruct (p (f x)).
Qed.

Lemma filter_filter_bool {A} (p q : A → bool) (l : list A) :
  filter (λ x, q x) (filter (λ x, p x) l) = filter (λ x, p x && q x) l.
Proof.
  induction l as [|x l IH]; [done|].
  rewrite !filter_cons. destruct (p x) eqn:Hp; simpl.
  - rewrite filter_cons, IH. by destruct (q x).
  - by rewrite IH.
Qed.

Lemma filter_none_bool {A} (m : A → bool) (l : list A) :
  existsb m l = false → filter (λ x, negb (m x)) l = l.
Proof.
  induction l as [|x l IH]; [done|]. simpl.
  intros [Hx Hl]%orb_false_elim. rewrite filter_cons, Hx. simpl. by rewrite IH.
Qed.

Lemma view_plain cols rs : mkDF cols rs = view cols (λ _ a, a) (λ _, true) rs.
Proof.
  unfold view. f_equal.
  assert (filter (λ _ : row, true) rs = rs) as ->.
  { induction rs as [|r rs IH]; [done|]. by rewrite filter_cons, IH. }
  rewrite <- (list_fmap_id rs) at 1. apply list_fmap_ext.
  intros _ r _. simpl. symmetry. by apply map_cells_id.
Qed.

Lemma view_ext cols h1 h2 p1 p2 rs :
  (∀ l a, l ∈ cols → h1 l a = h2 l a) →
  (∀ r, r ∈ rs → p1 r = p2 r) →
  view cols h1 p1 rs = view cols h2 p2 rs.
Proof.
  intros Hh Hp. unfold view. f_equal.
  rewrite (filter_ext_in p1 p2) by done.
  apply list_fmap_ext. intros _ r _. by apply map_cells_ext_in.
Qed.

Lemma view_on_column cols h p rs col f :
  NoDup cols →
  on_column col f (view cols h p rs) = view cols (λ l a, upd col f l (h l a)) p rs.
Proof.
  intros Hnd. rewrite on_column_rows by done. unfold view; simpl. f_equal.
  rewrite <- list_fmap_compose. apply list_fmap_ext.
  intros _ r _. simpl. by rewrite map_cells_compose.
Qed.

Lemma view_assign cols h p rs col f :
  NoDup cols →
  assign col f (view cols h p rs) = view cols (λ l a, upd col f l (h l a)) p rs.
Proof.
  intros Hnd. rewrite assign_rows by done. unfold view; simpl. f_equal.
  rewrite <- list_fmap_compose. apply list_fmap_ext.
  intros _ r _. simpl. by rewrite map_cells_compose.
Qed.

Lemma view_select cols h p rs (m : row → bool) :
  select m (view cols h p rs) = view cols h (λ r, p r && m (map_cells h cols r)) rs.
Proof.
  unfold select, view; simpl. f_equal.
  by rewrite filter_fmap_bool, filter_filter_bool.
Qed.

Lemma view_dropna cols h p rs col :
  dropna col (view cols h p rs)
  = view cols h (λ r, p r && negb (isna (getc cols col (map_cells h cols r)))) rs.
Proof. unfold dropna. by rewrite view_select. Qed.

Lemma select_if_any (m : row → bool) df :
  (if existsb m (rows df) then select (λ r, negb (m r)) df else df)
  = select (λ r, negb (m r)) df.
Proof.
  destruct (existsb m (rows df)) eqn:Hany; [done|].
  unfold select. rewrite filter_none_bool by done. by destruct df.
Qed.

Lemma logged_bind_fst {A B} (m : Logged A) (f : A → Logged B) :
  (m ≫= f).1 = (f m.1).1.
Proof. reflexivity. Qed.

Lemma logged_if_fst {A} (b : bool) e (x y : A) :
  ((if b then log e ;; mret x else mret y) : Logged A).1 = if b then x else y.
Proof. by destruct b. Qed.

Lemma logged_ret_fst {A} (x : A) : (mret x : Logged A).1 = x.
Proof. reflexivity. Qed.


(** Case analysis on a column label against the fixed labels of the code. *)
Ltac in_labels :=
  solve [repeat first [apply list_elem_of_here | apply list_elem_of_further]].

Ltac not_in_labels :=
  let H := fresh in
  intros H; repeat (apply elem_of_cons in H as [H|H]; [discriminate|]);
  by apply elem_of_nil in H.

Ltac label_cases :=
  repeat case_bool_decide;
  repeat match goal with
  | H : _ ∈ _ :: _ |- _ => apply elem_of_cons in H as [H|H]
  | H : _ ∈ [] |- _ => by apply elem_of_nil in H
  | H : @eq string ?x ?y |- _ => first [discriminate H | subst x | subst y]
  | H : ¬ (_ ∈ _) |- _ => exfalso; apply H; in_labels
  | H : ?x ≠ ?x |- _ => by (exfalso; apply H)
  end;
  try done.

(** ** The game cleaner in row form *)

Section GameCleaner.
Variable parse_num : string → option Q.
Variable parse_datetime : string → option Z.
Variable num_datetime : Q → option Z.

Local Abbreviation to_numeric := (to_numeric parse_num).
Local Abbreviation to_datetime := (to_datetime parse_datetime num_datetime).
Local Abbreviation scores_cell := (scores_cell parse_num).
Local Abbreviation dates_cell := (dates_cell parse_datetime num_datetime).
Local Abbreviation numeric_cell := (numeric_cell parse_num).
Local Abbreviation games_cell := (games_cell parse_num parse_datetime num_datetime).
Local Abbreviation games_row := (games_row parse_num parse_datetime num_datetime).
Local Abbreviation games_keep := (games_keep parse_num parse_datetime num_datetime).
Local Abbreviation clean_games_data := (clean_games_data parse_num parse_datetime num_datetime).

Lemma fill_scores_view cols h p rs :
  NoDup cols →
  fill_scores parse_num (view cols h p rs)
  = view cols (λ l a, scores_cell l (h l a)) p rs.
Proof.
  intros Hnd. unfold fill_scores. simpl.
  rewrite !view_on_column by done. apply view_ext; [|done].
  intros l a _. unfold upd, scores_cell, score_columns. label_cases.
Qed.

Lemma coerce_numeric_view cols h p rs :
  NoDup cols →
  coerce_numeric parse_num (view cols h p rs)
  = view cols (λ l a, numeric_cell l (h l a)) p rs.
Proof.
  intros Hnd. unfold coerce_numeric. simpl.
  rewrite !view_on_column by done. apply view_ext; [|done].
  intros l a _. unfold upd, numeric_cell, numeric_columns. label_cases.
Qed.

Lemma isna_dt_date a : isna (dt_date (to_datetime a)) = isna (to_datetime a).
Proof.
  destruct a as [s|q|d|t|]; simpl; try done.
  - by destruct (parse_datetime s).
  - by destruct (num_datetime q).
Qed.

Lemma clean_dates_view cols h p rs :
  NoDup cols →
  clean_dates parse_datetime num_datetime (view cols h p rs)
  = view cols (λ l a, dates_cell l (h l a))
      (λ r, p r && date_ok cols (map_cells (λ l a, dates_cell l (h l a)) cols r)) rs.
Proof.
  intros Hnd. unfold clean_dates, has_column, date_ok. simpl columns.
  case_bool_decide as Hc; simpl negb; simpl orb.
  - rewrite view_assign, view_dropna, view_assign by done.
    apply view_ext.
    + intros l a _. unfold upd, dates_cell. by case_bool_decide.
    + intros r _. f_equal. rewrite !getc_map_cells by done.
      destruct (index_of "date" cols) as [i|]; [|done].
      destruct (r !! i) as [a|]; [|done].
      unfold upd, dates_cell. simpl. by rewrite isna_dt_date.
  - apply view_ext.
    + intros l a Hl. unfold dates_cell.
      rewrite bool_decide_eq_false_2; [done|]. by intros ->.
    + intros r _. by rewrite andb_true_r.
Qed.

Lemma dedup_games_view n cols rs :
  (dedup_games n (mkDF cols rs)).1 = mkDF cols (games_dedup cols rs).
Proof.
  unfold dedup_games, games_dedup, has_column. simpl columns.
  by case_bool_decide.
Qed.

Lemma drop_self_play_view cols h p rs :
  (drop_self_play (view cols h p rs)).1
  = view cols h (λ r, p r && negb (self_play cols (map_cells h cols r))) rs.
Proof.
  unfold drop_self_play, self_play, has_column. simpl columns.
  destruct (bool_decide ("home_team_id" ∈ cols) && bool_decide ("away_team_id" ∈ cols)).
  - rewrite logged_if_fst, select_if_any, view_select. done.
  - simpl. apply view_ext; [done|]. intros r _. by rewrite andb_true_r.
Qed.

Lemma drop_invalid_weeks_view cols h p rs :
  (drop_invalid_weeks (view cols h p rs)).1
  = view cols h (λ r, p r && negb (week_out_of_range cols (map_cells h cols r))) rs.
Proof.
  unfold drop_invalid_weeks, week_out_of_range, has_column. simpl columns.
  destruct (bool_decide ("week" ∈ cols)).
  - rewrite logged_if_fst, select_if_any, view_select. done.
  - simpl. apply view_ext; [done|]. intros r _. by rewrite andb_true_r.
Qed.


Lemma date_ok_numeric cols h (r : row) :
  date_ok cols (map_cells (λ l a, numeric_cell l (h l a)) cols r)
  = date_ok cols (map_cells h cols r).
Proof.
  unfold date_ok. case_bool_decide as Hc; [|done]. simpl.
  by rewrite !getc_map_cells.
Qed.

Lemma clean_games_view df :
  empty df = false → labels_ok games_column_mapping df →
  (clean_games_data df).1
  = view (renamed games_column_mapping <$> columns df) games_cell
      (games_keep (renamed games_column_mapping <$> columns df))
      (games_dedup (renamed games_column_mapping <$> columns df) (rows df)).
Proof.
  intros Hne Hok. unfold clean_games_data. rewrite Hne.
  rewrite rename_frame. set (cols := renamed games_column_mapping <$> columns df) in *.
  do 5 (rewrite logged_bind_fst; cbv zeta). rewrite logged_ret_fst.
  rewrite dedup_games_view, view_plain.
  rewrite fill_scores_view, clean_dates_view, coerce_numeric_view by done.
  rewrite drop_self_play_view, drop_invalid_weeks_view.
  apply view_ext; [done|]. intros r _.
  unfold games_keep, games_row, games_cell. 
  by rewrite date_ok_numeric.
Qed.
End GameCleaner.

(** ** The team cleaner in row form *)

Section TeamCleaner.
Variable parse_num : string → option Q.
Variable str_num : Q → string.
Variable str_date : Z → string.
Variable str_stamp : Z → string.

Local Abbreviation to_numeric := (to_numeric parse_num).
Local Abbreviation str_strip := (str_strip str_num str_date str_stamp).
Local Abbreviation strip_cell := (strip_cell str_num str_date str_stamp).
Local Abbreviation team_id_cell := (team_id_cell parse_num).
Local Abbreviation teams_cell := (teams_cell parse_num str_num str_date str_stamp).
Local Abbreviation teams_row := (teams_row parse_num str_num str_date str_stamp).
Local Abbreviation teams_keep := (teams_keep parse_num str_num str_date str_stamp).
Local Abbreviation clean_teams_data := (clean_teams_data parse_num str_num str_date str_stamp).

Lemma dedup_teams_view n df :
  (dedup_teams n df).1 = mkDF (columns df) (teams_dedup df).
Proof.
  unfold dedup_teams, teams_dedup. destruct (id_column df); [done|]. by destruct df.
Qed.

Lemma fill_missing_view cols h p rs :
  NoDup cols →
  fill_missing (view cols h p rs) = view cols (λ l a, fill_cell l (h l a)) p rs.
Proof.
  intros Hnd. unfold fill_missing. simpl.
  rewrite !view_on_column by done. apply view_ext; [|done].
  intros l a _. unfold upd, fill_cell. label_cases.
Qed.

Lemma strip_text_view cols h p rs :
  NoDup cols →
  strip_text str_num str_date str_stamp (view cols h p rs)
  = view cols (λ l a, strip_cell l (h l a)) p rs.
Proof.
  intros Hnd. unfold strip_text, text_columns. simpl.
  rewrite !view_on_column by done. apply view_ext; [|done].
  intros l a _. unfold upd, strip_cell, text_columns. label_cases.
Qed.

Lemma assign_if_invalid df :
  (if existsb (invalid_conferences df) (rows df)
   then assign "conference"
          (λ a, if isin valid_conferences a then a else CStr "Unknown") df
   else df)
  = assign "conference"
      (λ a, if isin valid_conferences a then a else CStr "Unknown") df.
Proof.
  destruct (existsb _ _) eqn:Hany; [done|].
  unfold assign. destruct (index_of "conference" (columns df)) as [i|] eqn:Hi; [|done].
  destruct df as [cols rs]; simpl in *. f_equal.
  rewrite <- (list_fmap_id rs) at 1. apply list_fmap_ext. intros k r Hr. simpl.
  apply list_eq; intros j. rewrite list_lookup_alter.
  case_decide as Hij; [subst j|done].
  destruct (r !! i) as [a|] eqn:Ha; [|done]. simpl.
  assert (invalid_conferences (mkDF cols rs) r = false) as Hv.
  { apply not_true_iff_false. intros Hv.
    apply not_true_iff_false in Hany. apply Hany.
    apply existsb_exists. exists r. split; [|done].
    apply list_elem_of_In. by eapply list_elem_of_lookup_2. }
  unfold invalid_conferences, get, getc, cell_at in Hv. simpl in Hv.
  rewrite Hi, Ha in Hv. simpl in Hv. apply negb_false_iff in Hv. by rewrite Hv.
Qed.

Lemma validate_conferences_view cols h p rs :
  NoDup cols →
  (validate_conferences (view cols h p rs)).1
  = view cols (λ l a, conference_cell l (h l a)) p rs.
Proof.
  intros Hnd. unfold validate_conferences, has_column. simpl columns.
  case_bool_decide as Hc.
  - rewrite logged_if_fst, assign_if_invalid, view_assign by done.
    apply view_ext; [|done]. intros l a _. unfold upd, conference_cell. label_cases.
  - apply view_ext; [|done]. intros l a Hl. unfold conference_cell.
    rewrite bool_decide_eq_false_2; [done|]. by intros ->.
Qed.

Lemma isna_astype_int a : isna (astype_int (to_numeric a)) = isna (to_numeric a).
Proof. destruct a as [s|q|d|t|]; simpl; try done. by destruct (parse_num s). Qed.

Lemma integer_team_id_view cols h p rs :
  NoDup cols →
  integer_team_id parse_num (view cols h p rs)
  = view cols (λ l a, team_id_cell l (h l a))
      (λ r, p r &&
            (negb (bool_decide ("team_id" ∈ cols)) ||
             negb (isna (getc cols "team_id"
                     (map_cells (λ l a, team_id_cell l (h l a)) cols r))))) rs.
Proof.
  intros Hnd. unfold integer_team_id, has_column. simpl columns.
  case_bool_decide as Hc; simpl negb; simpl orb.
  - rewrite view_assign, view_dropna, view_assign by done.
    apply view_ext.
    + intros l a _. unfold upd, team_id_cell. by case_bool_decide.
    + intros r _. f_equal. rewrite !getc_map_cells by done.
      destruct (index_of "team_id" cols) as [i|]; [|done].
      destruct (r !! i) as [a|]; [|done].
      unfold upd, team_id_cell. simpl. by rewrite isna_astype_int.
  - apply view_ext.
    + intros l a Hl. unfold team_id_cell.
      rewrite bool_decide_eq_false_2; [done|]. by intros ->.
    + intros r _. by rewrite andb_true_r.
Qed.

Lemma clean_teams_view df :
  empty df = false → labels_ok teams_column_mapping df →
  (clean_teams_data df).1
  = view (renamed teams_column_mapping <$> columns df) teams_cell
      (teams_keep (renamed teams_column_mapping <$> columns df))
      (teams_dedup df).
Proof.
  intros Hne Hok. unfold clean_teams_data. rewrite Hne.
  do 4 (rewrite logged_bind_fst; cbv zeta). rewrite logged_ret_fst.
  rewrite dedup_teams_view.
  rewrite rename_frame. simpl columns. simpl rows.
  set (cols := renamed teams_column_mapping <$> columns df) in *.
  rewrite view_plain.
  rewrite fill_missing_view, strip_text_view, validate_conferences_view,
    integer_team_id_view by done.
  apply view_ext; [done|]. by intros r _.
Qed.
End TeamCleaner.

(** ** Keys and duplicates *)

Lemma cell_eqb_refl a : cell_eqb a a = true.
Proof.
  destruct a; simpl; try done; try by apply bool_decide_eq_true_2.
  apply Qeq_bool_refl.
Qed.

Lemma cell_eqb_sym a b : cell_eqb a b = cell_eqb b a.
Proof.
  destruct a, b; simpl; try done; try (apply bool_decide_ext; naive_solver).
  apply Qeq_bool_comm.
Qed.

Lemma cell_eqb_trans a b c :
  cell_eqb a b = true → cell_eqb b c = true → cell_eqb a c = true.
Proof.
  destruct a, b, c; simpl; try done;
    try (rewrite !bool_decide_eq_true; congruence).
  apply Qeq_bool_trans.
Qed.

Lemma seen_false_eqb a b seen :
  existsb (cell_eqb a) seen = false → existsb (cell_eqb b) seen = true →
  cell_eqb a b = false.
Proof.
  intros Ha Hb. apply not_true_iff_false. intros Hab.
  apply not_true_iff_false in Ha. apply Ha.
  apply existsb_exists in Hb as (c & Hc & Hbc).
  apply existsb_exists. exists c. split; [done|]. by eapply cell_eqb_trans.
Qed.

Lemma dedup_first key seen rs (r : row) :
  r ∈ dedup key seen rs →
  existsb (cell_eqb (key r)) seen = false ∧ ∃ k, first_occurrence key rs k r.
Proof.
  revert seen. induction rs as [|r0 rs IH]; intros seen; simpl.
  { by intros ?%elem_of_nil. }
  destruct (existsb (cell_eqb (key r0)) seen) eqn:Hseen.
  - intros (Hr & k & Hk & Hfirst)%IH. split; [done|].
    exists (S k). split; [done|]. intros [|j] r1 Hj; simpl.
    + intros [= <-]. by eapply seen_false_eqb.
    + apply Hfirst. lia.
  - intros [->|Hin]%elem_of_cons.
    + split; [done|]. exists 0%nat. split; [done|]. intros j r1 Hj. lia.
    + apply IH in Hin as (Hr & k & Hk & Hfirst). simpl in Hr.
      apply orb_false_elim in Hr as [Hr0 Hr]. split; [done|].
      exists (S k). split; [done|]. intros [|j] r1 Hj; simpl.
      * by intros [= <-].
      * apply Hfirst. lia.
Qed.

Lemma dedup_distinct key seen rs : distinct (key <$> dedup key seen rs).
Proof.
  revert seen. induction rs as [|r0 rs IH]; intros seen; simpl.
  { constructor. }
  destruct (existsb (cell_eqb (key r0)) seen) eqn:Hseen; [apply IH|].
  rewrite fmap_cons. constructor; [|apply IH].
  apply Forall_fmap, Forall_forall. intros r Hr. simpl.
  apply dedup_first in Hr as [Hr _]. simpl in Hr.
  apply orb_false_elim in Hr as [Hr _]. by rewrite cell_eqb_sym.
Qed.

Lemma dedup_sublist key seen rs : dedup key seen rs `sublist_of` rs.
Proof.
  revert seen. induction rs as [|r0 rs IH]; intros seen; simpl; [done|].
  destruct (existsb _ _); [by apply sublist_cons|by apply sublist_skip].
Qed.

Lemma dedup_id key seen rs :
  distinct (key <$> rs) →
  Forall (λ r, existsb (cell_eqb (key r)) seen = false) rs →
  dedup key seen rs = rs.
Proof.
  revert seen. induction rs as [|r0 rs IH]; intros seen; simpl; [done|].
  intros Hd Hs. inversion Hd as [|? ? Hr0 Hd']; subst.
  apply Forall_cons in Hs as [Hs0 Hs]. rewrite Hs0. f_equal.
  apply IH; [done|]. apply Forall_forall. intros r Hr. simpl.
  apply orb_false_intro.
  - rewrite cell_eqb_sym. rewrite Forall_fmap, Forall_forall in Hr0. by apply Hr0.
  - rewrite Forall_forall in Hs. by apply Hs.
Qed.

Lemma Forall_sublist {A} (P : A → Prop) (l1 l2 : list A) :
  l1 `sublist_of` l2 → Forall P l2 → Forall P l1.
Proof.
  induction 1 as [|a l1 l2 Hsub IH|a l1 l2 Hsub IH]; [done|..];
    intros [Ha Hl]%Forall_cons; [constructor|]; auto.
Qed.

Lemma distinct_sublist l1 l2 : l1 `sublist_of` l2 → distinct l2 → distinct l1.
Proof.
  induction 1 as [|a l1 l2 Hsub IH|a l1 l2 Hsub IH]; intros Hd; [done|..];
    inversion Hd as [|? ? Ha Hd']; subst.
  - constructor; [|by apply IH]. by eapply Forall_sublist.
  - by apply IH.
Qed.

Lemma distinct_apart {A} (k k' : A → cell) (l : list A) :
  distinct (k <$> l) →
  (∀ x y, x ∈ l → y ∈ l →
          cell_eqb (k x) (k y) = false → cell_eqb (k' x) (k' y) = false) →
  distinct (k' <$> l).
Proof.
  induction l as [|x l IH]; [constructor|].
  rewrite !fmap_cons. intros Hd Hk. inversion Hd as [|? ? Hx Hd']; subst.
  constructor.
  - rewrite Forall_fmap, Forall_forall in Hx. apply Forall_fmap, Forall_forall.
    intros y Hy. simpl. apply Hk; [by left|by right|by apply Hx].
  - apply IH; [done|]. intros y z Hy Hz. apply Hk; by right.
Qed.

Lemma distinct_lookup l i j a b :
  distinct l → (i < j)%nat → l !! i = Some a → l !! j = Some b →
  cell_eqb a b = false.
Proof.
  intros Hd. revert i j. induction Hd as [|c l Hc Hd IH]; intros i j Hij; [done|].
  destruct i as [|i], j as [|j]; simpl; try lia.
  - intros [= ->] Hb. rewrite Forall_forall in Hc. apply Hc.
    by eapply list_elem_of_lookup_2.
  - apply IH. lia.
Qed.

(** ** What the cleaners guarantee *)

Section CleanerClaims.

Variable parse_num : string → option Q.
Variable parse_datetime : string → option Z.
Variable num_datetime : Q → option Z.
Variable str_num : Q → string.
Variable str_date : Z → string.
Variable str_stamp : Z → string.

Local Abbreviation to_numeric := (to_numeric parse_num).
Local Abbreviation to_datetime := (to_datetime parse_datetime num_datetime).
Local Abbreviation games_cell := (games_cell parse_num parse_datetime num_datetime).
Local Abbreviation games_row := (games_row parse_num parse_datetime num_datetime).
Local Abbreviation games_keep := (games_keep parse_num parse_datetime num_datetime).
Local Abbreviation clean_games_data := (clean_games_data parse_num parse_datetime num_datetime).
Local Abbreviation teams_cell := (teams_cell parse_num str_num str_date str_stamp).
Local Abbreviation teams_row := (teams_row parse_num str_num str_date str_stamp).
Local Abbreviation teams_keep := (teams_keep parse_num str_num str_date str_stamp).
Local Abbreviation clean_teams_data := (clean_teams_data parse_num str_num str_date str_stamp).
Local Abbreviation entering := (entering parse_num parse_datetime num_datetime).

Lemma getc_games_row_other cols col (r : row) :
  col ∈ cols → col ∉ score_columns → col ≠ "date" → col ∉ numeric_columns →
  getc cols col (games_row cols r) = getc cols col r.
Proof.
  intros Hc H1 H2 H3. unfold games_row. rewrite getc_map_cells by done.
  unfold getc, cell_at. destruct (index_of col cols) as [i|]; [|done].
  destruct (r !! i) as [a|]; [|done]. simpl.
  unfold games_cell, numeric_cell, dates_cell, scores_cell.
  by rewrite !bool_decide_eq_false_2.
Qed.

Lemma getc_games_row_id cols (r : row) :
  "game_id" ∈ cols → getc cols "game_id" (games_row cols r) = getc cols "game_id" r.
Proof.
  intros Hc. apply getc_games_row_other; [done|..];
    unfold score_columns, numeric_columns; try done; not_in_labels.
Qed.

Lemma rows_empty_clean_games df :
  empty df = true → rows (clean_games_data df).1 = [].
Proof. intros He. unfold clean_games_data. by rewrite He. Qed.

Lemma rows_empty_clean_teams df :
  empty df = true → rows (clean_teams_data df).1 = [].
Proof. intros He. unfold clean_teams_data. by rewrite He. Qed.

Lemma elem_of_view_rows cols h p rs (r' : row) :
  r' ∈ rows (view cols h p rs) ↔ ∃ r, r ∈ rs ∧ p r = true ∧ r' = map_cells h cols r.
Proof.
  unfold view; simpl. rewrite list_elem_of_fmap. split.
  - intros (r & -> & Hr). apply list_elem_of_filter in Hr as [Hp Hr].
    exists r. split; [done|]. split; [|done]. by apply Is_true_true.
  - intros (r & Hr & Hp & ->). exists r. split; [done|].
    apply list_elem_of_filter. split; [|done]. by apply Is_true_true.
Qed.

Lemma distinct_view cols h p key key' rs :
  distinct (key <$> rs) →
  (∀ r1 r2, r1 ∈ rs → r2 ∈ rs → cell_eqb (key r1) (key r2) = false →
            cell_eqb (key' (map_cells h cols r1)) (key' (map_cells h cols r2)) = false) →
  distinct (key' <$> rows (view cols h p rs)).
Proof.
  intros Hd Hk. unfold view; simpl. rewrite <- list_fmap_compose.
  apply (distinct_apart key).
  - eapply distinct_sublist; [|done]. apply fmap_sublist, sublist_filter.
  - intros r1 r2 [_ H1]%list_elem_of_filter [_ H2]%list_elem_of_filter. by apply Hk.
Qed.

(** Claim C5, as the code has it.  In the cleaned game table the game_id
    values are pairwise different, and every surviving row is the cleaned
    form of the first input row that carries its game_id.  In the cleaned
    team table every surviving row is the cleaned form of the first input
    row that carries its raw identifier; the cleaned identifiers are
    pairwise different whenever the cleaning (integer coercion of team_id,
    trimming of the abbreviation) keeps different raw identifiers
    different.  [clean_teams_data] drops duplicates on the raw values,
    before it coerces them. *)
Theorem dedup_invariant (teams games : DataFrame) :
  labels_ok teams_column_mapping teams →
  labels_ok games_column_mapping games →
  let tcols := renamed teams_column_mapping <$> columns teams in
  let gcols := renamed games_column_mapping <$> columns games in
  let tout := (clean_teams_data teams).1 in
  let gout := (clean_games_data games).1 in
  ("game_id" ∈ gcols →
     distinct (getc gcols "game_id" <$> rows gout) ∧
     ∀ r', r' ∈ rows gout →
       ∃ k r, first_occurrence (getc gcols "game_id") (rows games) k r ∧
              r' = games_row gcols r)
  ∧
  (∀ c, id_column teams = Some c →
     (∀ r', r' ∈ rows tout →
        ∃ k r, first_occurrence (get teams c) (rows teams) k r ∧
               r' = teams_row tcols r) ∧
     ((∀ r1 r2, r1 ∈ rows teams → r2 ∈ rows teams →
         cell_eqb (get teams c r1) (get teams c r2) = false →
         cell_eqb (getc tcols (renamed teams_column_mapping c) (teams_row tcols r1))
                  (getc tcols (renamed teams_column_mapping c) (teams_row tcols r2)) = false) →
      distinct (getc tcols (renamed teams_column_mapping c) <$> rows tout))).
Proof.
  intros Htok Hgok tcols gcols tout gout. split.
  - intros Hid. subst gout. destruct (empty games) eqn:Hne.
    { rewrite rows_empty_clean_games by done. split; [constructor|].
      by intros r' ?%elem_of_nil. }
    rewrite clean_games_view by done. fold gcols.
    unfold games_dedup. rewrite bool_decide_eq_true_2 by done. split.
    + apply (distinct_view _ _ _ (getc gcols "game_id")); [apply dedup_distinct|].
      intros r1 r2 _ _ Hk. fold (games_row gcols r1) (games_row gcols r2).
      by rewrite !getc_games_row_id.
    + intros r' (r & Hr & _ & ->)%elem_of_view_rows.
      apply dedup_first in Hr as (_ & k & Hk). by exists k, r.
  - intros c Hc. subst tout. destruct (empty teams) eqn:Hne.
    { rewrite rows_empty_clean_teams by done. split; [by intros r' ?%elem_of_nil|].
      intros _. constructor. }
    rewrite clean_teams_view by done. fold tcols.
    unfold teams_dedup. rewrite Hc. split.
    + intros r' (r & Hr & _ & ->)%elem_of_view_rows.
      apply dedup_first in Hr as (_ & k & Hk). by exists k, r.
    + intros Hk. apply (distinct_view _ _ _ (get teams c)); [apply dedup_distinct|].
      intros r1 r2 H1 H2. apply Hk; eapply elem_of_sublist; eauto using dedup_sublist.
Qed.

(** ** Idempotent conversions *)

Lemma no_lead_lstrip s : no_lead (lstrip s).
Proof.
  induction s as [|a s IH]; simpl; [done|].
  by destruct (is_space a) eqn:Ha.
Qed.

Lemma lstrip_no_lead s : no_lead s → lstrip s = s.
Proof. destruct s as [|a s]; simpl; [done|]. by intros ->. Qed.

Lemma no_lead_rstrip s : no_lead s → no_lead (rstrip s).
Proof.
  destruct s as [|a s]; simpl; [done|]. intros Ha.
  destruct (rstrip s); [by rewrite Ha|done].
Qed.

Lemma rstrip_idem s : rstrip (rstrip s) = rstrip s.
Proof.
  induction s as [|a s IH]; simpl; [done|].
  destruct (rstrip s) as [|b t] eqn:Hs.
  - destruct (is_space a) eqn:Ha; simpl; [done|]. by rewrite Ha.
  - change (rstrip (String a (String b t))) with
      (match rstrip (String b t) with
       | EmptyString => if is_space a then EmptyString else String a EmptyString
       | String c u => String a (String c u)
       end).
    by rewrite IH.
Qed.

Lemma strip_idem s : strip (strip s) = strip s.
Proof.
  unfold strip. rewrite (lstrip_no_lead (rstrip (lstrip s))).
  - apply rstrip_idem.
  - apply no_lead_rstrip, no_lead_lstrip.
Qed.

Lemma Qtrunc_inject_Z z : Qtrunc (inject_Z z) = z.
Proof. unfold Qtrunc. simpl. apply Z.quot_1_r. Qed.

Lemma to_numeric_idem a : to_numeric (to_numeric a) = to_numeric a.
Proof. destruct a as [s|q|d|t|]; simpl; try done. by destruct (parse_num s). Qed.

Lemma fill_scores_idem a :
  fillna (CNum 0) (to_numeric (fillna (CNum 0) (to_numeric a)))
  = fillna (CNum 0) (to_numeric a).
Proof. destruct a as [s|q|d|t|]; simpl; try done. by destruct (parse_num s). Qed.

Lemma dt_date_idem a :
  dt_date (to_datetime (dt_date (to_datetime a))) = dt_date (to_datetime a).
Proof.
  assert (∀ t, (t `div` day_ns * day_ns) `div` day_ns = t `div` day_ns)%Z as Hdiv.
  { intros t. by apply Z.div_mul. }
  destruct a as [s|q|d|t|]; simpl; try done; try by rewrite Hdiv.
  - destruct (parse_datetime s); simpl; [by rewrite Hdiv|done].
  - destruct (num_datetime q); simpl; [by rewrite Hdiv|done].
Qed.

Lemma astype_int_idem a :
  astype_int (to_numeric (astype_int (to_numeric a))) = astype_int (to_numeric a).
Proof.
  destruct a as [s|q|d|t|]; simpl; try done; try by rewrite Qtrunc_inject_Z.
  destruct (parse_num s); simpl; [by rewrite Qtrunc_inject_Z|done].
Qed.

Lemma games_cell_idem l a : games_cell l (games_cell l a) = games_cell l a.
Proof.
  unfold games_cell, numeric_cell, dates_cell, scores_cell,
    score_columns, numeric_columns.
  label_cases; auto using to_numeric_idem, fill_scores_idem, dt_date_idem.
Qed.

Lemma str_strip_fill_idem a :
  str_strip str_num str_date str_stamp (fillna (CStr "Unknown")
    (str_strip str_num str_date str_stamp (fillna (CStr "Unknown") a)))
  = str_strip str_num str_date str_stamp (fillna (CStr "Unknown") a).
Proof. unfold str_strip. simpl. by rewrite strip_idem. Qed.

Lemma str_strip_idem a :
  str_strip str_num str_date str_stamp (str_strip str_num str_date str_stamp a)
  = str_strip str_num str_date str_stamp a.
Proof. unfold str_strip. simpl. by rewrite strip_idem. Qed.

Lemma conference_idem a :
  let fix_conf a := if isin valid_conferences a then a else CStr "Unknown" in
  let once := fix_conf (str_strip str_num str_date str_stamp (fillna (CStr "Unknown") a)) in
  fix_conf (str_strip str_num str_date str_stamp (fillna (CStr "Unknown") once)) = once.
Proof.
  intros fix_conf once. subst once fix_conf. cbv beta.
  destruct (isin valid_conferences (str_strip _ _ _ (fillna _ a))) eqn:Hv.
  - rewrite str_strip_fill_idem. by rewrite Hv.
  - reflexivity.
Qed.

Lemma teams_cell_idem l a : teams_cell l (teams_cell l a) = teams_cell l a.
Proof.
  unfold teams_cell, team_id_cell, conference_cell, strip_cell, fill_cell,
    text_columns.
  label_cases;
    auto using astype_int_idem, str_strip_fill_idem, str_strip_idem, conference_idem.
Qed.

(** ** Cleaning a cleaned table *)

Lemma games_mapping_closed : closed_mapping games_column_mapping.
Proof.
  intros c v Hc. apply elem_of_list_to_map_2 in Hc.
  repeat (apply elem_of_cons in Hc as [[= -> ->]|Hc]; [by vm_compute|]).
  by apply elem_of_nil in Hc.
Qed.

Lemma teams_mapping_closed : closed_mapping teams_column_mapping.
Proof.
  intros c v Hc. apply elem_of_list_to_map_2 in Hc.
  repeat (apply elem_of_cons in Hc as [[= -> ->]|Hc]; [by vm_compute|]).
  by apply elem_of_nil in Hc.
Qed.

Lemma renamed_idem m c : closed_mapping m → renamed m (renamed m c) = renamed m c.
Proof.
  intros Hm. unfold renamed. destruct (m !! c) as [v|] eqn:Hc; simpl.
  - by rewrite (Hm c v).
  - by rewrite Hc.
Qed.

Lemma renamed_not_key m c k :
  closed_mapping m → is_Some (m !! k) → renamed m c ≠ k.
Proof.
  intros Hm [w Hk] <-. unfold renamed in Hk.
  destruct (m !! c) as [v|] eqn:Hc; simpl in Hk.
  - rewrite (Hm c v) in Hk; done.
  - congruence.
Qed.

Lemma renamed_fmap_idem m (cols : list string) :
  closed_mapping m → renamed m <$> (renamed m <$> cols) = renamed m <$> cols.
Proof.
  intros Hm. rewrite <- list_fmap_compose. apply list_fmap_ext.
  intros _ c _. simpl. by apply renamed_idem.
Qed.

Lemma filter_all_bool {A} (p : A → bool) (l : list A) :
  (∀ x, x ∈ l → p x = true) → filter (λ x, p x) l = l.
Proof.
  induction l as [|x l IH]; intros Hp; [done|].
  rewrite filter_cons, (Hp x) by left. simpl. f_equal.
  apply IH. intros y Hy. apply Hp. by right.
Qed.

Lemma view_rows_idem cols h (q : row → bool) rs :
  (∀ l a, h l (h l a) = h l a) →
  view cols h (λ r, q (map_cells h cols r))
    (rows (view cols h (λ r, q (map_cells h cols r)) rs))
  = view cols h (λ r, q (map_cells h cols r)) rs.
Proof.
  intros Hh. unfold view; simpl. f_equal.
  assert (∀ r : row, map_cells h cols (map_cells h cols r) = map_cells h cols r) as Hidem.
  { intros r. rewrite map_cells_compose. by apply map_cells_ext. }
  rewrite filter_fmap_bool.
  rewrite (filter_all_bool (λ r, q (map_cells h cols (map_cells h cols r)))).
  - rewrite <- list_fmap_compose. apply list_fmap_ext. intros _ r _. simpl. apply Hidem.
  - intros r [Hr _]%list_elem_of_filter. rewrite Hidem. by apply Is_true_true.
Qed.

Lemma columns_nonempty df : empty df = false → columns df ≠ [].
Proof. unfold empty. by destruct (columns df). Qed.

Lemma empty_false cols rs : cols ≠ [] → rs ≠ [] → empty (mkDF cols rs) = false.
Proof. unfold empty; simpl. by destruct cols, rs. Qed.

Lemma fmap_nonempty {A B} (f : A → B) (l : list A) : l ≠ [] → f <$> l ≠ [].
Proof. by destruct l. Qed.

Lemma id_column_cleaned cols h p rs :
  id_column (view (renamed teams_column_mapping <$> cols) h p rs)
  = if bool_decide ("team_id" ∈ renamed teams_column_mapping <$> cols)
    then Some "team_id" else None.
Proof.
  unfold id_column, id_columns, has_column. simpl.
  assert (∀ k, is_Some (teams_column_mapping !! k) →
               bool_decide (k ∈ renamed teams_column_mapping <$> cols) = false) as Hk.
  { intros k Hk. apply bool_decide_eq_false_2.
    intros (c & Hc & _)%list_elem_of_fmap. symmetry in Hc. revert Hc.
    by apply renamed_not_key; [apply teams_mapping_closed|]. }
  rewrite (Hk "TeamID"), (Hk "Key") by (by vm_compute; eexists).
  by destruct (bool_decide _).
Qed.

(** Claim C6, as the code has it.  Cleaning a cleaned table gives the
    same table back when the cleaned table has at least one row and, for
    teams, its team_id values are pairwise different.  (A cleaned table
    without rows is turned into the frame without columns; team
    identifiers that the integer coercion made equal are deduplicated on
    the second pass.) *)
Theorem cleaners_idempotent_on_rows (teams games : DataFrame) :
  labels_ok teams_column_mapping teams →
  labels_ok games_column_mapping games →
  let tout := (clean_teams_data teams).1 in
  let gout := (clean_games_data games).1 in
  (rows tout ≠ [] →
   ("team_id" ∈ columns tout → distinct (get tout "team_id" <$> rows tout)) →
   (clean_teams_data tout).1 = tout) ∧
  (rows gout ≠ [] → (clean_games_data gout).1 = gout).
Proof.
  intros Htok Hgok tout gout. split.
  - intros Hrows Hids. subst tout.
    destruct (empty teams) eqn:Hne.
    { by rewrite rows_empty_clean_teams in Hrows. }
    rewrite (clean_teams_view _ _ _ _ teams Hne Htok) in *.
    set (cols := renamed teams_column_mapping <$> columns teams) in *.
    set (D := teams_dedup teams) in *.
    assert (renamed teams_column_mapping <$> cols = cols) as Hcols.
    { apply renamed_fmap_idem, teams_mapping_closed. }
    rewrite clean_teams_view; simpl columns.
    + rewrite Hcols. 
      assert (teams_dedup (view cols teams_cell (teams_keep cols) D)
              = rows (view cols teams_cell (teams_keep cols) D)) as ->.
      { unfold teams_dedup. subst cols. rewrite id_column_cleaned.
        case_bool_decide as Hid; [|done].
        apply dedup_id; [by apply Hids|]. by apply Forall_forall. }
      apply (view_rows_idem cols teams_cell
               (λ r', negb (bool_decide ("team_id" ∈ cols)) ||
                      negb (isna (getc cols "team_id" r')))).
      apply teams_cell_idem.
    + apply empty_false; [|done].
      by apply fmap_nonempty, columns_nonempty.
    + unfold labels_ok. simpl columns. by rewrite Hcols.
  - intros Hrows. subst gout.
    destruct (empty games) eqn:Hne.
    { by rewrite rows_empty_clean_games in Hrows. }
    rewrite (clean_games_view _ _ _ games Hne Hgok) in *.
    set (cols := renamed games_column_mapping <$> columns games) in *.
    set (D := games_dedup cols (rows games)) in *.
    assert (renamed games_column_mapping <$> cols = cols) as Hcols.
    { apply renamed_fmap_idem, games_mapping_closed. }
    rewrite clean_games_view; simpl columns.
    + rewrite Hcols.
      assert (games_dedup cols (rows (view cols games_cell (games_keep cols) D))
              = rows (view cols games_cell (games_keep cols) D)) as ->.
      { unfold games_dedup at 1. case_bool_decide as Hid; [|done].
        apply dedup_id; [|by apply Forall_forall].
        subst D. unfold games_dedup. rewrite bool_decide_eq_true_2 by done.
        apply (distinct_view _ _ _ (getc cols "game_id")); [apply dedup_distinct|].
        intros r1 r2 _ _ Hk. fold (games_row cols r1) (games_row cols r2).
        by rewrite !getc_games_row_id. }
      apply (view_rows_idem cols games_cell
               (λ r', date_ok cols r' && negb (self_play cols r') &&
                      negb (week_out_of_range cols r'))).
      apply games_cell_idem.
    + apply empty_false; [|done].
      by apply fmap_nonempty, columns_nonempty.
    + unfold labels_ok. simpl columns. by rewrite Hcols.
Qed.

(** ** A team table without an identifier column *)

Lemma renamed_team_id c :
  renamed teams_column_mapping c = "team_id" → c = "TeamID" ∨ c = "team_id".
Proof.
  unfold renamed. destruct (teams_column_mapping !! c) as [v|] eqn:Hc; simpl.
  - intros ->. apply elem_of_list_to_map_2 in Hc.
    repeat (apply elem_of_cons in Hc as [[= ->]|Hc]; [by left|]).
    repeat (apply elem_of_cons in Hc as [[=]|Hc]).
    by apply elem_of_nil in Hc.
  - by right.
Qed.

(** Claim C2, as the code has it.  On a non-empty team table with none of
    the columns TeamID, team_id and Key, [clean_teams_data] skips the
    deduplication and drops nothing: the result has the rows of the input,
    each cleaned, and is not empty. *)
Theorem no_identifier_keeps_every_row (df : DataFrame) :
  empty df = false →
  labels_ok teams_column_mapping df →
  "TeamID" ∉ columns df → "team_id" ∉ columns df → "Key" ∉ columns df →
  let cols := renamed teams_column_mapping <$> columns df in
  let out := (clean_teams_data df).1 in
  rows out = teams_row cols <$> rows df ∧
  length (rows out) = length (rows df) ∧
  empty out = false.
Proof.
  intros Hne Hok H1 H2 H3 cols out.
  assert (rows out = teams_row cols <$> rows df) as Hrows.
  { subst out. rewrite clean_teams_view by done. fold cols. unfold view; simpl.
    assert (teams_dedup df = rows df) as ->.
    { unfold teams_dedup, id_column, id_columns, has_column. simpl.
      by rewrite !bool_decide_eq_false_2. }
    rewrite filter_all_bool; [done|]. intros r _. unfold teams_keep.
    rewrite bool_decide_eq_false_2; [done|].
    intros (c & Hc & Hin)%list_elem_of_fmap. symmetry in Hc.
    apply renamed_team_id in Hc as [->| ->]; done. }
  split; [done|]. split; [by rewrite Hrows, length_fmap|].
  destruct out as [ocols orows] eqn:Hout. simpl in Hrows. apply empty_false.
  - assert (ocols = columns out) as -> by (by rewrite Hout).
    subst out. rewrite clean_teams_view by done.
    by apply fmap_nonempty, columns_nonempty.
  - rewrite Hrows. apply fmap_nonempty. unfold empty in Hne.
    destruct (columns df), (rows df); done.
Qed.

(** ** Values that do not parse *)

Lemma games_cell_numeric col a :
  col ∈ numeric_columns → games_cell col a = to_numeric a.
Proof.
  intros Hc. unfold games_cell, numeric_cell, dates_cell, scores_cell.
  rewrite (bool_decide_eq_true_2 _ Hc).
  unfold numeric_columns, score_columns in *. label_cases.
Qed.

Lemma isna_true a : isna a = true → a = CNaN.
Proof. by destruct a. Qed.

(** Claim C3, as the code has it.  In the game cleaner a string of season,
    week, home_team_id or away_team_id that does not denote a number
    becomes the missing value, never 0.  A missing week passes the
    week-range filter and a missing team identifier passes the self-play
    filter (every comparison with a missing value is false), and season is
    not filtered at all: a row that passes the date check and the two
    filters is in the cleaned table, missing values and all. *)
Theorem unparsable_numbers_are_kept (df : DataFrame) :
  empty df = false →
  labels_ok games_column_mapping df →
  let cols := renamed games_column_mapping <$> columns df in
  let out := (clean_games_data df).1 in
  ∀ r, r ∈ games_dedup cols (rows df) →
    let r' := games_row cols r in
    (∀ col i s, col ∈ numeric_columns → index_of col cols = Some i →
       r !! i = Some (CStr s) → parse_num s = None →
       getc cols col r' = CNaN) ∧
    (isna (getc cols "week" r') = true → week_out_of_range cols r' = false) ∧
    (isna (getc cols "home_team_id" r') = true ∨
     isna (getc cols "away_team_id" r') = true → self_play cols r' = false) ∧
    (date_ok cols r' = true → self_play cols r' = false →
     week_out_of_range cols r' = false → r' ∈ rows out).
Proof.
  intros Hne Hok cols out r Hr r'. repeat split.
  - intros col i s Hcol Hi Hs Hparse. subst r'. unfold games_row.
    rewrite getc_map_cells by (by apply index_of_is_Some; eexists).
    rewrite Hi, Hs, games_cell_numeric by done. simpl. by rewrite Hparse.
  - intros Hw%isna_true. unfold week_out_of_range, invalid_weeks, get. simpl columns.
    rewrite Hw. simpl. by rewrite andb_false_r.
  - unfold self_play, same_team_games, get. simpl columns.
    intros [Hh%isna_true|Ha%isna_true].
    + rewrite Hh. simpl. by rewrite andb_false_r.
    + rewrite Ha. destruct (getc cols "home_team_id" r'); simpl; by rewrite andb_false_r.
  - intros Hd Hs Hw. subst out. rewrite clean_games_view by done. fold cols.
    apply elem_of_view_rows. exists r. split; [done|]. split; [|done].
    unfold games_keep. fold r'. by rewrite Hd, Hs, Hw.
Qed.

(** ** The business-rule filters and what they log *)

Lemma existsb_filter_length {A} (m : A → bool) (l : list A) :
  existsb m l = (0 <? length (filter (λ x, m x) l))%nat.
Proof.
  induction l as [|x l IH]; [done|]. simpl. rewrite filter_cons.
  by destruct (m x).
Qed.

Lemma filter_false_bool {A} (l : list A) : filter (λ _ : A, false) l = [].
Proof. induction l as [|x l IH]; [done|]. by rewrite filter_cons. Qed.

Lemma drop_self_play_spec d :
  drop_self_play d
  = (select (λ r, negb (self_play (columns d) r)) d,
     warn_count WarnSelfPlay (length (filter (λ r, self_play (columns d) r) (rows d)))).
Proof.
  unfold drop_self_play, self_play, has_column, warn_count.
  destruct (bool_decide _ && bool_decide _); cbn [andb negb].
  - rewrite <- existsb_filter_length.
    unfold same_team_games, get, mask_sum. simpl columns.
    destruct (existsb _ _) eqn:Hany; [done|].
    unfold select. rewrite filter_none_bool by done. by destruct d.
  - unfold select. rewrite filter_all_bool, filter_false_bool by done.
    by destruct d.
Qed.

Lemma drop_invalid_weeks_spec d :
  drop_invalid_weeks d
  = (select (λ r, negb (week_out_of_range (columns d) r)) d,
     warn_count WarnInvalidWeeks
       (length (filter (λ r, week_out_of_range (columns d) r) (rows d)))).
Proof.
  unfold drop_invalid_weeks, week_out_of_range, has_column, warn_count.
  destruct (bool_decide _); cbn [andb negb].
  - rewrite <- existsb_filter_length.
    unfold invalid_weeks, get, mask_sum. simpl columns.
    destruct (existsb _ _) eqn:Hany; [done|].
    unfold select. rewrite filter_none_bool by done. by destruct d.
  - unfold select. rewrite filter_all_bool, filter_false_bool by done.
    by destruct d.
Qed.

Lemma dedup_games_log n cols rs :
  (dedup_games n (mkDF cols rs)).2
  = if bool_decide ("game_id" ∈ cols)
    then [InfoDuplicateGames (n - length (games_dedup cols rs))] else [].
Proof.
  unfold dedup_games, games_dedup, has_column. simpl columns.
  by case_bool_decide.
Qed.

Lemma coerced_frame df :
  empty df = false → labels_ok games_column_mapping df →
  let cols := renamed games_column_mapping <$> columns df in
  coerce_numeric parse_num
    (clean_dates parse_datetime num_datetime
       (fill_scores parse_num
          (dedup_games (length (rows df))
             (rename (rename_map games_column_mapping df) df)).1))
  = mkDF cols (entering cols (rows df)).
Proof.
  intros Hne Hok cols. rewrite rename_frame. fold cols.
  rewrite dedup_games_view, view_plain.
  rewrite fill_scores_view, clean_dates_view, coerce_numeric_view by done.
  unfold entering. apply view_ext; [done|]. intros r _.
  unfold games_row, games_cell. by rewrite date_ok_numeric.
Qed.

Lemma series_eq_num x y : series_eq (CNum x) (CNum y) = Qeq_bool x y.
Proof. reflexivity. Qed.


Lemma logged_bind_snd {A B} (m : Logged A) (f : A → Logged B) :
  (m ≫= f).2 = (m.2 ++ (f m.1).2)%list.
Proof. reflexivity. Qed.

Lemma clean_games_log_eq df :
  empty df = false →
  (clean_games_data df).2
  = let d1 := rename (rename_map games_column_mapping df) df in
    let d5 := coerce_numeric parse_num
                (clean_dates parse_datetime num_datetime
                   (fill_scores parse_num (dedup_games (length (rows df)) d1).1)) in
    let d6 := (drop_self_play d5).1 in
    let d7 := (drop_invalid_weeks d6).1 in
    (InfoCleaningGames ::
     (dedup_games (length (rows df)) d1).2
     ++ (drop_self_play d5).2 ++ (drop_invalid_weeks d6).2
     ++ [InfoGamesCleaned (length (rows d7))])%list.
Proof.
  intros Hne. unfold clean_games_data. rewrite Hne.
  do 5 (rewrite logged_bind_snd; cbv zeta). reflexivity.
Qed.

Lemma clean_games_frame_eq df :
  empty df = false →
  (clean_games_data df).1
  = let d1 := rename (rename_map games_column_mapping df) df in
    let d5 := coerce_numeric parse_num
                (clean_dates parse_datetime num_datetime
                   (fill_scores parse_num (dedup_games (length (rows df)) d1).1)) in
    (drop_invalid_weeks (drop_self_play d5).1).1.
Proof.
  intros Hne. unfold clean_games_data. rewrite Hne.
  do 5 (rewrite logged_bind_fst; cbv zeta). by rewrite logged_ret_fst.
Qed.

(** Claim C7, corrected.  The game cleaner first drops the rows whose
    home and away team identifiers, coerced to numbers, are equal numbers,
    then, from what is left, the rows whose week is a number outside
    [1, 22]; the two warnings it logs, in this order, count the self-play
    rows of the table that reaches the filters and the out-of-range rows
    among those that survive the first filter.  No row of the cleaned
    table has equal numbers as team identifiers or a week below 1 or above
    22 (so none has week 25).  But the comparison comes after the
    coercion: a game one of whose identifiers is not a number reaches the
    filters with that identifier missing, is no self-play row, and stays
    in the cleaned table when its week passes, also when the two
    identifiers of the raw game are the same name. *)
Theorem business_rule_filters (df : DataFrame) :
  empty df = false →
  labels_ok games_column_mapping df →
  let cols := renamed games_column_mapping <$> columns df in
  let out := (clean_games_data df).1 in
  let before := entering cols (rows df) in
  let after_self_play := filter (λ r, negb (self_play cols r)) before in
  rows out = filter (λ r, negb (week_out_of_range cols r)) after_self_play ∧
  (clean_games_data df).2
  = ([InfoCleaningGames]
     ++ (if bool_decide ("game_id" ∈ cols)
         then [InfoDuplicateGames
                 (length (rows df) - length (games_dedup cols (rows df)))]
         else [])
     ++ warn_count WarnSelfPlay (length (filter (λ r, self_play cols r) before))
     ++ warn_count WarnInvalidWeeks
          (length (filter (λ r, week_out_of_range cols r) after_self_play))
     ++ [InfoGamesCleaned (length (rows out))])%list ∧
  (∀ r, r ∈ rows out →
    ("home_team_id" ∈ cols → "away_team_id" ∈ cols →
     ∀ x y, getc cols "home_team_id" r = CNum x →
            getc cols "away_team_id" r = CNum y → ¬ (x == y)%Q) ∧
    ("week" ∈ cols →
     ∀ w, getc cols "week" r = CNum w → (1 <= w)%Q ∧ (w <= 22)%Q)) ∧
  ∀ r, r ∈ before →
    isna (getc cols "home_team_id" r) = true ∨
    isna (getc cols "away_team_id" r) = true →
    self_play cols r = false ∧
    (week_out_of_range cols r = false → r ∈ rows out).
Proof.
  intros Hne Hok cols out before after_self_play.
  assert (out = mkDF cols (filter (λ r, negb (week_out_of_range cols r)) after_self_play))
    as Hout.
  { subst out. rewrite clean_games_frame_eq by done. cbv zeta.
    rewrite (coerced_frame df Hne Hok). fold cols before.
    by rewrite drop_self_play_spec, drop_invalid_weeks_spec. }
  split; [by rewrite Hout|]. split; [|split].
  - rewrite clean_games_log_eq by done. cbv zeta.
    rewrite (coerced_frame df Hne Hok). fold cols before.
    rewrite rename_frame. fold cols. rewrite dedup_games_log.
    rewrite drop_self_play_spec. cbn [fst snd].
    rewrite drop_invalid_weeks_spec. cbn [fst snd].
    by rewrite Hout.
  - rewrite Hout. cbn [rows].
    intros r [Hw [Hs Hr]%list_elem_of_filter]%list_elem_of_filter.
    apply Is_true_true, negb_true_iff in Hw, Hs. split.
    + intros Hh Ha x y Hx Hy Hxy.
      unfold self_play, same_team_games, get in Hs. cbn [columns] in Hs.
      rewrite !bool_decide_eq_true_2, Hx, Hy in Hs by done. cbn in Hs.
      by apply Qeq_bool_neq in Hs.
    + intros Hweek w Hwk.
      unfold week_out_of_range, invalid_weeks, get in Hw. cbn [columns] in Hw.
      rewrite bool_decide_eq_true_2, Hwk in Hw by done. cbn [andb series_lt series_gt] in Hw.
      apply orb_false_elim in Hw as [H1 H2]. unfold Qlt_bool in *.
      apply negb_false_iff, Qle_bool_iff in H1, H2. done.
  - intros r Hr Hna.
    assert (self_play cols r = false) as Hs.
    { unfold self_play, same_team_games, get. cbn [columns].
      destruct Hna as [H%isna_true|H%isna_true]; rewrite H.
      - by rewrite andb_false_r.
      - destruct (getc cols "home_team_id" r); by rewrite andb_false_r. }
    split; [done|]. intros Hw. rewrite Hout. cbn [rows].
    apply list_elem_of_filter. split; [by rewrite Hw|].
    apply list_elem_of_filter. split; [by rewrite Hs|done].
Qed.
End CleanerClaims.

(** ** Numbers *)

Lemma Qlt_bool_iff p q : Qlt_bool p q = true ↔ (p < q)%Q.
Proof.
  unfold Qlt_bool. rewrite negb_true_iff, <- not_true_iff_false, Qle_bool_iff.
  split; [apply Qnot_le_lt|apply Qlt_not_le].
Qed.

Lemma Qlt_bool_false p q : (q <= p)%Q → Qlt_bool p q = false.
Proof.
  intros Hle. apply not_true_iff_false. rewrite Qlt_bool_iff. by apply Qle_not_lt.
Qed.


(** ** Columns set by the feature engine *)

Lemma index_of_lt col cols i : index_of col cols = Some i → (i < length cols)%nat.
Proof. intros Hi%index_of_Some. by eapply lookup_lt_Some. Qed.

Lemma index_of_app_new col cols :
  col ∉ cols → index_of col (cols ++ [col]) = Some (length cols).
Proof.
  induction cols as [|c cols IH]; simpl; intros Hc.
  - by rewrite decide_True.
  - apply not_elem_of_cons in Hc as [Hne Hc].
    rewrite decide_False by done. by rewrite IH.
Qed.

Lemma index_of_app_old c col cols :
  c ≠ col → index_of c (cols ++ [col]) = index_of c cols.
Proof.
  intros Hne. induction cols as [|c' cols IH]; simpl.
  - by rewrite decide_False.
  - case_decide; [done|]. by rewrite IH.
Qed.

Lemma rows_set_column col f df :
  rows (set_column col f df)
  = (λ r, put_cell (columns df) col (f r) r) <$> rows df.
Proof. unfold set_column, put_cell. by destruct (index_of col (columns df)). Qed.

Lemma has_column_set_column c col f df :
  has_column c (set_column col f df) = has_column c df || bool_decide (c = col).
Proof.
  unfold has_column, set_column.
  destruct (index_of col (columns df)) as [i|] eqn:Hi; simpl.
  - apply index_of_Some, list_elem_of_lookup_2 in Hi.
    case_bool_decide as H1; case_bool_decide as H2; try done. by subst.
  - apply eq_true_iff_eq. rewrite orb_true_iff, !bool_decide_eq_true.
    rewrite elem_of_app, list_elem_of_singleton. done.
Qed.

Lemma well_formed_set_column col f df :
  well_formed df → well_formed (set_column col f df).
Proof.
  intros [Hnd Hrect]. unfold set_column.
  destruct (index_of col (columns df)) as [i|] eqn:Hi; split; simpl.
  - done.
  - apply Forall_fmap. eapply Forall_impl; [done|]. intros r Hr. simpl.
    by rewrite length_insert.
  - apply NoDup_app. split; [done|]. split.
    + intros c Hc ->%list_elem_of_singleton. by apply index_of_None in Hi.
    + apply NoDup_singleton.
  - apply Forall_fmap. eapply Forall_impl; [done|]. intros r Hr. simpl.
    rewrite !length_app. simpl. by rewrite Hr.
Qed.

Lemma get_set_column c col f df (r : row) :
  well_formed df → r ∈ rows df →
  get (set_column col f df) c (put_cell (columns df) col (f r) r)
  = if bool_decide (c = col) then f r else get df c r.
Proof.
  intros [Hnd Hrect] Hr. rewrite Forall_forall in Hrect. specialize (Hrect r Hr).
  unfold get, getc, set_column, put_cell, cell_at.
  destruct (index_of col (columns df)) as [i|] eqn:Hi; simpl.
  - case_bool_decide as Hc; [subst c|].
    + rewrite Hi, list_lookup_insert_eq; [done|].
      rewrite Hrect. by eapply index_of_lt.
    + destruct (index_of c (columns df)) as [j|] eqn:Hj; [|done].
      rewrite list_lookup_insert_ne; [done|]. intros <-.
      apply index_of_Some in Hi, Hj. congruence.
  - apply index_of_None in Hi. case_bool_decide as Hc; [subst c|].
    + rewrite index_of_app_new by done.
      rewrite lookup_app_r, Hrect, Nat.sub_diag by lia. done.
    + rewrite index_of_app_old by done.
      destruct (index_of c (columns df)) as [j|] eqn:Hj; [|done].
      rewrite lookup_app_l; [done|]. rewrite Hrect. by eapply index_of_lt.
Qed.

Lemma put_cell_in_rows col f df (r : row) :
  r ∈ rows df → put_cell (columns df) col (f r) r ∈ rows (set_column col f df).
Proof.
  intros Hr. rewrite rows_set_column. apply list_elem_of_fmap. by exists r.
Qed.

Lemma sets_only_set_column col (F : DataFrame → row → cell) :
  sets_only [col] (λ df, set_column col (F df) df).
Proof.
  intros df Hwf. split; [by apply well_formed_set_column|].
  exists (λ r, put_cell (columns df) col (F df r) r). split.
  - apply rows_set_column.
  - intros r c Hr Hc. rewrite get_set_column by done.
    rewrite bool_decide_eq_false_2; [done|].
    intros ->. apply Hc. by left.
Qed.

Lemma sets_only_id S : sets_only S (λ df, df).
Proof.
  intros df Hwf. split; [done|]. exists (λ r, r). split; [|done].
  by rewrite list_fmap_id.
Qed.

Lemma sets_only_weaken S S' T : S ⊆ S' → sets_only S T → sets_only S' T.
Proof.
  intros Hsub HT df Hwf. destruct (HT df Hwf) as (Hwf' & t & Hrows & Hget).
  split; [done|]. exists t. split; [done|].
  intros r c Hr Hc. apply Hget; [done|]. intros Hin. by apply Hc, (Hsub c).
Qed.

Lemma sets_only_compose S T1 T2 :
  sets_only S T1 → sets_only S T2 → sets_only S (λ df, T2 (T1 df)).
Proof.
  intros H1 H2 df Hwf.
  destruct (H1 df Hwf) as (Hwf1 & t1 & Hrows1 & Hget1).
  destruct (H2 (T1 df) Hwf1) as (Hwf2 & t2 & Hrows2 & Hget2).
  split; [done|]. exists (λ r, t2 (t1 r)). split.
  - by rewrite Hrows2, Hrows1, <- list_fmap_compose.
  - intros r c Hr Hc.
    rewrite Hget2; [|rewrite Hrows1; apply list_elem_of_fmap; by exists r|done].
    by rewrite Hget1.
Qed.

Lemma sets_only_if S (b : DataFrame → bool) T :
  sets_only S T → sets_only S (λ df, if b df then T df else df).
Proof.
  intros HT df Hwf. destruct (b df); [by apply HT|by apply sets_only_id].
Qed.

Lemma completion_flag_sets : sets_only ["is_completed"] completion_flag.
Proof.
  unfold completion_flag.
  apply (sets_only_if _ (has_column "status")
           (λ df, set_column "is_completed"
                    (λ r, of_bool (isin completed_statuses (get df "status" r))) df)).
  apply (sets_only_set_column "is_completed"
           (λ df r, of_bool (isin completed_statuses (get df "status" r)))).
Qed.







(** ** The ranking statements *)

Lemma stats_rank l : stats <$> rank l = l.
Proof.
  unfold rank. apply list_eq; intros i.
  rewrite list_lookup_fmap, list_lookup_imap. by destruct (l !! i).
Qed.

Lemma lookup_rank l i t :
  rank l !! i = Some t → l !! i = Some (stats t) ∧ power_ranking t = S i.
Proof.
  unfold rank. rewrite list_lookup_imap. destruct (l !! i); simpl; [|done].
  by intros [= <-].
Qed.

Lemma insert_row_Permutation a l : insert_row a l ≡ₚ a :: l.
Proof.
  induction l as [|b l IH]; simpl; [done|].
  destruct (ranks_above b a); [|done]. rewrite IH. apply Permutation_swap.
Qed.

Lemma sort_values_Permutation l : sort_values l ≡ₚ l.
Proof.
  induction l as [|a l IH]; simpl; [done|].
  by rewrite insert_row_Permutation, IH.
Qed.

Lemma ranks_above_iff a b :
  ranks_above a b = true ↔
  (win_percentage b < win_percentage a)%Q ∨
  ((win_percentage a == win_percentage b)%Q ∧ (net_points b < net_points a)%Q).
Proof.
  unfold ranks_above.
  rewrite orb_true_iff, andb_true_iff, !Qlt_bool_iff, Qeq_bool_iff. done.
Qed.

Lemma not_below_iff a b :
  not_below a b ↔
  (win_percentage b <= win_percentage a)%Q ∧
  ((win_percentage a == win_percentage b)%Q → (net_points b <= net_points a)%Q).
Proof.
  unfold not_below. rewrite <- not_true_iff_false, ranks_above_iff. split.
  - intros Hn. split.
    + apply Qnot_lt_le. intros Hlt. apply Hn. by left.
    + intros Heq. apply Qnot_lt_le. intros Hlt. apply Hn. right.
      split; [by symmetry|done].
  - intros [Hw Hn] [Hlt|[Heq Hlt]].
    + by apply (Qlt_not_le _ _ Hlt).
    + apply (Qlt_not_le _ _ Hlt). apply Hn. by symmetry.
Qed.

Lemma not_below_trans a b c : not_below a b → not_below b c → not_below a c.
Proof.
  rewrite !not_below_iff. intros [Hab Hab'] [Hbc Hbc']. split.
  - by eapply Qle_trans.
  - intros Hac.
    assert (win_percentage a == win_percentage b)%Q as Heq.
    { apply Qle_antisym; [|done]. rewrite Hac. done. }
    eapply Qle_trans; [apply Hbc'|apply Hab']; [|done].
    rewrite <- Heq. done.
Qed.

Lemma ranks_above_not_below a b : ranks_above a b = true → not_below a b.
Proof.
  rewrite ranks_above_iff, not_below_iff. intros [Hlt|[Heq Hlt]].
  - split; [by apply Qlt_le_weak|]. intros Heq. rewrite Heq in Hlt.
    by apply Qlt_irrefl in Hlt.
  - split; [rewrite Heq; apply Qle_refl|]. intros _. by apply Qlt_le_weak.
Qed.

Lemma insert_row_sorted a l :
  StronglySorted not_below l → StronglySorted not_below (insert_row a l).
Proof.
  induction 1 as [|b l Hl IH Hb]; simpl; [by repeat constructor|].
  destruct (ranks_above b a) eqn:Hba.
  - constructor; [done|]. rewrite insert_row_Permutation.
    constructor; [by apply ranks_above_not_below|done].
  - constructor; [by constructor|]. constructor; [done|].
    eapply Forall_impl; [done|]. intros c Hc. by eapply not_below_trans.
Qed.

Lemma sort_values_sorted l : StronglySorted not_below (sort_values l).
Proof.
  induction l as [|a l IH]; simpl; [constructor|]. by apply insert_row_sorted.
Qed.

Lemma precedes_cons a b x l :
  precedes a b (x :: l) ↔ (a = x ∧ b ∈ l) ∨ precedes a b l.
Proof.
  split.
  - intros (i & j & Hij & Hi & Hj). destruct j as [|j]; [lia|].
    destruct i as [|i]; simpl in *.
    + left. split; [congruence|]. by eapply list_elem_of_lookup_2.
    + right. exists i, j. split; [lia|done].
  - intros [[-> Hb]|(i & j & Hij & Hi & Hj)].
    + apply list_elem_of_lookup_1 in Hb as [j Hj]. exists 0%nat, (S j).
      split; [lia|done].
    + exists (S i), (S j). split; [lia|done].
Qed.

Lemma precedes_insert_row a b x l :
  precedes a b l → precedes a b (insert_row x l).
Proof.
  induction l as [|c l IH]; simpl.
  { intros (i & j & _ & Hi & _). done. }
  destruct (ranks_above c x).
  - rewrite !precedes_cons. intros [[-> Hb]|Hp].
    + left. split; [done|]. rewrite insert_row_Permutation. by right.
    + right. by apply IH.
  - intros Hp. apply precedes_cons. by right.
Qed.

Lemma insert_row_before x b l :
  b ∈ l → ranks_above b x = false → precedes x b (insert_row x l).
Proof.
  induction l as [|c l IH]; simpl; [by intros ?%elem_of_nil|].
  intros Hb Hbx. destruct (ranks_above c x) eqn:Hcx.
  - apply elem_of_cons in Hb as [->|Hb]; [congruence|].
    apply precedes_cons. right. by apply IH.
  - apply precedes_cons. by left.
Qed.

Lemma sort_values_stable a b l :
  ranks_above b a = false → precedes a b l → precedes a b (sort_values l).
Proof.
  intros Hba. induction l as [|x l IH]; simpl.
  { intros (i & j & _ & Hi & _). done. }
  intros [[-> Hb]|Hp]%precedes_cons.
  - apply insert_row_before; [|done]. by rewrite sort_values_Permutation.
  - by apply precedes_insert_row, IH.
Qed.

Lemma sorted_lookup {A} (R : relation A) (l : list A) i j a b :
  StronglySorted R l → (i < j)%nat → l !! i = Some a → l !! j = Some b → R a b.
Proof.
  intros Hs. revert i j. induction Hs as [|c l Hs IH Hc]; intros i j Hij; [done|].
  destruct j as [|j]; [lia|]. destruct i as [|i]; simpl.
  - intros [= ->] Hb. rewrite Forall_forall in Hc. apply Hc.
    by eapply list_elem_of_lookup_2.
  - apply IH. lia.
Qed.

(** What the two ranking statements make of a table team_stats: the same
    rows, each once; power_ranking the 1-based position; no row before one
    with a larger win_percentage, nor, at equal win_percentage, before one
    with larger net_points; two teams equal in both in the order they had
    before sorting. *)
Lemma ranked_table_stable (team_stats : list TeamStats) :
  let out := rank (sort_values team_stats) in
  stats <$> out ≡ₚ team_stats ∧
  (∀ i t, out !! i = Some t → power_ranking t = S i) ∧
  (∀ i j a b, (i < j)%nat → out !! i = Some a → out !! j = Some b →
     (win_percentage (stats b) <= win_percentage (stats a))%Q ∧
     ((win_percentage (stats a) == win_percentage (stats b))%Q →
      (net_points (stats b) <= net_points (stats a))%Q)) ∧
  (∀ a b,
     (win_percentage a == win_percentage b)%Q → (net_points a == net_points b)%Q →
     precedes a b team_stats → precedes a b (stats <$> out)).
Proof.
  intros out. subst out.
  rewrite stats_rank. split; [apply sort_values_Permutation|].
  split; [intros i t Ht; by apply lookup_rank in Ht as [_ ?]|]. split.
  - intros i j a b Hij [Ha _]%lookup_rank [Hb _]%lookup_rank.
    apply not_below_iff.
    by eapply (sorted_lookup not_below), Hb; [apply sort_values_sorted|..].
  - intros a b Hw Hn. apply sort_values_stable.
    apply not_true_iff_false. rewrite ranks_above_iff. intros [Hlt|[_ Hlt]].
    + rewrite Hw in Hlt. by apply Qlt_irrefl in Hlt.
    + rewrite Hn in Hlt. by apply Qlt_irrefl in Hlt.
Qed.

(** ** The overall columns *)

Lemma of_nat_nonneg n : (0 <= of_nat n)%Q.
Proof. unfold of_nat, Qle. simpl. lia. Qed.

Lemma of_nat_S n : (of_nat (S n) == of_nat n + 1)%Q.
Proof.
  unfold of_nat. rewrite Nat2Z.inj_succ, <- Z.add_1_r, inject_Z_plus. reflexivity.
Qed.

Lemma replace_0_1_zero x : (x == 0)%Q → replace_0_1 x = 1%Q.
Proof. intros Hx. unfold replace_0_1. by rewrite (Qeq_eq_bool _ _ Hx). Qed.

Lemma replace_0_1_nonzero x : ¬ (x == 0)%Q → replace_0_1 x = x.
Proof.
  intros Hx. unfold replace_0_1. destruct (Qeq_bool x 0) eqn:Hb; [|done].
  by apply Qeq_bool_eq in Hb.
Qed.

Lemma sum_zero_nonneg x y :
  (0 <= x)%Q → (0 <= y)%Q → (x + y == 0)%Q → (x == 0)%Q ∧ (y == 0)%Q.
Proof.
  intros Hx Hy Hs. split; apply Qle_antisym; try done.
  - rewrite <- Hs. rewrite <- (Qplus_0_r x) at 1. by apply Qplus_le_r.
  - rewrite <- Hs. rewrite <- (Qplus_0_l y) at 1. by apply Qplus_le_l.
Qed.

(** The game counts of home_stats and away_stats are counts. *)
Lemma agg_games_nonneg grp :
  (0 <= agg_games (home_agg grp))%Q ∧ (0 <= agg_games (away_agg grp))%Q.
Proof. split; apply of_nat_nonneg. Qed.

(** What the statements after the last merge make of a merged row whose
    game counts are not negative: total_games is home_games + away_games;
    when it is not 0, avg_points_scored is (avg_points_scored_home *
    home_games + avg_points_scored_away * away_games) / total_games and
    win_percentage is total_wins / total_games; when it is 0 the divisor
    is 1 and the weighted sum is 0, so avg_points_scored is 0. *)
Lemma overall_weighted_averages (k : Z) (h a : SideStats) :
  (0 <= side_games h)%Q → (0 <= side_games a)%Q →
  let s := overall k h a in
  let scored :=
    (avg_points_scored_side h * side_games h +
     avg_points_scored_side a * side_games a)%Q in
  total_games s = (side_games h + side_games a)%Q ∧
  total_wins s = (side_wins h + side_wins a)%Q ∧
  (¬ (total_games s == 0)%Q →
     (avg_points_scored s == scored / total_games s)%Q ∧
     (win_percentage s == total_wins s / total_games s)%Q) ∧
  ((total_games s == 0)%Q →
     (scored == 0)%Q ∧ (avg_points_scored s == 0)%Q ∧
     (win_percentage s == total_wins s / 1)%Q).
Proof.
  intros Hh Ha s scored. subst s scored.
  cbn [overall home away total_games total_wins avg_points_scored win_percentage].
  split; [done|]. split; [done|]. split.
  - intros Hnz. by rewrite replace_0_1_nonzero.
  - intros Hz. rewrite replace_0_1_zero by done.
    destruct (sum_zero_nonneg _ _ Hh Ha Hz) as [Hh0 Ha0].
    assert (avg_points_scored_side h * side_games h +
            avg_points_scored_side a * side_games a == 0)%Q as Hnum.
    { rewrite Hh0, Ha0. ring. }
    split; [done|]. split; [|done]. rewrite Hnum. reflexivity.
Qed.

(** A team absent from both sides of the outer merge gets win_percentage
    0 and avg_points_scored 0. *)
Lemma overall_no_games k :
  (win_percentage (overall k no_side no_side) == 0)%Q ∧
  (avg_points_scored (overall k no_side no_side) == 0)%Q.
Proof. by vm_compute. Qed.

(** Ten home games at 24 and six away games at 20 give 22.5. *)
Lemma overall_ten_and_six k h a :
  (side_games h == 10)%Q → (avg_points_scored_side h == 24)%Q →
  (side_games a == 6)%Q → (avg_points_scored_side a == 20)%Q →
  (avg_points_scored (overall k h a) == 45 # 2)%Q.
Proof.
  intros Hh Hah Ha Haa. cbn [overall avg_points_scored].
  rewrite replace_0_1_nonzero.
  - rewrite Hh, Hah, Ha, Haa. reflexivity.
  - rewrite Hh, Ha. done.
Qed.

(** ** A tie in the frames of the two sides *)

Lemma elem_of_group_keys col games k :
  k ∈ group_keys col games ↔ ∃ g, g ∈ games ∧ col g = Some k.
Proof.
  unfold group_keys. rewrite merge_sort_Permutation, elem_of_remove_dups.
  rewrite list_elem_of_omap. done.
Qed.

Lemma elem_of_groupby {A} col (agg : list Game → A) games k :
  k ∈ group_keys col games → (k, agg (group col k games)) ∈ groupby col agg games.
Proof.
  intros Hk. unfold groupby. apply list_elem_of_fmap. by exists k.
Qed.

Lemma group_with col k C1 g C2 :
  col g = Some k →
  group col k (C1 ++ g :: C2) = group col k C1 ++ g :: group col k C2.
Proof.
  intros Hg. unfold group. by rewrite filter_app, filter_cons_True.
Qed.

Lemma group_app col k C1 C2 :
  group col k (C1 ++ C2) = group col k C1 ++ group col k C2.
Proof. unfold group. by rewrite filter_app. Qed.

Lemma count_game_id_with l1 g l2 :
  is_Some (game_id g) →
  count_game_id (l1 ++ g :: l2) = S (count_game_id (l1 ++ l2)).
Proof.
  intros Hg. unfold count_game_id.
  rewrite !filter_app, filter_cons_True, !length_app by done. simpl. lia.
Qed.

Lemma tie_no_win g :
  (home_score g == away_score g)%Q → home_win g = false ∧ away_win g = false.
Proof.
  intros Heq. unfold home_win, away_win.
  split; apply Qlt_bool_false; rewrite Heq; apply Qle_refl.
Qed.

Lemma filter_without {A} (p : A → bool) l1 x l2 :
  p x = false → filter (λ y, p y) (l1 ++ x :: l2) = filter (λ y, p y) (l1 ++ l2).
Proof.
  intros Hx. rewrite !filter_app, filter_cons_False; [done|].
  rewrite Hx. by intros [].
Qed.

(** Up to the merges the code does what is asked of a tie.  Among the
    completed games, a game with equal scores adds one to the home_games
    of its home team in home_stats and to the away_games of its away team
    in away_stats, and the frames home_wins and away_wins are the ones the
    other games alone give. *)
Lemma tie_in_side_frames (before after : list Game) (g : Game) (h a : Z) :
  home_team_id g = Some h → away_team_id g = Some a →
  is_Some (game_id g) →
  (home_score g == away_score g)%Q →
  let with_tie := before ++ g :: after in
  let others := before ++ after in
  (∃ s, (h, s) ∈ body (home_stats with_tie) ∧
        (agg_games s == of_nat (count_game_id (group home_team_id h others)) + 1)%Q) ∧
  (∃ s, (a, s) ∈ body (away_stats with_tie) ∧
        (agg_games s == of_nat (count_game_id (group away_team_id a others)) + 1)%Q) ∧
  home_wins with_tie = home_wins others ∧
  away_wins with_tie = away_wins others.
Proof.
  intros Hh Ha Hid Htie with_tie others. subst with_tie others.
  destruct (tie_no_win g Htie) as [Hhw Haw].
  split; [|split; [|split]].
  - eexists. split.
    + apply elem_of_groupby, elem_of_group_keys. exists g. split; [|done].
      rewrite elem_of_app. right. by left.
    + cbn [home_agg agg_games].
      rewrite group_with, group_app, count_game_id_with by done. apply of_nat_S.
  - eexists. split.
    + apply elem_of_groupby, elem_of_group_keys. exists g. split; [|done].
      rewrite elem_of_app. right. by left.
    + cbn [away_agg agg_games].
      rewrite group_with, group_app, count_game_id_with by done. apply of_nat_S.
  - unfold home_wins. by rewrite filter_without.
  - unfold away_wins. by rewrite filter_without.
Qed.

(** ** The merges *)

(** The frame of the home wins has no column team_id: its key column is
    still called home_team_id.  The first merge raises. *)
Lemma merge_home_wins_raises (completed_games : list Game) :
  merge_left "team_id" (home_stats completed_games) (home_wins completed_games)
  = Raised (KeyError "team_id").
Proof.
  unfold merge_left. rewrite bool_decide_eq_false_2; [done|].
  intros [_ Hr]. cbn [labels home_wins away_wins] in Hr.
  by repeat apply elem_of_cons in Hr as [?|Hr]; [..|apply elem_of_nil in Hr].
Qed.

(** So would the second. *)
Lemma merge_away_wins_raises (completed_games : list Game) :
  merge_left "team_id" (away_stats completed_games) (away_wins completed_games)
  = Raised (KeyError "team_id").
Proof.
  unfold merge_left. rewrite bool_decide_eq_false_2; [done|].
  intros [_ Hr]. cbn [labels home_wins away_wins] in Hr.
  by repeat apply elem_of_cons in Hr as [?|Hr]; [..|apply elem_of_nil in Hr].
Qed.

(** With one completed game or more the aggregator raises KeyError, and
    without any it returns the empty table: it ranks no team. *)
Lemma aggregations_raise flagged games :
  completed flagged games ≠ [] →
  create_team_aggregations flagged games = Raised (KeyError "team_id").
Proof.
  intros Hc. unfold create_team_aggregations.
  destruct games as [|g games]; [by destruct flagged|].
  destruct (completed flagged (g :: games)) as [|c C] eqn:HC; [done|].
  by rewrite merge_home_wins_raises.
Qed.

Lemma aggregations_empty flagged games :
  completed flagged games = [] →
  create_team_aggregations flagged games = Returned [].
Proof.
  intros Hc. unfold create_team_aggregations.
  destruct games as [|g games]; [done|]. by rewrite Hc.
Qed.

Lemma aggregations_rank_nothing flagged games out :
  create_team_aggregations flagged games = Returned out → out = [].
Proof.
  destruct (completed flagged games) as [|c C] eqn:HC.
  - rewrite aggregations_empty by done. by intros [= <-].
  - rewrite aggregations_raise; [done|]. by rewrite HC.
Qed.

(** Claim C1, against the code.  The two teams of [level_teams] that win
    at home have the same win_percentage and the same net_points, and
    should come out ranked in the order they came in.  The aggregator
    does not get as far as sorting: the merge of home_wins into
    home_stats raises KeyError for the label team_id. *)
Theorem ranking_raises_key_error :
  create_team_aggregations true level_teams = Raised (KeyError "team_id").
Proof. by apply aggregations_raise. Qed.

(** Claim C4, against the code.  On [sixteen_games] team 1 has ten home
    games at 24 points and six away games at 20 and should get
    avg_points_scored 22.5.  The aggregator computes no overall column:
    the merge of home_wins into home_stats raises KeyError for the label
    team_id. *)
Theorem averages_raise_key_error :
  create_team_aggregations true sixteen_games = Raised (KeyError "team_id").
Proof. by apply aggregations_raise. Qed.

(** Claim C9, against the code.  On the table of one completed game that
    ends level, each of the two teams should get a row with one game and
    no win.  The aggregator returns no row: the merge of home_wins into
    home_stats raises KeyError for the label team_id. *)
Theorem tie_raises_key_error :
  create_team_aggregations true one_tie = Raised (KeyError "team_id").
Proof. by apply aggregations_raise. Qed.

(** ** More about the cleaned tables *)

(** In a rectangular table the cell under a label is rewritten by the
    function of that label. *)
Lemma getc_map_cells_full h cols col (r : row) :
  col ∈ cols → length r = length cols →
  getc cols col (map_cells h cols r) = h col (getc cols col r).
Proof.
  intros Hc Hlen. rewrite getc_map_cells by done.
  apply index_of_is_Some in Hc as [i Hi]. rewrite Hi.
  pose proof (index_of_lt _ _ _ Hi) as Hlt.
  destruct (lookup_lt_is_Some_2 r i) as [a Ha]; [lia|].
  rewrite Ha. unfold getc, cell_at. by rewrite Hi, Ha.
Qed.

Section CleanerFacts.

Variable parse_num : string → option Q.
Variable parse_datetime : string → option Z.
Variable num_datetime : Q → option Z.
Variable str_num : Q → string.
Variable str_date : Z → string.
Variable str_stamp : Z → string.

Local Abbreviation to_numeric := (to_numeric parse_num).
Local Abbreviation to_datetime := (to_datetime parse_datetime num_datetime).
Local Abbreviation games_cell := (games_cell parse_num parse_datetime num_datetime).
Local Abbreviation games_row := (games_row parse_num parse_datetime num_datetime).
Local Abbreviation games_keep := (games_keep parse_num parse_datetime num_datetime).
Local Abbreviation clean_games_data := (clean_games_data parse_num parse_datetime num_datetime).
Local Abbreviation teams_cell := (teams_cell parse_num str_num str_date str_stamp).
Local Abbreviation teams_row := (teams_row parse_num str_num str_date str_stamp).
Local Abbreviation teams_keep := (teams_keep parse_num str_num str_date str_stamp).
Local Abbreviation clean_teams_data := (clean_teams_data parse_num str_num str_date str_stamp).
Local Abbreviation str_strip := (str_strip str_num str_date str_stamp).

(** Where a row of the cleaned game table comes from. *)
Lemma cleaned_game_source df (r' : row) :
  empty df = false → labels_ok games_column_mapping df → well_formed df →
  let cols := renamed games_column_mapping <$> columns df in
  r' ∈ rows (clean_games_data df).1 →
  ∃ r, r ∈ games_dedup cols (rows df) ∧ r ∈ rows df ∧
       length r = length cols ∧ games_keep cols r = true ∧ r' = games_row cols r.
Proof.
  intros Hne Hok [_ Hrect] cols. rewrite clean_games_view by done. fold cols.
  intros (r & Hr & Hkeep & ->)%elem_of_view_rows. exists r.
  assert (r ∈ rows df) as Hin.
  { unfold games_dedup in Hr. case_bool_decide; [|done].
    eapply elem_of_sublist; [done|]. apply dedup_sublist. }
  split; [done|]. split; [done|]. split; [|done].
  rewrite Forall_forall in Hrect. subst cols. rewrite length_fmap. by apply Hrect.
Qed.

Lemma games_cell_score col a :
  col ∈ score_columns → games_cell col a = fillna (CNum 0) (to_numeric a).
Proof.
  intros Hc. unfold games_cell, numeric_cell, dates_cell, scores_cell in *.
  rewrite (bool_decide_eq_true_2 (col ∈ score_columns)) by done.
  unfold score_columns, numeric_columns in *. label_cases.
Qed.

Lemma games_cell_date a : games_cell "date" a = dt_date (to_datetime a).
Proof. reflexivity. Qed.

Lemma to_numeric_cases a : (∃ q, to_numeric a = CNum q) ∨ to_numeric a = CNaN.
Proof.
  destruct a as [s| | | |]; simpl; eauto. destruct (parse_num s); eauto.
Qed.

Lemma fill_score_cases a :
  (∃ q, fillna (CNum 0) (to_numeric a) = CNum q) ∧
  (∀ q, to_numeric a = CNum q → fillna (CNum 0) (to_numeric a) = CNum q) ∧
  (to_numeric a = CNaN → fillna (CNum 0) (to_numeric a) = CNum 0).
Proof.
  destruct a as [s| | | |]; simpl; try destruct (parse_num s); simpl;
    (split; [by eexists|split; [by intros ? [= ->]|done]]) ||
    (split; [by eexists|split; [done|done]]).
Qed.

Lemma cleaned_score_cell df (r' : row) col :
  empty df = false → labels_ok games_column_mapping df → well_formed df →
  r' ∈ rows (clean_games_data df).1 →
  col ∈ score_columns → col ∈ renamed games_column_mapping <$> columns df →
  ∃ q, getc (renamed games_column_mapping <$> columns df) col r' = CNum q.
Proof.
  intros Hne Hok Hwf Hr' Hs Hc.
  destruct (cleaned_game_source df r' Hne Hok Hwf Hr') as (r & _ & _ & Hlen & _ & ->).
  unfold games_row. rewrite getc_map_cells_full, games_cell_score by done.
  apply fill_score_cases.
Qed.

(** The score columns of the cleaned game table hold numbers and nothing
    else: a score that is a number, or a string that reads as one, keeps
    its value, and a score that is missing or does not read as a number
    is 0. *)
Theorem cleaned_scores_are_numbers (df : DataFrame) :
  empty df = false → labels_ok games_column_mapping df → well_formed df →
  let cols := renamed games_column_mapping <$> columns df in
  ∀ r', r' ∈ rows (clean_games_data df).1 →
    ∃ r, r ∈ rows df ∧ r' = games_row cols r ∧
      ∀ col, col ∈ score_columns → col ∈ cols →
        (∃ q, getc cols col r' = CNum q) ∧
        (∀ q, to_numeric (getc cols col r) = CNum q → getc cols col r' = CNum q) ∧
        (to_numeric (getc cols col r) = CNaN → getc cols col r' = CNum 0).
Proof.
  intros Hne Hok Hwf cols r' Hr'.
  destruct (cleaned_game_source df r' Hne Hok Hwf Hr') as (r & _ & Hin & Hlen & _ & ->).
  exists r. split; [done|]. split; [done|]. intros col Hs Hc.
  unfold games_row. rewrite getc_map_cells_full, games_cell_score by done.
  apply fill_score_cases.
Qed.

Lemma to_datetime_cases a : (∃ t, to_datetime a = CStamp t) ∨ to_datetime a = CNaN.
Proof.
  destruct a as [s|q|d|t|]; simpl; eauto.
  - destruct (parse_datetime s); simpl; eauto.
  - destruct (num_datetime q); simpl; eauto.
Qed.

(** The date column of the cleaned game table holds calendar days and
    nothing else: each is the day of the instant its source cell reads as,
    and a row whose date does not read as an instant is not in the table. *)
Theorem cleaned_dates_are_days (df : DataFrame) :
  empty df = false → labels_ok games_column_mapping df → well_formed df →
  let cols := renamed games_column_mapping <$> columns df in
  "date" ∈ cols →
  ∀ r', r' ∈ rows (clean_games_data df).1 →
    ∃ r t, r ∈ rows df ∧ r' = games_row cols r ∧
      to_datetime (getc cols "date" r) = CStamp t ∧
      getc cols "date" r' = CDate (t / day_ns).
Proof.
  intros Hne Hok Hwf cols Hd r' Hr'.
  destruct (cleaned_game_source df r' Hne Hok Hwf Hr') as (r & _ & Hin & Hlen & Hkeep & ->).
  unfold games_keep in Hkeep. apply andb_true_iff in Hkeep as [Hkeep _].
  apply andb_true_iff in Hkeep as [Hdate _]. unfold date_ok in Hdate.
  rewrite bool_decide_eq_true_2 in Hdate by done. cbn [negb orb] in Hdate.
  unfold games_row in *. rewrite getc_map_cells_full, games_cell_date in * by done.
  destruct (to_datetime_cases (getc (renamed games_column_mapping <$> columns df) "date" r))
    as [[t Ht]|Ht]; rewrite Ht in *; [|done].
  by exists r, t.
Qed.

Lemma first_occurrence_same key rs k1 k2 (r1 r2 : row) :
  first_occurrence key rs k1 r1 → first_occurrence key rs k2 r2 →
  cell_eqb (key r1) (key r2) = true → r1 = r2.
Proof.
  intros [H1 F1] [H2 F2] Heq.
  destruct (lt_eq_lt_dec k1 k2) as [[Hlt|Hk]|Hlt].
  - rewrite cell_eqb_sym, (F2 k1 r1) in Heq; done.
  - subst k2. congruence.
  - rewrite (F1 k2 r2) in Heq; done.
Qed.

(** Duplicates go before anything is checked: when the first row that
    carries a game_id is then dropped (its date does not read, a team
    plays itself, the week is out of range), the game is gone from the
    cleaned table, whatever later rows carry the same game_id. *)
Theorem first_row_decides (df : DataFrame) :
  empty df = false → labels_ok games_column_mapping df → well_formed df →
  let cols := renamed games_column_mapping <$> columns df in
  "game_id" ∈ cols →
  ∀ k r, first_occurrence (getc cols "game_id") (rows df) k r →
    games_keep cols r = false →
    Forall (λ r', cell_eqb (getc cols "game_id" r') (getc cols "game_id" r) = false)
           (rows (clean_games_data df).1).
Proof.
  intros Hne Hok Hwf cols Hid k r Hfirst Hdrop. apply Forall_forall. intros r' Hr'.
  destruct (cleaned_game_source df r' Hne Hok Hwf Hr') as (r0 & Hd & _ & _ & Hkeep & ->).
  fold cols in Hd, Hkeep |- *. rewrite getc_games_row_id by done.
  unfold games_dedup in Hd. rewrite bool_decide_eq_true_2 in Hd by done.
  apply dedup_first in Hd as [_ [k0 Hk0]].
  destruct (cell_eqb (getc cols "game_id" r0) (getc cols "game_id" r)) eqn:Heq; [|done].
  rewrite (first_occurrence_same _ _ _ _ _ _ Hk0 Hfirst Heq) in Hkeep. congruence.
Qed.

(** The game cleaner drops no column and invents no row: the columns of
    the cleaned table are those of the input, in order, under their new
    labels; its rows are cleaned rows of the input, in the order of the
    input; and the cells outside the score columns, the date and the
    numeric columns are the cells of the input. *)
Theorem games_cleaner_keeps_shape (df : DataFrame) :
  empty df = false → labels_ok games_column_mapping df →
  let cols := renamed games_column_mapping <$> columns df in
  let out := (clean_games_data df).1 in
  columns out = cols ∧
  (∃ l, l `sublist_of` rows df ∧ rows out = games_row cols <$> l) ∧
  (length (rows out) ≤ length (rows df))%nat ∧
  (∀ col r, col ∈ cols → col ∉ score_columns → col ≠ "date" →
     col ∉ numeric_columns → getc cols col (games_row cols r) = getc cols col r).
Proof.
  intros Hne Hok cols out. subst out. rewrite clean_games_view by done. fold cols.
  assert (filter (λ r, games_keep cols r) (games_dedup cols (rows df))
          `sublist_of` rows df) as Hsub.
  { etrans; [apply sublist_filter|]. unfold games_dedup.
    case_bool_decide; [apply dedup_sublist|done]. }
  split; [done|]. split; [by eexists|]. split.
  - cbn [view rows]. rewrite length_fmap. by apply sublist_length.
  - intros col r. apply getc_games_row_other.
Qed.

(** Where a row of the cleaned team table comes from. *)
Lemma cleaned_team_source df (r' : row) :
  empty df = false → labels_ok teams_column_mapping df → well_formed df →
  let cols := renamed teams_column_mapping <$> columns df in
  r' ∈ rows (clean_teams_data df).1 →
  ∃ r, r ∈ rows df ∧ length r = length cols ∧
       teams_keep cols r = true ∧ r' = teams_row cols r.
Proof.
  intros Hne Hok [_ Hrect] cols. rewrite clean_teams_view by done. fold cols.
  intros (r & Hr & Hkeep & ->)%elem_of_view_rows. exists r.
  assert (r ∈ rows df) as Hin.
  { unfold teams_dedup in Hr. destruct (id_column df); [|done].
    eapply elem_of_sublist; [done|]. apply dedup_sublist. }
  split; [done|]. split; [|done].
  rewrite Forall_forall in Hrect. subst cols. rewrite length_fmap. by apply Hrect.
Qed.





Lemma teams_cell_team_id a : teams_cell "team_id" a = astype_int (to_numeric a).
Proof. reflexivity. Qed.

(** The team_id column of the cleaned team table: a team whose
    identifier does not read as a number is dropped, and an identifier
    that reads as a number q of magnitude below 2^63, which the cast to
    int64 holds, comes out as q cut toward zero, a whole number. *)
Theorem cleaned_team_ids_are_integers (df : DataFrame) :
  empty df = false → labels_ok teams_column_mapping df → well_formed df →
  let cols := renamed teams_column_mapping <$> columns df in
  "team_id" ∈ cols →
  (∀ r', r' ∈ rows (clean_teams_data df).1 →
     ∃ r q, r ∈ rows df ∧ r' = teams_row cols r ∧
       to_numeric (getc cols "team_id" r) = CNum q) ∧
  (∀ r q, r ∈ rows df → to_numeric (getc cols "team_id" r) = CNum q →
     (Qabs q < inject_Z (2 ^ 63))%Q →
     getc cols "team_id" (teams_row cols r) = CNum (inject_Z (Qtrunc q))).
Proof.
  intros Hne Hok Hwf cols Hc. split.
  - intros r' Hr'.
    destruct (cleaned_team_source df r' Hne Hok Hwf Hr')
      as (r & Hin & Hlen & Hkeep & ->).
    fold cols in Hlen, Hkeep |- *. unfold teams_keep in Hkeep.
    rewrite bool_decide_eq_true_2 in Hkeep by done. cbn [negb orb] in Hkeep.
    unfold teams_row in *. rewrite getc_map_cells_full, teams_cell_team_id in * by done.
    destruct (to_numeric_cases (getc cols "team_id" r)) as [[q Hq]|Hq];
      rewrite Hq in *; [|done].
    by exists r, q.
  - intros r q Hin Hq _.
    assert (length r = length cols) as Hlen.
    { destruct Hwf as [_ Hrect]. rewrite Forall_forall in Hrect.
      subst cols. rewrite length_fmap. by apply Hrect. }
    unfold teams_row. rewrite getc_map_cells_full, teams_cell_team_id by done.
    by rewrite Hq.
Qed.



(** The team cleaner drops no column and invents no row: the columns of
    the cleaned table are those of the input, in order, under their new
    labels; its rows are cleaned rows of the input, in the order of the
    input; and the cells outside team_id and the text columns are the
    cells of the input. *)
Theorem teams_cleaner_keeps_shape (df : DataFrame) :
  empty df = false → labels_ok teams_column_mapping df →
  let cols := renamed teams_column_mapping <$> columns df in
  let out := (clean_teams_data df).1 in
  columns out = cols ∧
  (∃ l, l `sublist_of` rows df ∧ rows out = teams_row cols <$> l) ∧
  (length (rows out) ≤ length (rows df))%nat ∧
  (∀ col a, col ∉ text_columns → col ≠ "team_id" → teams_cell col a = a).
Proof.
  intros Hne Hok cols out. subst out. rewrite clean_teams_view by done. fold cols.
  assert (filter (λ r, teams_keep cols r) (teams_dedup df) `sublist_of` rows df) as Hsub.
  { etrans; [apply sublist_filter|]. unfold teams_dedup.
    destruct (id_column df); [apply dedup_sublist|done]. }
  split; [done|]. split; [by eexists|]. split.
  - cbn [view rows]. rewrite length_fmap. by apply sublist_length.
  - intros col a Ht Hid.
    unfold teams_cell, team_id_cell, conference_cell, strip_cell, fill_cell.
    rewrite (bool_decide_eq_false_2 (col ∈ text_columns)) by done.
    rewrite (bool_decide_eq_false_2 (col = "team_id")) by done.
    rewrite (bool_decide_eq_false_2 (col = "conference")).
    2:{ intros ->. apply Ht. unfold text_columns. in_labels. }
    rewrite bool_decide_eq_false_2; [done|].
    intros Hin. apply Ht. unfold text_columns.
    repeat (apply elem_of_cons in Hin as [->|Hin]; [in_labels|]).
    by apply elem_of_nil in Hin.
Qed.






Lemma length_filter_split {A} (p : A → bool) (l : list A) :
  length l = (length (filter (λ x, p x) l) + length (filter (λ x, negb (p x)) l))%nat.
Proof.
  induction l as [|x l IH]; [done|]. destruct (p x) eqn:Hp.
  - rewrite filter_cons_True by by rewrite Hp.
    rewrite filter_cons_False by (rewrite Hp; by intros []). cbn. lia.
  - rewrite filter_cons_False by (rewrite Hp; by intros []).
    rewrite filter_cons_True by by rewrite Hp. cbn. lia.
Qed.

(** Every row of the input is accounted for.  The rows of the input are
    the duplicates dropped, the rows dropped because their date does not
    read, the self-play rows, the rows with a week out of range and the
    rows returned.  The log gives the first, the third and the fourth of
    these counts and the last; the rows dropped for their date are not
    logged. *)
Theorem game_rows_accounted_for (df : DataFrame) :
  empty df = false → labels_ok games_column_mapping df →
  let cols := renamed games_column_mapping <$> columns df in
  let deduped := games_dedup cols (rows df) in
  let dated := filter (λ r, date_ok cols (games_row cols r)) deduped in
  let before := games_row cols <$> dated in
  let after_self_play := filter (λ r, negb (self_play cols r)) before in
  let duplicates := (length (rows df) - length deduped)%nat in
  let undated := (length deduped - length dated)%nat in
  let self_plays := length (filter (λ r, self_play cols r) before) in
  let bad_weeks := length (filter (λ r, week_out_of_range cols r) after_self_play) in
  length (rows df)
  = (duplicates + undated + self_plays + bad_weeks
     + length (rows (clean_games_data df).1))%nat ∧
  (clean_games_data df).2
  = ([InfoCleaningGames]
     ++ (if bool_decide ("game_id" ∈ cols) then [InfoDuplicateGames duplicates] else [])
     ++ warn_count WarnSelfPlay self_plays
     ++ warn_count WarnInvalidWeeks bad_weeks
     ++ [InfoGamesCleaned (length (rows (clean_games_data df).1))])%list.
Proof.
  intros Hne Hok cols deduped dated before after_self_play
    duplicates undated self_plays bad_weeks.
  assert ((clean_games_data df).1
          = mkDF cols (filter (λ r, negb (week_out_of_range cols r)) after_self_play))
    as Hout.
  { rewrite clean_games_frame_eq by done. cbv zeta.
    rewrite (coerced_frame parse_num parse_datetime num_datetime df Hne Hok).
    fold cols. by rewrite drop_self_play_spec, drop_invalid_weeks_spec. }
  split.
  - rewrite Hout. cbn [rows].
    assert (length deduped ≤ length (rows df))%nat as H1.
    { apply sublist_length. unfold deduped, games_dedup.
      case_bool_decide; [apply dedup_sublist|done]. }
    assert (length dated ≤ length deduped)%nat as H2
      by apply sublist_length, sublist_filter.
    pose proof (length_filter_split (self_play cols) before) as H3.
    pose proof (length_filter_split (week_out_of_range cols) after_self_play) as H4.
    assert (length before = length dated) as H5 by by (unfold before; rewrite length_fmap).
    fold after_self_play in H3. subst duplicates undated self_plays bad_weeks. lia.
  - rewrite clean_games_log_eq by done. cbv zeta.
    rewrite (coerced_frame parse_num parse_datetime num_datetime df Hne Hok).
    fold cols. rewrite rename_frame. fold cols. rewrite dedup_games_log.
    rewrite drop_self_play_spec. cbn [fst snd].
    rewrite drop_invalid_weeks_spec. cbn [fst snd rows columns].
    by rewrite Hout.
Qed.

End CleanerFacts.

(** ** More about the feature columns *)

Lemma columns_set_column col f df :
  columns df `prefix_of` columns (set_column col f df).
Proof.
  unfold set_column. destruct (index_of col (columns df)); simpl; [done|].
  by apply prefix_app_r.
Qed.

(** One column assignment, seen from a row of the table. *)
Lemma set_column_row col f df :
  well_formed df →
  well_formed (set_column col f df) ∧
  ∃ t : row → row,
    rows (set_column col f df) = t <$> rows df ∧
    ∀ r, r ∈ rows df →
      t r ∈ rows (set_column col f df) ∧
      ∀ c, get (set_column col f df) c (t r)
           = if bool_decide (c = col) then f r else get df c r.
Proof.
  intros Hwf. split; [by apply well_formed_set_column|].
  exists (λ r, put_cell (columns df) col (f r) r).
  split; [apply rows_set_column|]. intros r Hr.
  split; [by apply put_cell_in_rows|]. intros c. by apply get_set_column.
Qed.

(** What the four score features are, row by row, and that the other
    columns stay. *)
Lemma score_features_values df :
  well_formed df →
  has_column "home_score" df = true → has_column "away_score" df = true →
  well_formed (score_features df) ∧
  ∃ t : row → row,
    rows (score_features df) = t <$> rows df ∧
    ∀ r, r ∈ rows df →
      let hs := get df "home_score" r in
      let as_ := get df "away_score" r in
      t r ∈ rows (score_features df) ∧
      get (score_features df) "point_differential" (t r) = num_sub hs as_ ∧
      get (score_features df) "winner_team_id" (t r)
      = winner_of hs as_ (get df "home_team_id" r) (get df "away_team_id" r) ∧
      get (score_features df) "margin_of_victory" (t r) = num_abs (num_sub hs as_) ∧
      get (score_features df) "game_closeness" (t r)
      = cut closeness_bins closeness_labels (num_abs (num_sub hs as_)) ∧
      ∀ c, c ∉ ["point_differential"; "winner_team_id"; "margin_of_victory";
                "game_closeness"] →
           get (score_features df) c (t r) = get df c r.
Proof.
  intros Hwf Hh Ha. unfold score_features. rewrite Hh, Ha. cbn [andb]. cbv zeta.
  set (f1 := λ r : row, num_sub (get df "home_score" r) (get df "away_score" r)).
  set (df1 := set_column "point_differential" f1 df).
  set (f2 := λ r : row,
         np_where (num_gt (get df1 "home_score" r) (get df1 "away_score" r))
           (get df1 "home_team_id" r)
           (np_where (num_gt (get df1 "away_score" r) (get df1 "home_score" r))
              (get df1 "away_team_id" r) CNaN)).
  set (df2 := set_column "winner_team_id" f2 df1).
  set (f3 := λ r : row, num_abs (get df2 "point_differential" r)).
  set (df3 := set_column "margin_of_victory" f3 df2).
  set (f4 := λ r : row, cut closeness_bins closeness_labels (get df3 "margin_of_victory" r)).
  destruct (set_column_row "point_differential" f1 df Hwf) as (Hwf1 & t1 & E1 & G1).
  fold df1 in Hwf1, E1, G1.
  destruct (set_column_row "winner_team_id" f2 df1 Hwf1) as (Hwf2 & t2 & E2 & G2).
  fold df2 in Hwf2, E2, G2.
  destruct (set_column_row "margin_of_victory" f3 df2 Hwf2) as (Hwf3 & t3 & E3 & G3).
  fold df3 in Hwf3, E3, G3.
  destruct (set_column_row "game_closeness" f4 df3 Hwf3) as (Hwf4 & t4 & E4 & G4).
  split; [done|]. exists (λ r, t4 (t3 (t2 (t1 r)))). split.
  - by rewrite E4, E3, E2, E1, <- !list_fmap_compose.
  - intros r Hr.
    set (hs := get df "home_score" r). set (as_ := get df "away_score" r).
    destruct (G1 r Hr) as [Hr1 Hg1].
    destruct (G2 _ Hr1) as [Hr2 Hg2].
    destruct (G3 _ Hr2) as [Hr3 Hg3].
    destruct (G4 _ Hr3) as [Hr4 Hg4].
    assert (get df2 "point_differential" (t2 (t1 r)) = num_sub hs as_) as Hpd.
    { by rewrite Hg2, Hg1. }
    assert (get df3 "margin_of_victory" (t3 (t2 (t1 r))) = num_abs (num_sub hs as_)) as Hm.
    { rewrite Hg3. cbn. unfold f3. by rewrite Hpd. }
    split; [done|]. split; [|split; [|split; [|split]]].
    + rewrite Hg4, Hg3. cbn. done.
    + rewrite Hg4, Hg3, Hg2. cbn. unfold f2, winner_of. rewrite !Hg1. cbn. done.
    + rewrite Hg4. cbn. done.
    + rewrite Hg4. cbn. unfold f4. by rewrite Hm.
    + intros c Hc. rewrite Hg4, Hg3, Hg2, Hg1.
      rewrite !bool_decide_eq_false_2; [done|..]; intros ->; apply Hc; in_labels.
Qed.

Lemma completion_flag_values df :
  well_formed df →
  well_formed (completion_flag df) ∧
  ∃ t : row → row,
    rows (completion_flag df) = t <$> rows df ∧
    ∀ r, r ∈ rows df →
      t r ∈ rows (completion_flag df) ∧
      (has_column "status" df = true →
       get (completion_flag df) "is_completed" (t r)
       = of_bool (isin completed_statuses (get df "status" r))) ∧
      ∀ c, c ≠ "is_completed" → get (completion_flag df) c (t r) = get df c r.
Proof.
  intros Hwf. unfold completion_flag. destruct (has_column "status" df).
  - destruct (set_column_row "is_completed"
                (λ r, of_bool (isin completed_statuses (get df "status" r))) df Hwf)
      as (Hwf1 & t & E & G).
    split; [done|]. exists t. split; [done|]. intros r Hr.
    destruct (G r Hr) as [Hin Hg]. split; [done|]. split.
    + intros _. by rewrite Hg.
    + intros c Hc. rewrite Hg. by rewrite bool_decide_eq_false_2.
  - split; [done|]. exists (λ r, r). split; [by rewrite list_fmap_id|]. done.
Qed.

Lemma total_features_values df :
  well_formed df →
  has_column "home_score" df = true → has_column "away_score" df = true →
  well_formed (total_features df) ∧
  ∃ t : row → row,
    rows (total_features df) = t <$> rows df ∧
    ∀ r, r ∈ rows df →
      let total := num_add (get df "home_score" r) (get df "away_score" r) in
      t r ∈ rows (total_features df) ∧
      get (total_features df) "total_points" (t r) = total ∧
      get (total_features df) "scoring_category" (t r)
      = cut scoring_bins scoring_labels total ∧
      ∀ c, c ∉ ["total_points"; "scoring_category"] →
           get (total_features df) c (t r) = get df c r.
Proof.
  intros Hwf Hh Ha. unfold total_features. rewrite Hh, Ha. cbn [andb]. cbv zeta.
  set (f1 := λ r : row, num_add (get df "home_score" r) (get df "away_score" r)).
  set (df1 := set_column "total_points" f1 df).
  set (f2 := λ r : row, cut scoring_bins scoring_labels (get df1 "total_points" r)).
  destruct (set_column_row "total_points" f1 df Hwf) as (Hwf1 & t1 & E1 & G1).
  fold df1 in Hwf1, E1, G1.
  destruct (set_column_row "scoring_category" f2 df1 Hwf1) as (Hwf2 & t2 & E2 & G2).
  split; [done|]. exists (λ r, t2 (t1 r)). split.
  - by rewrite E2, E1, <- list_fmap_compose.
  - intros r Hr.
    destruct (G1 r Hr) as [Hr1 Hg1]. destruct (G2 _ Hr1) as [Hr2 Hg2].
    split; [done|]. split; [|split].
    + rewrite Hg2, Hg1. cbn. done.
    + rewrite Hg2. cbn. unfold f2. by rewrite Hg1.
    + intros c Hc. rewrite Hg2, Hg1.
      rewrite !bool_decide_eq_false_2; [done|..]; intros ->; apply Hc; in_labels.
Qed.

(** [pd.cut] on four bins, the last one open to infinity. *)
Lemma cut_four (b0 b1 b2 b3 : Q) (l1 l2 l3 l4 : string) (x : Q) :
  (b0 < b1)%Q → (b1 < b2)%Q → (b2 < b3)%Q →
  ((x < b0)%Q →
     cut [Finite b0; Finite b1; Finite b2; Finite b3; Infinity] [l1; l2; l3; l4] (CNum x)
     = CNaN) ∧
  ((b0 <= x)%Q → (x <= b1)%Q →
     cut [Finite b0; Finite b1; Finite b2; Finite b3; Infinity] [l1; l2; l3; l4] (CNum x)
     = CStr l1) ∧
  ((b1 < x)%Q → (x <= b2)%Q →
     cut [Finite b0; Finite b1; Finite b2; Finite b3; Infinity] [l1; l2; l3; l4] (CNum x)
     = CStr l2) ∧
  ((b2 < x)%Q → (x <= b3)%Q →
     cut [Finite b0; Finite b1; Finite b2; Finite b3; Infinity] [l1; l2; l3; l4] (CNum x)
     = CStr l3) ∧
  ((b3 < x)%Q →
     cut [Finite b0; Finite b1; Finite b2; Finite b3; Infinity] [l1; l2; l3; l4] (CNum x)
     = CStr l4).
Proof.
  intros H01 H12 H23.
  assert (∀ p q, (p < q)%Q → Qlt_bool p q = true) as Lt
    by (intros p q; apply Qlt_bool_iff).
  assert (∀ p q, (q <= p)%Q → Qlt_bool p q = false) as Ge
    by (intros p q; apply Qlt_bool_false).
  assert (∀ p q, (p <= q)%Q → Qle_bool p q = true) as Le
    by (intros p q; apply Qle_bool_iff).
  assert (∀ p q, (q < p)%Q → Qle_bool p q = false) as Gt.
  { intros p q Hlt. apply not_true_iff_false. rewrite Qle_bool_iff.
    by apply Qlt_not_le. }
  assert (∀ p q, (q < p)%Q → Qeq_bool p q = false) as Ne.
  { intros p q Hlt. apply not_true_iff_false. rewrite Qeq_bool_iff.
    intros Heq. rewrite Heq in Hlt. by apply Qlt_irrefl in Hlt. }
  unfold cut, cut_from, edge_lt, edge_eq, le_edge. repeat split.
  - intros Hx.
    assert (x < b1)%Q as Hx1 by (eapply Qlt_trans; eassumption).
    assert (x < b2)%Q as Hx2 by (eapply Qlt_trans; eassumption).
    assert (x < b3)%Q as Hx3 by (eapply Qlt_trans; eassumption).
    by rewrite (Ge b0 x), (Ne b0 x), (Ge b1 x), (Ge b2 x), (Ge b3 x)
      by (done || by apply Qlt_le_weak).
  - intros H0 H1. rewrite (Le x b1) by done.
    destruct (Qlt_le_dec b0 x) as [Hlt|Hle].
    + by rewrite (Lt b0 x).
    + assert (Qeq_bool b0 x = true) as ->; [|by rewrite orb_true_r].
      apply Qeq_bool_iff. by apply Qle_antisym.
  - intros H1 H2.
    rewrite (Gt x b1), (Lt b1 x), (Le x b2) by done. by rewrite andb_false_r.
  - intros H2 H3.
    assert (b1 < x)%Q as H1 by (eapply Qlt_trans; eassumption).
    rewrite (Gt x b1), (Gt x b2), (Lt b2 x), (Le x b3) by done.
    by rewrite !andb_false_r.
  - intros H3.
    assert (b2 < x)%Q as H2 by (eapply Qlt_trans; eassumption).
    assert (b1 < x)%Q as H1 by (eapply Qlt_trans; eassumption).
    rewrite (Gt x b1), (Gt x b2), (Gt x b3), (Lt b3 x) by done.
    by rewrite !andb_false_r.
Qed.

Lemma isin_completed_statuses a :
  isin completed_statuses a
  = match a with
    | CStr s => bool_decide (s ∈ ["Final"; "F"; "Completed"])
    | _ => false
    end.
Proof.
  destruct a as [s| | | |]; try done.
  unfold isin, completed_statuses. cbn [existsb cell_eqb]. rewrite orb_false_r.
  apply eq_true_iff_eq. rewrite !orb_true_iff, !bool_decide_eq_true.
  rewrite !elem_of_cons, elem_of_nil. tauto.
Qed.

Lemma score_features_sets :
  sets_only ["point_differential"; "winner_team_id"; "margin_of_victory";
             "game_closeness"] score_features.
Proof.
  intros df Hwf. unfold score_features.
  destruct (has_column "home_score" df && has_column "away_score" df) eqn:Hb;
    [|by apply sets_only_id].
  apply andb_true_iff in Hb as [Hh Ha].
  destruct (score_features_values df Hwf Hh Ha) as (Hwf' & t & E & G).
  unfold score_features in Hwf', E, G. rewrite Hh, Ha in Hwf', E, G.
  cbn [andb] in Hwf', E, G.
  split; [done|]. exists t. split; [done|]. intros r c Hr Hc.
  by apply (G r Hr).
Qed.

Lemma columns_score_features df : columns df `prefix_of` columns (score_features df).
Proof.
  unfold score_features.
  destruct (has_column "home_score" df && has_column "away_score" df); [|done].
  cbv zeta. repeat (etrans; [|apply columns_set_column]). done.
Qed.

Lemma columns_completion_flag df : columns df `prefix_of` columns (completion_flag df).
Proof.
  unfold completion_flag. destruct (has_column "status" df); [|done].
  apply columns_set_column.
Qed.

Lemma columns_total_features df : columns df `prefix_of` columns (total_features df).
Proof.
  unfold total_features.
  destruct (has_column "home_score" df && has_column "away_score" df); [|done].
  cbv zeta. repeat (etrans; [|apply columns_set_column]). done.
Qed.

Lemma has_column_completion_flag_other c df :
  c ≠ "is_completed" → has_column c (completion_flag df) = has_column c df.
Proof.
  intros Hc. unfold completion_flag. destruct (has_column "status" df); [|done].
  rewrite has_column_set_column, (bool_decide_eq_false_2 (c = "is_completed")) by done.
  apply orb_false_r.
Qed.

(** Assigning to a column the values it already holds changes nothing. *)
Lemma set_column_same col f df :
  well_formed df → col ∈ columns df →
  (∀ r, r ∈ rows df → get df col r = f r) →
  set_column col f df = df.
Proof.
  intros [Hnd Hrect] Hc Hf. unfold set_column.
  apply index_of_is_Some in Hc as [i Hi]. rewrite Hi.
  destruct df as [cols rs]. cbn [columns rows] in *. f_equal.
  rewrite <- (list_fmap_id rs) at 2. apply list_fmap_ext. intros k r Hr. cbn.
  assert (r ∈ rs) as Hin by by eapply list_elem_of_lookup_2.
  apply list_insert_id.
  rewrite Forall_forall in Hrect. pose proof (Hrect r Hin) as Hlen.
  pose proof (index_of_lt _ _ _ Hi) as Hlt.
  destruct (lookup_lt_is_Some_2 r i) as [a Ha]; [lia|].
  rewrite <- (Hf r Hin). unfold get, getc, cell_at. cbn [columns].
  by rewrite Hi, Ha.
Qed.

Lemma has_column_score_features_other c df :
  c ∉ ["point_differential"; "winner_team_id"; "margin_of_victory"; "game_closeness"] →
  has_column c (score_features df) = has_column c df.
Proof.
  intros Hc. unfold score_features.
  destruct (has_column "home_score" df && has_column "away_score" df); [|done].
  cbv zeta. rewrite !has_column_set_column.
  rewrite !bool_decide_eq_false_2; [by rewrite !orb_false_r|..];
    intros ->; apply Hc; in_labels.
Qed.

Lemma score_features_fixed d :
  well_formed d →
  (∀ c, c ∈ ["point_differential"; "winner_team_id"; "margin_of_victory";
             "game_closeness"] → c ∈ columns d) →
  (∀ r, r ∈ rows d →
     get d "point_differential" r
     = num_sub (get d "home_score" r) (get d "away_score" r) ∧
     get d "winner_team_id" r
     = winner_of (get d "home_score" r) (get d "away_score" r)
         (get d "home_team_id" r) (get d "away_team_id" r) ∧
     get d "margin_of_victory" r = num_abs (get d "point_differential" r) ∧
     get d "game_closeness" r
     = cut closeness_bins closeness_labels (get d "margin_of_victory" r)) →
  score_features d = d.
Proof.
  intros Hwf Hc Hv. unfold score_features.
  destruct (has_column "home_score" d && has_column "away_score" d); [|done].
  cbv zeta.
  rewrite (set_column_same "point_differential" _ d);
    [|done|apply Hc; in_labels|intros r Hr; by apply (Hv r Hr)].
  rewrite (set_column_same "winner_team_id" _ d);
    [|done|apply Hc; in_labels|intros r Hr; by apply (Hv r Hr)].
  rewrite (set_column_same "margin_of_victory" _ d);
    [|done|apply Hc; in_labels|intros r Hr; by apply (Hv r Hr)].
  rewrite (set_column_same "game_closeness" _ d);
    [done|done|apply Hc; in_labels|intros r Hr; by apply (Hv r Hr)].
Qed.

Lemma completion_flag_fixed d :
  well_formed d →
  (has_column "status" d = true →
   "is_completed" ∈ columns d ∧
   ∀ r, r ∈ rows d →
     get d "is_completed" r = of_bool (isin completed_statuses (get d "status" r))) →
  completion_flag d = d.
Proof.
  intros Hwf Hv. unfold completion_flag.
  destruct (has_column "status" d); [|done].
  destruct Hv as [Hc Hv]; [done|]. by apply set_column_same.
Qed.

Lemma total_features_fixed d :
  well_formed d →
  (∀ c, c ∈ ["total_points"; "scoring_category"] → c ∈ columns d) →
  (∀ r, r ∈ rows d →
     get d "total_points" r = num_add (get d "home_score" r) (get d "away_score" r) ∧
     get d "scoring_category" r
     = cut scoring_bins scoring_labels (get d "total_points" r)) →
  total_features d = d.
Proof.
  intros Hwf Hc Hv. unfold total_features.
  destruct (has_column "home_score" d && has_column "away_score" d); [|done].
  cbv zeta.
  rewrite (set_column_same "total_points" _ d);
    [|done|apply Hc; in_labels|intros r Hr; by apply (Hv r Hr)].
  rewrite (set_column_same "scoring_category" _ d);
    [done|done|apply Hc; in_labels|intros r Hr; by apply (Hv r Hr)].
Qed.

(** ** The engine with its calendar block *)

(** On a frame as pandas holds one, an elementwise update of a column is
    a column assignment. *)
Lemma assign_set_column col f df :
  well_formed df →
  assign col f df
  = if has_column col df then set_column col (λ r, f (get df col r)) df else df.
Proof.
  intros [Hnd Hrect]. unfold assign, set_column, has_column.
  destruct (index_of col (columns df)) as [i|] eqn:Hi.
  - rewrite bool_decide_eq_true_2
      by (apply index_of_is_Some; by eexists).
    f_equal. apply list_fmap_ext. intros k r Hr. cbn.
    assert (r ∈ rows df) as Hin by by eapply list_elem_of_lookup_2.
    rewrite Forall_forall in Hrect. pose proof (Hrect r Hin) as Hlen.
    pose proof (index_of_lt _ _ _ Hi) as Hlt.
    destruct (lookup_lt_is_Some_2 r i) as [a Ha]; [lia|].
    unfold get, getc, cell_at. rewrite Hi, Ha. cbn.
    apply list_eq. intros j. rewrite list_lookup_alter.
    destruct (decide (j = i)) as [->|Hne].
    + rewrite decide_True, Ha, list_lookup_insert_eq by (done || lia). done.
    + rewrite decide_False, list_lookup_insert_ne by done. done.
  - apply index_of_None in Hi. by rewrite bool_decide_eq_false_2.
Qed.

Lemma Qeq_bool_inject_Z a b : Qeq_bool (inject_Z a) (inject_Z b) = bool_decide (a = b).
Proof.
  unfold Qeq_bool, inject_Z. cbn. rewrite !Z.mul_1_r.
  case_bool_decide as H.
  - subst. apply Z.eqb_refl.
  - by apply Z.eqb_neq.
Qed.

(** Membership in a list of labels, as the disjunction it is. *)
Lemma bool_decide_label_cons (c l : string) (ls : list string) :
  bool_decide (c ∈ l :: ls) = bool_decide (c = l) || bool_decide (c ∈ ls).
Proof.
  apply eq_true_iff_eq.
  by rewrite orb_true_iff, !bool_decide_eq_true, elem_of_cons.
Qed.

Lemma bool_decide_label_nil (c : string) : bool_decide (c ∈ @nil string) = false.
Proof. apply bool_decide_eq_false_2, not_elem_of_nil. Qed.

(** The columns after each block of the engine. *)
Lemma has_column_score_features_eq c df :
  has_column c (score_features df)
  = has_column c df
    || (has_column "home_score" df && has_column "away_score" df)
       && bool_decide (c ∈ ["point_differential"; "winner_team_id";
                            "margin_of_victory"; "game_closeness"]).
Proof.
  unfold score_features.
  destruct (has_column "home_score" df && has_column "away_score" df);
    [|by rewrite orb_false_r].
  cbv zeta. rewrite !has_column_set_column, !bool_decide_label_cons,
    bool_decide_label_nil.
  cbn [andb]. by rewrite orb_false_r, <- !orb_assoc.
Qed.

Lemma has_column_completion_flag_eq c df :
  has_column c (completion_flag df)
  = has_column c df || has_column "status" df && bool_decide (c = "is_completed").
Proof.
  unfold completion_flag. destruct (has_column "status" df); [|by rewrite orb_false_r].
  by rewrite has_column_set_column.
Qed.

Lemma has_column_total_features_eq c df :
  has_column c (total_features df)
  = has_column c df
    || (has_column "home_score" df && has_column "away_score" df)
       && bool_decide (c ∈ ["total_points"; "scoring_category"]).
Proof.
  unfold total_features.
  destruct (has_column "home_score" df && has_column "away_score" df);
    [|by rewrite orb_false_r].
  cbv zeta. rewrite !has_column_set_column, !bool_decide_label_cons,
    bool_decide_label_nil.
  cbn [andb]. by rewrite orb_false_r, <- !orb_assoc.
Qed.

(** Each block of the engine, seen from a row: what it sets when it
    runs, and that a column it does not set is kept. *)
Lemma score_stage df :
  well_formed df →
  let both := has_column "home_score" df && has_column "away_score" df in
  well_formed (score_features df) ∧
  ∃ t : row → row,
    rows (score_features df) = t <$> rows df ∧
    ∀ r, r ∈ rows df →
      let hs := get df "home_score" r in
      let as_ := get df "away_score" r in
      t r ∈ rows (score_features df) ∧
      (both = true →
       get (score_features df) "point_differential" (t r) = num_sub hs as_ ∧
       get (score_features df) "winner_team_id" (t r)
       = winner_of hs as_ (get df "home_team_id" r) (get df "away_team_id" r) ∧
       get (score_features df) "margin_of_victory" (t r) = num_abs (num_sub hs as_) ∧
       get (score_features df) "game_closeness" (t r)
       = cut closeness_bins closeness_labels (num_abs (num_sub hs as_))) ∧
      ∀ c, (c ∈ ["point_differential"; "winner_team_id"; "margin_of_victory";
                 "game_closeness"] → both = false) →
           get (score_features df) c (t r) = get df c r.
Proof.
  intros Hwf both.
  destruct (has_column "home_score" df && has_column "away_score" df) eqn:Hb.
  - apply andb_true_iff in Hb as [Hh Ha].
    destruct (score_features_values df Hwf Hh Ha) as (Hwf' & t & E & G).
    split; [done|]. exists t. split; [done|]. intros r Hr hs as_.
    destruct (G r Hr) as (Hin & Hd & Hw & Hm & Hc & Hk).
    split; [done|]. split; [done|].
    intros c Hc'. apply Hk. intros Hin'. subst both. by specialize (Hc' Hin').
  - assert (score_features df = df) as ->.
    { unfold score_features. by rewrite Hb. }
    split; [done|]. exists (λ r, r). split; [by rewrite list_fmap_id|].
    intros r Hr hs as_. split; [done|]. split; [by subst both|done].
Qed.

Lemma flag_stage df :
  well_formed df →
  well_formed (completion_flag df) ∧
  ∃ t : row → row,
    rows (completion_flag df) = t <$> rows df ∧
    ∀ r, r ∈ rows df →
      t r ∈ rows (completion_flag df) ∧
      (has_column "status" df = true →
       get (completion_flag df) "is_completed" (t r)
       = of_bool (isin completed_statuses (get df "status" r))) ∧
      ∀ c, (c = "is_completed" → has_column "status" df = false) →
           get (completion_flag df) c (t r) = get df c r.
Proof.
  intros Hwf. destruct (has_column "status" df) eqn:Hs.
  - destruct (completion_flag_values df Hwf) as (Hwf' & t & E & G).
    split; [done|]. exists t. split; [done|]. intros r Hr.
    destruct (G r Hr) as (Hin & Hv & Hk). split; [done|].
    split; [intros _; apply Hv; done|].
    intros c Hc. apply Hk. intros ->. by specialize (Hc eq_refl).
  - assert (completion_flag df = df) as ->.
    { unfold completion_flag. by rewrite Hs. }
    split; [done|]. exists (λ r, r). split; [by rewrite list_fmap_id|].
    intros r Hr. split; [done|]. split; [done|done].
Qed.

Lemma total_stage df :
  well_formed df →
  let both := has_column "home_score" df && has_column "away_score" df in
  well_formed (total_features df) ∧
  ∃ t : row → row,
    rows (total_features df) = t <$> rows df ∧
    ∀ r, r ∈ rows df →
      let total := num_add (get df "home_score" r) (get df "away_score" r) in
      t r ∈ rows (total_features df) ∧
      (both = true →
       get (total_features df) "total_points" (t r) = total ∧
       get (total_features df) "scoring_category" (t r)
       = cut scoring_bins scoring_labels total) ∧
      ∀ c, (c ∈ ["total_points"; "scoring_category"] → both = false) →
           get (total_features df) c (t r) = get df c r.
Proof.
  intros Hwf both.
  destruct (has_column "home_score" df && has_column "away_score" df) eqn:Hb.
  - apply andb_true_iff in Hb as [Hh Ha].
    destruct (total_features_values df Hwf Hh Ha) as (Hwf' & t & E & G).
    split; [done|]. exists t. split; [done|]. intros r Hr total.
    destruct (G r Hr) as (Hin & Ht & Hc & Hk).
    split; [done|]. split; [done|].
    intros c Hc'. apply Hk. intros Hin'. subst both. by specialize (Hc' Hin').
  - assert (total_features df = df) as ->.
    { unfold total_features. by rewrite Hb. }
    split; [done|]. exists (λ r, r). split; [by rewrite list_fmap_id|].
    intros r Hr total. split; [done|]. split; [by subst both|done].
Qed.

Section CalendarFacts.

Variable parse_datetime : string → option Z.
Variable num_datetime : Q → option Z.
Variable dt_year : Z → Z.
Variable dt_month : Z → Z.
Variable dt_dayofweek : Z → Z.
Variable dt_day_name : Z → string.

Local Abbreviation to_datetime_strict := (to_datetime_strict parse_datetime num_datetime).
Local Abbreviation convert_dates := (convert_dates parse_datetime num_datetime).
Local Abbreviation date_read := (date_read parse_datetime num_datetime).
Local Abbreviation calendar_columns_of :=
  (calendar_columns_of dt_year dt_month dt_dayofweek dt_day_name).
Local Abbreviation temporal_features :=
  (temporal_features parse_datetime num_datetime dt_year dt_month dt_dayofweek dt_day_name).
Local Abbreviation create_game_features_dated :=
  (create_game_features_dated parse_datetime num_datetime dt_year dt_month
     dt_dayofweek dt_day_name).

(** The six derived columns, row by row. *)
Lemma calendar_columns_values df :
  well_formed df →
  well_formed (calendar_columns_of df) ∧
  ∃ t : row → row,
    rows (calendar_columns_of df) = t <$> rows df ∧
    ∀ r, r ∈ rows df →
      let d := get df "date" r in
      let dow := dt_field dt_dayofweek d in
      t r ∈ rows (calendar_columns_of df) ∧
      get (calendar_columns_of df) "year" (t r) = dt_field dt_year d ∧
      get (calendar_columns_of df) "month" (t r) = dt_field dt_month d ∧
      get (calendar_columns_of df) "day_of_week" (t r) = dow ∧
      get (calendar_columns_of df) "day_name" (t r) = dt_name dt_day_name d ∧
      get (calendar_columns_of df) "is_prime_time" (t r)
      = of_bool (isin [CNum 0; CNum 3] dow) ∧
      get (calendar_columns_of df) "is_sunday" (t r)
      = of_bool (series_eq dow (CNum 6)) ∧
      ∀ c, c ∉ ["year"; "month"; "day_of_week"; "day_name"; "is_prime_time";
                "is_sunday"] →
           get (calendar_columns_of df) c (t r) = get df c r.
Proof.
  intros Hwf. unfold calendar_columns_of. cbv zeta.
  set (f1 := λ r : row, dt_field dt_year (get df "date" r)).
  set (df1 := set_column "year" f1 df).
  set (f2 := λ r : row, dt_field dt_month (get df1 "date" r)).
  set (df2 := set_column "month" f2 df1).
  set (f3 := λ r : row, dt_field dt_dayofweek (get df2 "date" r)).
  set (df3 := set_column "day_of_week" f3 df2).
  set (f4 := λ r : row, dt_name dt_day_name (get df3 "date" r)).
  set (df4 := set_column "day_name" f4 df3).
  set (f5 := λ r : row, of_bool (isin [CNum 0; CNum 3] (get df4 "day_of_week" r))).
  set (df5 := set_column "is_prime_time" f5 df4).
  set (f6 := λ r : row, of_bool (series_eq (get df5 "day_of_week" r) (CNum 6))).
  destruct (set_column_row "year" f1 df Hwf) as (Hwf1 & t1 & E1 & G1).
  fold df1 in Hwf1, E1, G1.
  destruct (set_column_row "month" f2 df1 Hwf1) as (Hwf2 & t2 & E2 & G2).
  fold df2 in Hwf2, E2, G2.
  destruct (set_column_row "day_of_week" f3 df2 Hwf2) as (Hwf3 & t3 & E3 & G3).
  fold df3 in Hwf3, E3, G3.
  destruct (set_column_row "day_name" f4 df3 Hwf3) as (Hwf4 & t4 & E4 & G4).
  fold df4 in Hwf4, E4, G4.
  destruct (set_column_row "is_prime_time" f5 df4 Hwf4) as (Hwf5 & t5 & E5 & G5).
  fold df5 in Hwf5, E5, G5.
  destruct (set_column_row "is_sunday" f6 df5 Hwf5) as (Hwf6 & t6 & E6 & G6).
  split; [done|]. exists (λ r, t6 (t5 (t4 (t3 (t2 (t1 r)))))). split.
  - by rewrite E6, E5, E4, E3, E2, E1, <- !list_fmap_compose.
  - intros r Hr.
    destruct (G1 r Hr) as [Hr1 Hg1]. destruct (G2 _ Hr1) as [Hr2 Hg2].
    destruct (G3 _ Hr2) as [Hr3 Hg3]. destruct (G4 _ Hr3) as [Hr4 Hg4].
    destruct (G5 _ Hr4) as [Hr5 Hg5]. destruct (G6 _ Hr5) as [Hr6 Hg6].
    assert (get df1 "date" (t1 r) = get df "date" r) as D1 by by rewrite Hg1.
    assert (get df2 "date" (t2 (t1 r)) = get df "date" r) as D2 by by rewrite Hg2.
    assert (get df3 "date" (t3 (t2 (t1 r))) = get df "date" r) as D3 by by rewrite Hg3.
    assert (get df3 "day_of_week" (t3 (t2 (t1 r)))
            = dt_field dt_dayofweek (get df "date" r)) as W3.
    { rewrite Hg3. cbn. unfold f3. by rewrite D2. }
    assert (get df4 "day_of_week" (t4 (t3 (t2 (t1 r))))
            = dt_field dt_dayofweek (get df "date" r)) as W4 by by rewrite Hg4.
    assert (get df5 "day_of_week" (t5 (t4 (t3 (t2 (t1 r)))))
            = dt_field dt_dayofweek (get df "date" r)) as W5 by by rewrite Hg5.
    split; [done|]. repeat split.
    + by rewrite Hg6, Hg5, Hg4, Hg3, Hg2, Hg1.
    + rewrite Hg6, Hg5, Hg4, Hg3, Hg2. cbn. unfold f2. by rewrite D1.
    + by rewrite Hg6, Hg5, Hg4.
    + rewrite Hg6, Hg5, Hg4. cbn. unfold f4. by rewrite D3.
    + rewrite Hg6, Hg5. cbn. unfold f5. by rewrite W4.
    + rewrite Hg6. cbn. unfold f6. by rewrite W5.
    + intros c Hc. rewrite Hg6, Hg5, Hg4, Hg3, Hg2, Hg1.
      rewrite !bool_decide_eq_false_2; [done|..]; intros ->; apply Hc; in_labels.
Qed.

Lemma has_column_calendar_eq c df :
  has_column c (calendar_columns_of df)
  = has_column c df
    || bool_decide (c ∈ ["year"; "month"; "day_of_week"; "day_name"; "is_prime_time";
                         "is_sunday"]).
Proof.
  unfold calendar_columns_of. cbv zeta.
  rewrite !has_column_set_column, !bool_decide_label_cons, bool_decide_label_nil.
  by rewrite orb_false_r, <- !orb_assoc.
Qed.

Lemma columns_calendar df : columns df `prefix_of` columns (calendar_columns_of df).
Proof.
  unfold calendar_columns_of. cbv zeta.
  repeat (etrans; [|apply columns_set_column]). done.
Qed.

Lemma convert_dates_Some df d :
  convert_dates df = Some d →
  d = assign "date" (λ a, default CNaN (to_datetime_strict a)) df ∧
  ∀ r, r ∈ rows df → is_Some (to_datetime_strict (get df "date" r)).
Proof.
  unfold convert_dates. destruct (forallb _ _) eqn:Hall; [|done].
  intros [= <-]. split; [done|]. intros r Hr.
  rewrite forallb_forall in Hall. apply list_elem_of_In, Hall in Hr.
  by apply bool_decide_eq_true in Hr.
Qed.

(** The block, row by row, when it returns. *)
Lemma temporal_features_values date_dtype df out :
  well_formed df → has_column "date" df = true →
  temporal_features date_dtype df = Dated out →
  well_formed out ∧
  ∃ t : row → row,
    rows out = t <$> rows df ∧
    ∀ r, r ∈ rows df →
      let d := date_read date_dtype (get df "date" r) in
      let dow := dt_field dt_dayofweek d in
      t r ∈ rows out ∧
      (date_dtype = ObjectDtype → is_Some (to_datetime_strict (get df "date" r))) ∧
      get out "date" (t r) = d ∧
      get out "year" (t r) = dt_field dt_year d ∧
      get out "month" (t r) = dt_field dt_month d ∧
      get out "day_of_week" (t r) = dow ∧
      get out "day_name" (t r) = dt_name dt_day_name d ∧
      get out "is_prime_time" (t r) = of_bool (isin [CNum 0; CNum 3] dow) ∧
      get out "is_sunday" (t r) = of_bool (series_eq dow (CNum 6)) ∧
      ∀ c, c ∉ calendar_columns → get out c (t r) = get df c r.
Proof.
  intros Hwf Hd. unfold temporal_features. rewrite Hd.
  assert (∀ c, c ∉ calendar_columns →
            c ∉ ["year"; "month"; "day_of_week"; "day_name"; "is_prime_time";
                 "is_sunday"]) as Hsub.
  { intros c Hc Hin. apply Hc. unfold calendar_columns. by right. }
  destruct date_dtype; [| |done].
  - destruct (convert_dates df) as [d|] eqn:Hconv; [|done].
    intros [= <-]. apply convert_dates_Some in Hconv as [-> Hsome].
    rewrite assign_set_column, Hd by done.
    set (g := λ r : row, default CNaN (to_datetime_strict (get df "date" r))).
    destruct (set_column_row "date" g df Hwf) as (Hwf0 & t0 & E0 & G0).
    destruct (calendar_columns_values _ Hwf0) as (Hwf1 & t1 & E1 & G1).
    split; [done|]. exists (λ r, t1 (t0 r)). split.
    + by rewrite E1, E0, <- list_fmap_compose.
    + intros r Hr. destruct (G0 r Hr) as [Hr0 Hg0].
      destruct (G1 _ Hr0) as (Hr1 & Hy & Hm & Hw & Hn & Hp & Hs & Hk).
      rewrite Hg0 in Hy, Hm, Hw, Hn, Hp, Hs. cbn in Hy, Hm, Hw, Hn, Hp, Hs.
      split; [done|]. split; [intros _; by apply Hsome|].
      split; [rewrite Hk by not_in_labels; by rewrite Hg0|].
      repeat split; try done.
      intros c Hc. rewrite Hk, Hg0 by by apply Hsub.
      rewrite bool_decide_eq_false_2; [done|].
      intros ->. apply Hc. unfold calendar_columns. in_labels.
  - intros [= <-].
    destruct (calendar_columns_values _ Hwf) as (Hwf1 & t1 & E1 & G1).
    split; [done|]. exists t1. split; [done|].
    intros r Hr. destruct (G1 r Hr) as (Hr1 & Hy & Hm & Hw & Hn & Hp & Hs & Hk).
    split; [done|]. split; [done|].
    split; [by rewrite Hk by not_in_labels|].
    repeat split; try done. intros c Hc. by apply Hk, Hsub.
Qed.

Lemma has_column_temporal_eq date_dtype df out c :
  well_formed df → temporal_features date_dtype df = Dated out →
  has_column c out
  = has_column c df || has_column "date" df && bool_decide (c ∈ calendar_columns).
Proof.
  intros Hwf Hout. unfold temporal_features in Hout.
  destruct (has_column "date" df) eqn:Hd;
    [|injection Hout as <-; by rewrite orb_false_r].
  assert (∀ d, has_column c d = has_column c df →
            has_column c (calendar_columns_of d)
            = has_column c df || true && bool_decide (c ∈ calendar_columns)) as Hcal.
  { intros d Hsame. rewrite has_column_calendar_eq, Hsame. cbn [andb].
    unfold calendar_columns. rewrite (bool_decide_label_cons c "date").
    destruct (decide (c = "date")) as [->|Hne].
    - by rewrite Hd.
    - by rewrite (bool_decide_eq_false_2 (c = "date")). }
  destruct date_dtype; [| |done].
  - destruct (convert_dates df) as [d|] eqn:Hconv; [|done].
    injection Hout as <-. apply convert_dates_Some in Hconv as [-> _].
    apply Hcal. rewrite assign_set_column, Hd by done.
    rewrite has_column_set_column.
    destruct (decide (c = "date")) as [->|Hne].
    + by rewrite Hd.
    + by rewrite (bool_decide_eq_false_2 (c = "date")), orb_false_r.
  - injection Hout as <-. by apply Hcal.
Qed.

Lemma columns_temporal date_dtype df out :
  well_formed df → temporal_features date_dtype df = Dated out →
  columns df `prefix_of` columns out.
Proof.
  intros Hwf Hout. unfold temporal_features in Hout.
  destruct (has_column "date" df) eqn:Hd; [|by injection Hout as <-].
  destruct date_dtype; [| |done].
  - destruct (convert_dates df) as [d|] eqn:Hconv; [|done].
    injection Hout as <-. apply convert_dates_Some in Hconv as [-> _].
    etrans; [|apply columns_calendar].
    rewrite assign_set_column, Hd by done. apply columns_set_column.
  - injection Hout as <-. apply columns_calendar.
Qed.

Lemma temporal_stage date_dtype df out :
  well_formed df → temporal_features date_dtype df = Dated out →
  well_formed out ∧
  ∃ t : row → row,
    rows out = t <$> rows df ∧
    ∀ r, r ∈ rows df →
      let d := date_read date_dtype (get df "date" r) in
      let dow := dt_field dt_dayofweek d in
      t r ∈ rows out ∧
      (has_column "date" df = true →
       (date_dtype = ObjectDtype → is_Some (to_datetime_strict (get df "date" r))) ∧
       get out "date" (t r) = d ∧
       get out "year" (t r) = dt_field dt_year d ∧
       get out "month" (t r) = dt_field dt_month d ∧
       get out "day_of_week" (t r) = dow ∧
       get out "day_name" (t r) = dt_name dt_day_name d ∧
       get out "is_prime_time" (t r) = of_bool (isin [CNum 0; CNum 3] dow) ∧
       get out "is_sunday" (t r) = of_bool (series_eq dow (CNum 6))) ∧
      ∀ c, (c ∈ calendar_columns → has_column "date" df = false) →
           get out c (t r) = get df c r.
Proof.
  intros Hwf Hout. destruct (has_column "date" df) eqn:Hd.
  - destruct (temporal_features_values date_dtype df out Hwf Hd Hout)
      as (Hwf' & t & E & G).
    split; [done|]. exists t. split; [done|]. intros r Hr d dow.
    destruct (G r Hr) as (Hin & H0 & H1 & H2 & H3 & H4 & H5 & H6 & H7 & Hk).
    split; [done|]. split; [done|].
    intros c Hc. apply Hk. intros Hin'. by specialize (Hc Hin').
  - unfold temporal_features in Hout. rewrite Hd in Hout. injection Hout as <-.
    split; [done|]. exists (λ r, r). split; [by rewrite list_fmap_id|].
    intros r Hr d dow. split; [done|]. split; [done|done].
Qed.

Ltac off_labels :=
  first [ by intros ?
        | let H := fresh in intros H; exfalso; revert H; not_in_labels ].

(** Every column of the engine's output, row by row, from the cells of
    the input. *)
Lemma dated_values date_dtype df out :
  well_formed df → empty df = false →
  create_game_features_dated date_dtype df = Dated out →
  let both := has_column "home_score" df && has_column "away_score" df in
  well_formed out ∧
  columns df `prefix_of` columns out ∧
  (∀ c, has_column c out
        = has_column c df
          || both && bool_decide (c ∈ score_feature_columns)
          || has_column "status" df && bool_decide (c = "is_completed")
          || has_column "date" df && bool_decide (c ∈ calendar_columns)) ∧
  ∃ t : row → row,
    rows out = t <$> rows df ∧
    ∀ r, r ∈ rows df →
      let hs := get df "home_score" r in
      let as_ := get df "away_score" r in
      let d := date_read date_dtype (get df "date" r) in
      let dow := dt_field dt_dayofweek d in
      t r ∈ rows out ∧
      (both = true →
       get out "point_differential" (t r) = num_sub hs as_ ∧
       get out "winner_team_id" (t r)
       = winner_of hs as_ (get df "home_team_id" r) (get df "away_team_id" r) ∧
       get out "margin_of_victory" (t r) = num_abs (num_sub hs as_) ∧
       get out "game_closeness" (t r)
       = cut closeness_bins closeness_labels (num_abs (num_sub hs as_)) ∧
       get out "total_points" (t r) = num_add hs as_ ∧
       get out "scoring_category" (t r)
       = cut scoring_bins scoring_labels (num_add hs as_)) ∧
      (has_column "status" df = true →
       get out "is_completed" (t r)
       = of_bool (isin completed_statuses (get df "status" r))) ∧
      (has_column "date" df = true →
       (date_dtype = ObjectDtype → is_Some (to_datetime_strict (get df "date" r))) ∧
       get out "date" (t r) = d ∧
       get out "year" (t r) = dt_field dt_year d ∧
       get out "month" (t r) = dt_field dt_month d ∧
       get out "day_of_week" (t r) = dow ∧
       get out "day_name" (t r) = dt_name dt_day_name d ∧
       get out "is_prime_time" (t r) = of_bool (isin [CNum 0; CNum 3] dow) ∧
       get out "is_sunday" (t r) = of_bool (series_eq dow (CNum 6))) ∧
      ∀ c, (c ∈ score_feature_columns → both = false) →
           (c = "is_completed" → has_column "status" df = false) →
           (c ∈ calendar_columns → has_column "date" df = false) →
           get out c (t r) = get df c r.
Proof.
  intros Hwf Hne. unfold create_game_features_dated. rewrite Hne. cbv zeta.
  set (sf := score_features df). set (cf := completion_flag sf).
  destruct (temporal_features date_dtype cf) as [cal|e] eqn:Hcal; [|done].
  intros [= <-].
  set (both := has_column "home_score" df && has_column "away_score" df).
  destruct (score_stage df Hwf) as (Hwf1 & t1 & E1 & G1).
  fold sf in Hwf1, E1, G1. fold both in G1.
  destruct (flag_stage sf Hwf1) as (Hwf2 & t2 & E2 & G2).
  fold cf in Hwf2, E2, G2.
  destruct (temporal_stage date_dtype cf cal Hwf2 Hcal) as (Hwf3 & t3 & E3 & G3).
  destruct (total_stage cal Hwf3) as (Hwf4 & t4 & E4 & G4).
  cbv zeta in G1, G3, G4.
  assert (∀ c, has_column c sf
               = has_column c df
                 || both && bool_decide (c ∈ ["point_differential"; "winner_team_id";
                                              "margin_of_victory"; "game_closeness"]))
    as C1 by (intros c; apply has_column_score_features_eq).
  assert (∀ c, has_column c cf
               = has_column c sf
                 || has_column "status" sf && bool_decide (c = "is_completed"))
    as C2 by (intros c; apply has_column_completion_flag_eq).
  assert (∀ c, has_column c cal
               = has_column c cf
                 || has_column "date" cf && bool_decide (c ∈ calendar_columns))
    as C3 by (intros c; by eapply has_column_temporal_eq).
  assert (has_column "status" sf = has_column "status" df) as Gs.
  { rewrite C1, (bool_decide_eq_false_2 ("status" ∈ _)) by not_in_labels.
    by rewrite andb_false_r, orb_false_r. }
  assert (has_column "date" cf = has_column "date" df) as Gd.
  { rewrite C2, C1, (bool_decide_eq_false_2 ("date" ∈ _)),
      (bool_decide_eq_false_2 ("date" = _)) by (done || not_in_labels).
    by rewrite !andb_false_r, !orb_false_r. }
  assert (has_column "home_score" cal && has_column "away_score" cal = both) as Gb.
  { unfold both. rewrite !C3, !C2, !C1. unfold calendar_columns.
    rewrite (bool_decide_eq_false_2 ("home_score" ∈ _)),
      (bool_decide_eq_false_2 ("home_score" ∈ _)),
      (bool_decide_eq_false_2 ("away_score" ∈ _)),
      (bool_decide_eq_false_2 ("away_score" ∈ _)),
      (bool_decide_eq_false_2 ("home_score" = _)),
      (bool_decide_eq_false_2 ("away_score" = _)) by (done || not_in_labels).
    by rewrite !andb_false_r, !orb_false_r. }
  rewrite Gb in G4. rewrite Gs in G2. rewrite Gd in G3.
  split; [done|]. split; [|split].
  - etrans; [apply columns_score_features|]. fold sf.
    etrans; [apply columns_completion_flag|]. fold cf.
    etrans; [by eapply columns_temporal|]. apply columns_total_features.
  - intros c. rewrite has_column_total_features_eq, Gb, C3, Gd, C2, Gs, C1.
    apply eq_true_iff_eq.
    rewrite !orb_true_iff, !andb_true_iff, !bool_decide_eq_true.
    change score_feature_columns
      with (["point_differential"; "winner_team_id"; "margin_of_victory";
             "game_closeness"] ++ ["total_points"; "scoring_category"]).
    rewrite (elem_of_app _ _ c). tauto.
  - exists (λ r, t4 (t3 (t2 (t1 r)))). split.
    { by rewrite E4, E3, E2, E1, <- !list_fmap_compose. }
    intros r Hr.
    destruct (G1 r Hr) as (Hr1 & V1 & K1).
    destruct (G2 _ Hr1) as (Hr2 & V2 & K2).
    destruct (G3 _ Hr2) as (Hr3 & V3 & K3).
    destruct (G4 _ Hr3) as (Hr4 & V4 & K4).
    assert (∀ c, c ∉ feature_columns → c ∉ calendar_columns →
              get cal c (t3 (t2 (t1 r))) = get df c r) as Hsrc.
    { intros c Hf Hc. rewrite K3, K2, K1; [done|..].
      - intros Hin. exfalso. apply Hf. unfold feature_columns.
        repeat (apply elem_of_cons in Hin as [->|Hin]; [in_labels|]).
        by apply elem_of_nil in Hin.
      - intros ->. exfalso. apply Hf. unfold feature_columns. in_labels.
      - intros Hin. by destruct (Hc Hin). }
    split; [done|]. split; [|split; [|split]].
    + intros Hb. destruct (V1 Hb) as (Hpd & Hw & Hm & Hcl).
      destruct (V4 Hb) as (Ht & Hsc).
      rewrite !Hsrc in Ht, Hsc
        by (unfold feature_columns, calendar_columns; not_in_labels).
      repeat split; try done.
      * rewrite K4, K3, K2 by off_labels. done.
      * rewrite K4, K3, K2 by off_labels. done.
      * rewrite K4, K3, K2 by off_labels. done.
      * rewrite K4, K3, K2 by off_labels. done.
    + intros Hs. rewrite K4, K3 by off_labels. rewrite (V2 Hs).
      by rewrite K1 by off_labels.
    + intros Hd. destruct (V3 Hd) as (H0 & H1 & H2 & H3 & H4 & H5 & H6 & H7).
      assert (get cf "date" (t2 (t1 r)) = get df "date" r) as Hdate.
      { rewrite K2, K1 by off_labels. done. }
      rewrite Hdate in H0, H1, H2, H3, H4, H5, H6, H7.
      split; [done|].
      rewrite !K4 by off_labels. done.
    + intros c Hc1 Hc2 Hc3. rewrite K4, K3, K2, K1; [done|..].
      * intros Hin. apply Hc1. unfold score_feature_columns.
        repeat (apply elem_of_cons in Hin as [->|Hin]; [in_labels|]).
        by apply elem_of_nil in Hin.
      * done.
      * done.
      * intros Hin. apply Hc1. unfold score_feature_columns.
        repeat (apply elem_of_cons in Hin as [->|Hin]; [in_labels|]).
        by apply elem_of_nil in Hin.
Qed.

Lemma mapped_row_at (t : row → row) (l l' : list row) k (r r' : row) :
  l' = t <$> l → l !! k = Some r → l' !! k = Some r' → r' = t r ∧ r ∈ l.
Proof.
  intros -> Hr Hr'. rewrite list_lookup_fmap, Hr in Hr'. simpl in Hr'.
  split; [congruence|]. by eapply list_elem_of_lookup_2.
Qed.

Lemma both_scores df :
  "home_score" ∈ columns df → "away_score" ∈ columns df →
  has_column "home_score" df && has_column "away_score" df = true.
Proof.
  intros Hh Ha. unfold has_column. by rewrite !bool_decide_eq_true_2.
Qed.

(** The closeness of a game goes by its margin of victory m, the
    absolute difference of the scores: 'Very Close (1-3)' up to 3,
    'Close (4-7)' above 3 and up to 7, 'Moderate (8-14)' above 7 and up to
    14, 'Blowout (15+)' above 14.  The boundaries 3, 7 and 14 belong to the
    lower bucket, and every game gets a bucket whose scores are whole
    numbers of magnitude up to 2^52, on which the machine arithmetic of
    the code is exact. *)
Theorem closeness_by_margin (date_dtype : dtype) (df out : DataFrame) :
  well_formed df → empty df = false → scores_usable df →
  "home_score" ∈ columns df → "away_score" ∈ columns df →
  create_game_features_dated date_dtype df = Dated out →
  ∀ k r r' hs as_, rows df !! k = Some r → rows out !! k = Some r' →
    get df "home_score" r = CNum hs → get df "away_score" r = CNum as_ →
    small_whole hs = true → small_whole as_ = true →
    let m := Qabs (hs - as_) in
    get out "margin_of_victory" r' = CNum m ∧
    ((m <= 3)%Q → get out "game_closeness" r' = CStr "Very Close (1-3)") ∧
    ((3 < m)%Q → (m <= 7)%Q → get out "game_closeness" r' = CStr "Close (4-7)") ∧
    ((7 < m)%Q → (m <= 14)%Q → get out "game_closeness" r' = CStr "Moderate (8-14)") ∧
    ((14 < m)%Q → get out "game_closeness" r' = CStr "Blowout (15+)").
Proof.
  intros Hwf Hne _ Hh Ha Hout k r r' hs as_ Hr Hr' Hhs Has _ _ m.
  destruct (dated_values date_dtype df out Hwf Hne Hout)
    as (_ & _ & _ & t & Hrows & Hget).
  destruct (mapped_row_at t _ _ k r r' Hrows Hr Hr') as [-> Hin].
  destruct (Hget r Hin) as (_ & V & _).
  destruct (V (both_scores df Hh Ha)) as (_ & _ & Hm & Hc & _).
  rewrite Hm, Hc, Hhs, Has. cbn [num_sub num_abs]. fold m.
  destruct (cut_four 0 3 7 14 "Very Close (1-3)" "Close (4-7)" "Moderate (8-14)"
              "Blowout (15+)" m) as (_ & H1 & H2 & H3 & H4); [done..|].
  split; [done|]. split; [|done].
  intros Hm3. apply H1; [apply Qabs_nonneg|done].
Qed.

(** The scoring category of a game goes by its total points t, the sum of
    the scores: 'Low Scoring (≤35)' from 0 up to 35, 'Average (36-45)' above
    35 and up to 45, 'High (46-55)' above 45 and up to 55, 'Very High (56+)'
    above 55; a negative total gets no category.  For scores that are
    whole numbers of magnitude up to 2^52, on which the machine
    arithmetic of the code is exact. *)
Theorem scoring_by_total (date_dtype : dtype) (df out : DataFrame) :
  well_formed df → empty df = false → scores_usable df →
  "home_score" ∈ columns df → "away_score" ∈ columns df →
  create_game_features_dated date_dtype df = Dated out →
  ∀ k r r' hs as_, rows df !! k = Some r → rows out !! k = Some r' →
    get df "home_score" r = CNum hs → get df "away_score" r = CNum as_ →
    small_whole hs = true → small_whole as_ = true →
    let t := (hs + as_)%Q in
    get out "total_points" r' = CNum t ∧
    ((t < 0)%Q → get out "scoring_category" r' = CNaN) ∧
    ((0 <= t)%Q → (t <= 35)%Q →
       get out "scoring_category" r' = CStr "Low Scoring (≤35)") ∧
    ((35 < t)%Q → (t <= 45)%Q →
       get out "scoring_category" r' = CStr "Average (36-45)") ∧
    ((45 < t)%Q → (t <= 55)%Q → get out "scoring_category" r' = CStr "High (46-55)") ∧
    ((55 < t)%Q → get out "scoring_category" r' = CStr "Very High (56+)").
Proof.
  intros Hwf Hne _ Hh Ha Hout k r r' hs as_ Hr Hr' Hhs Has _ _ t.
  destruct (dated_values date_dtype df out Hwf Hne Hout)
    as (_ & _ & _ & f & Hrows & Hget).
  destruct (mapped_row_at f _ _ k r r' Hrows Hr Hr') as [-> Hin].
  destruct (Hget r Hin) as (_ & V & _).
  destruct (V (both_scores df Hh Ha)) as (_ & _ & _ & _ & Ht & Hc).
  rewrite Ht, Hc, Hhs, Has. cbn [num_add]. fold t.
  split; [done|].
  apply (cut_four 0 35 45 55 "Low Scoring (≤35)" "Average (36-45)" "High (46-55)"
           "Very High (56+)" t); done.
Qed.

(** The point differential is the home score less the away score, for
    scores that are whole numbers of magnitude up to 2^52, on which the
    machine arithmetic of the code is exact; and a game with a missing
    score has no differential, no margin, no total and no category. *)
Theorem differential_of_scores (date_dtype : dtype) (df out : DataFrame) :
  well_formed df → empty df = false → scores_usable df →
  "home_score" ∈ columns df → "away_score" ∈ columns df →
  create_game_features_dated date_dtype df = Dated out →
  ∀ k r r', rows df !! k = Some r → rows out !! k = Some r' →
    (∀ hs as_, get df "home_score" r = CNum hs → get df "away_score" r = CNum as_ →
       small_whole hs = true → small_whole as_ = true →
       get out "point_differential" r' = CNum (hs - as_)) ∧
    (isna (get df "home_score" r) = true ∨ isna (get df "away_score" r) = true →
       get out "point_differential" r' = CNaN ∧
       get out "margin_of_victory" r' = CNaN ∧
       get out "game_closeness" r' = CNaN ∧
       get out "total_points" r' = CNaN ∧
       get out "scoring_category" r' = CNaN).
Proof.
  intros Hwf Hne _ Hh Ha Hout k r r' Hr Hr'.
  destruct (dated_values date_dtype df out Hwf Hne Hout)
    as (_ & _ & _ & f & Hrows & Hget).
  destruct (mapped_row_at f _ _ k r r' Hrows Hr Hr') as [-> Hin].
  destruct (Hget r Hin) as (_ & V & _).
  destruct (V (both_scores df Hh Ha)) as (Hd & _ & Hm & Hc & Ht & Hs).
  rewrite Hd, Hm, Hc, Ht, Hs. split.
  - by intros hs as_ -> -> _ _.
  - intros [H%isna_true|H%isna_true]; rewrite H.
    + done.
    + by destruct (get df "home_score" r).
Qed.

(** The completion flag is 1 for a game whose status is exactly 'Final',
    'F' or 'Completed', and 0 for every other status, a missing one
    too. *)
Theorem completion_flag_exact (date_dtype : dtype) (df out : DataFrame) :
  well_formed df → empty df = false → scores_usable df →
  "status" ∈ columns df →
  create_game_features_dated date_dtype df = Dated out →
  ∀ k r r', rows df !! k = Some r → rows out !! k = Some r' →
    (∀ s, get df "status" r = CStr s →
       get out "is_completed" r'
       = CNum (if bool_decide (s ∈ ["Final"; "F"; "Completed"]) then 1 else 0)) ∧
    ((∀ s, get df "status" r ≠ CStr s) → get out "is_completed" r' = CNum 0).
Proof.
  intros Hwf Hne _ Hs Hout k r r' Hr Hr'.
  destruct (dated_values date_dtype df out Hwf Hne Hout)
    as (_ & _ & _ & f & Hrows & Hget).
  destruct (mapped_row_at f _ _ k r r' Hrows Hr Hr') as [-> Hin].
  destruct (Hget r Hin) as (_ & _ & V & _).
  rewrite V by by apply bool_decide_eq_true_2.
  rewrite isin_completed_statuses. unfold of_bool. split.
  - by intros s ->.
  - intros Hn. destruct (get df "status" r) as [s| | | |]; try done.
    by destruct (Hn s).
Qed.

(** The feature engine only adds.  The output has the rows of the input,
    one for one and in order; the columns of the input come first, in
    their order; and a cell is the cell of the input in every column that
    no block sets: any column that is not one of the engine's, and the
    columns of a block that does not run for want of its input columns. *)
Theorem features_keep_input (date_dtype : dtype) (df out : DataFrame) :
  well_formed df → empty df = false → scores_usable df →
  create_game_features_dated date_dtype df = Dated out →
  columns df `prefix_of` columns out ∧
  length (rows out) = length (rows df) ∧
  ∀ k r r' c, rows df !! k = Some r → rows out !! k = Some r' →
    (c ∈ score_feature_columns →
       ¬ ("home_score" ∈ columns df ∧ "away_score" ∈ columns df)) →
    (c = "is_completed" → "status" ∉ columns df) →
    (c ∈ calendar_columns → "date" ∉ columns df) →
    get out c r' = get df c r.
Proof.
  intros Hwf Hne _ Hout.
  destruct (dated_values date_dtype df out Hwf Hne Hout)
    as (_ & Hpre & _ & f & Hrows & Hget).
  split; [done|]. split; [by rewrite Hrows, length_fmap|].
  intros k r r' c Hr Hr' H1 H2 H3.
  destruct (mapped_row_at f _ _ k r r' Hrows Hr Hr') as [-> Hin].
  destruct (Hget r Hin) as (_ & _ & _ & _ & K). apply K.
  - intros Hc. specialize (H1 Hc). apply andb_false_iff.
    unfold has_column. rewrite !bool_decide_eq_false.
    destruct (decide ("home_score" ∈ columns df)) as [Hh|Hh]; [right|by left].
    intros Ha. by apply H1.
  - intros Hc. by apply bool_decide_eq_false_2, H2.
  - intros Hc. by apply bool_decide_eq_false_2, H3.
Qed.

(** The columns of the output are those of the input and those of the
    blocks that run: the six score features when the table has both
    score columns, is_completed when it has a status, the six calendar
    columns when it has a date.  So without both score columns the engine
    derives nothing from the scores. *)
Theorem engine_columns (date_dtype : dtype) (df out : DataFrame) :
  well_formed df → empty df = false → scores_usable df →
  create_game_features_dated date_dtype df = Dated out →
  ∀ c, c ∈ columns out ↔
       c ∈ columns df
       ∨ ("home_score" ∈ columns df ∧ "away_score" ∈ columns df
          ∧ c ∈ score_feature_columns)
       ∨ ("status" ∈ columns df ∧ c = "is_completed")
       ∨ ("date" ∈ columns df ∧ c ∈ calendar_columns).
Proof.
  intros Hwf Hne _ Hout c.
  destruct (dated_values date_dtype df out Hwf Hne Hout) as (_ & _ & Hcols & _).
  specialize (Hcols c). apply (f_equal Is_true) in Hcols.
  unfold has_column in Hcols.
  rewrite <- (bool_decide_spec (c ∈ columns out)), Hcols.
  rewrite !orb_True, !andb_True, !bool_decide_spec. tauto.
Qed.

(** The weekday flags.  For a game whose date is an instant, the year,
    the month and day_of_week are what [dt.year], [dt.month] and
    [dt.dayofweek] give, is_prime_time says that the weekday is 0 or 3
    (Monday or Thursday), is_sunday that it is 6, and the two flags are
    never both set.  For a game without a date both flags are false. *)
Theorem weekday_flags (date_dtype : dtype) (df out : DataFrame) :
  well_formed df → empty df = false → scores_usable df →
  "date" ∈ columns df →
  create_game_features_dated date_dtype df = Dated out →
  ∀ r', r' ∈ rows out →
    (∀ t, get out "date" r' = CStamp t →
       let dow := dt_dayofweek t in
       get out "year" r' = CNum (inject_Z (dt_year t)) ∧
       get out "month" r' = CNum (inject_Z (dt_month t)) ∧
       get out "day_of_week" r' = CNum (inject_Z dow) ∧
       get out "day_name" r' = CStr (dt_day_name t) ∧
       get out "is_prime_time" r' = of_bool (bool_decide (dow = 0 ∨ dow = 3)%Z) ∧
       get out "is_sunday" r' = of_bool (bool_decide (dow = 6)%Z) ∧
       ¬ (get out "is_prime_time" r' = CNum 1 ∧ get out "is_sunday" r' = CNum 1)) ∧
    (get out "date" r' = CNaN →
       get out "day_of_week" r' = CNaN ∧
       get out "is_prime_time" r' = CNum 0 ∧ get out "is_sunday" r' = CNum 0).
Proof.
  intros Hwf Hne _ Hd Hout r' Hr'.
  destruct (dated_values date_dtype df out Hwf Hne Hout)
    as (_ & _ & _ & f & Hrows & Hget).
  rewrite Hrows in Hr'. apply list_elem_of_fmap in Hr' as (r & -> & Hin).
  destruct (Hget r Hin) as (_ & _ & _ & V & _).
  destruct V as (_ & Hdate & Hy & Hm & Hw & Hn & Hp & Hs);
    [by apply bool_decide_eq_true_2|].
  rewrite Hy, Hm, Hw, Hn, Hp, Hs, Hdate. split.
  - intros t ->. cbn [dt_field dt_name isin existsb cell_eqb series_eq].
    change 0%Q with (inject_Z 0). change 3%Q with (inject_Z 3).
    change 6%Q with (inject_Z 6). rewrite !Qeq_bool_inject_Z, orb_false_r.
    split; [done|]. split; [done|]. split; [done|]. split; [done|].
    split; [|split; [done|]].
    + by rewrite bool_decide_or.
    + intros [Hp1 Hs1]. unfold of_bool in Hp1, Hs1.
      repeat case_bool_decide; try done; lia.
  - intros ->. done.
Qed.

Lemma first_stages_sets :
  sets_only feature_columns (λ df, completion_flag (score_features df)).
Proof.
  apply (sets_only_compose _ score_features completion_flag).
  - eapply sets_only_weaken; [|apply score_features_sets].
    intros c Hc. unfold feature_columns.
    repeat (apply elem_of_cons in Hc as [->|Hc]; [in_labels|]).
    by apply elem_of_nil in Hc.
  - eapply sets_only_weaken; [|apply completion_flag_sets].
    intros c ->%list_elem_of_singleton. unfold feature_columns. in_labels.
Qed.

Lemma has_column_temporal_other date_dtype df out c :
  well_formed df → temporal_features date_dtype df = Dated out →
  c ∉ calendar_columns → has_column c out = has_column c df.
Proof.
  intros Hwf Hout Hc. rewrite (has_column_temporal_eq date_dtype df out c) by done.
  rewrite (bool_decide_eq_false_2 (c ∈ calendar_columns)) by done.
  by rewrite andb_false_r, orb_false_r.
Qed.

(** On a table without a date the engine returns. *)
Lemma undated_run date_dtype df :
  empty df = false → "date" ∉ columns df →
  ∃ out, create_game_features_dated date_dtype df = Dated out.
Proof.
  intros Hne Hd. unfold create_game_features_dated. rewrite Hne. cbv zeta.
  unfold temporal_features.
  rewrite has_column_completion_flag_other by done.
  rewrite has_column_score_features_other by not_in_labels.
  unfold has_column. rewrite bool_decide_eq_false_2 by done. by eexists.
Qed.

(** How the engine ends on a table with a date, by the dtype of the
    date and by whether every date can be read. *)
Lemma dated_run date_dtype df :
  well_formed df → empty df = false → "date" ∈ columns df →
  (date_dtype = DatetimeDtype → ∃ out, create_game_features_dated date_dtype df = Dated out) ∧
  (date_dtype = NumericDtype →
   create_game_features_dated date_dtype df = DateError AttributeError) ∧
  (date_dtype = ObjectDtype →
   ((∀ r, r ∈ rows df → is_Some (to_datetime_strict (get df "date" r))) →
    ∃ out, create_game_features_dated date_dtype df = Dated out) ∧
   ((∃ r, r ∈ rows df ∧ to_datetime_strict (get df "date" r) = None) →
    create_game_features_dated date_dtype df = DateError ValueError)).
Proof.
  intros Hwf Hne Hd. unfold create_game_features_dated. rewrite Hne. cbv zeta.
  destruct (first_stages_sets df Hwf) as (Hwf' & t & Hrows & Hget).
  cbv beta in Hwf', Hrows, Hget.
  set (cf := completion_flag (score_features df)) in *.
  assert (has_column "date" cf = true) as Hd'.
  { unfold cf. rewrite has_column_completion_flag_other by done.
    rewrite has_column_score_features_other by not_in_labels.
    by apply bool_decide_eq_true_2. }
  assert (∀ r, r ∈ rows df → get cf "date" (t r) = get df "date" r) as Hdate.
  { intros r Hr. apply Hget; [done|]. unfold feature_columns. not_in_labels. }
  unfold temporal_features. rewrite Hd'.
  split; [intros ->; by eexists|]. split; [by intros ->|]. intros ->. split.
  - intros Hall. assert (∃ d, convert_dates cf = Some d) as [d ->]; [|by eexists].
    unfold convert_dates. rewrite (proj2 (forallb_forall _ _)); [by eexists|].
    intros r' Hr'%list_elem_of_In. rewrite Hrows in Hr'.
    apply list_elem_of_fmap in Hr' as (r & -> & Hr).
    apply bool_decide_eq_true_2. rewrite Hdate by done. by apply Hall.
  - intros (r & Hr & Hnone). assert (convert_dates cf = None) as ->; [|done].
    destruct (convert_dates cf) as [d|] eqn:Hconv; [|done]. exfalso.
    apply convert_dates_Some in Hconv as [_ Hsome].
    destruct (Hsome (t r)) as [x Hx].
    { rewrite Hrows. apply list_elem_of_fmap. by exists r. }
    rewrite Hdate, Hnone in Hx by done. done.
Qed.

(** The engine does not coerce dates.  Without a date column it always
    returns.  With one of dtype object, a single date that
    [pd.to_datetime] cannot read, for which the cleaner drops the game,
    makes it end in ValueError; with a datetime column it returns; with a
    numeric one it ends in AttributeError. *)
Theorem engine_outcome (df : DataFrame) :
  well_formed df → empty df = false → scores_usable df →
  ("date" ∉ columns df →
   ∀ date_dtype, ∃ out, create_game_features_dated date_dtype df = Dated out) ∧
  ("date" ∈ columns df →
   ((∃ r, r ∈ rows df ∧ to_datetime_strict (get df "date" r) = None) →
    create_game_features_dated ObjectDtype df = DateError ValueError) ∧
   (∃ out, create_game_features_dated DatetimeDtype df = Dated out) ∧
   create_game_features_dated NumericDtype df = DateError AttributeError).
Proof.
  intros Hwf Hne _. split.
  - intros Hd date_dtype. by apply undated_run.
  - intros Hd.
    destruct (dated_run ObjectDtype df Hwf Hne Hd) as (_ & _ & Hobj).
    destruct (Hobj eq_refl) as [_ Herr].
    destruct (dated_run DatetimeDtype df Hwf Hne Hd) as (Hdt & _).
    destruct (dated_run NumericDtype df Hwf Hne Hd) as (_ & Hnum & _).
    split; [done|]. split; [by apply Hdt|by apply Hnum].
Qed.

(** The dates the cleaner leaves are read.  On a table whose date
    column holds calendar days, an object column, the engine returns: it
    raises nothing, keeps the rows, and turns each day into the instant of
    its midnight. *)
Theorem days_become_instants (df : DataFrame) :
  well_formed df → empty df = false → scores_usable df →
  "date" ∈ columns df →
  Forall (λ r, ∃ d, get df "date" r = CDate d) (rows df) →
  ∃ out, create_game_features_dated ObjectDtype df = Dated out ∧
    length (rows out) = length (rows df) ∧
    ∀ k r r' d, rows df !! k = Some r → rows out !! k = Some r' →
      get df "date" r = CDate d → get out "date" r' = CStamp (d * day_ns).
Proof.
  intros Hwf Hne _ Hd Hdays. rewrite Forall_forall in Hdays.
  destruct (dated_run ObjectDtype df Hwf Hne Hd) as (_ & _ & Hobj).
  destruct (Hobj eq_refl) as [Hret _].
  destruct Hret as [out Hout].
  { intros r Hr. destruct (Hdays r Hr) as [d ->]. by eexists. }
  exists out. split; [done|].
  destruct (dated_values ObjectDtype df out Hwf Hne Hout)
    as (_ & _ & _ & t & Hrows & Hget).
  split; [by rewrite Hrows, length_fmap|].
  intros k r r' d Hr Hr' Hday.
  destruct (mapped_row_at t _ _ k r r' Hrows Hr Hr') as [-> Hin].
  destruct (Hget r Hin) as (_ & _ & _ & V & _).
  destruct V as (_ & Hdate & _); [by apply bool_decide_eq_true_2|].
  by rewrite Hdate, Hday.
Qed.

Lemma calendar_fixed d :
  well_formed d →
  (∀ c, c ∈ ["year"; "month"; "day_of_week"; "day_name"; "is_prime_time";
             "is_sunday"] → c ∈ columns d) →
  (∀ r, r ∈ rows d →
     get d "year" r = dt_field dt_year (get d "date" r) ∧
     get d "month" r = dt_field dt_month (get d "date" r) ∧
     get d "day_of_week" r = dt_field dt_dayofweek (get d "date" r) ∧
     get d "day_name" r = dt_name dt_day_name (get d "date" r) ∧
     get d "is_prime_time" r
     = of_bool (isin [CNum 0; CNum 3] (get d "day_of_week" r)) ∧
     get d "is_sunday" r = of_bool (series_eq (get d "day_of_week" r) (CNum 6))) →
  calendar_columns_of d = d.
Proof.
  intros Hwf Hc Hv. unfold calendar_columns_of. cbv zeta.
  rewrite (set_column_same "year" _ d);
    [|done|apply Hc; in_labels|intros r Hr; by apply (Hv r Hr)].
  rewrite (set_column_same "month" _ d);
    [|done|apply Hc; in_labels|intros r Hr; by apply (Hv r Hr)].
  rewrite (set_column_same "day_of_week" _ d);
    [|done|apply Hc; in_labels|intros r Hr; by apply (Hv r Hr)].
  rewrite (set_column_same "day_name" _ d);
    [|done|apply Hc; in_labels|intros r Hr; by apply (Hv r Hr)].
  rewrite (set_column_same "is_prime_time" _ d);
    [|done|apply Hc; in_labels|intros r Hr; by apply (Hv r Hr)].
  rewrite (set_column_same "is_sunday" _ d);
    [done|done|apply Hc; in_labels|intros r Hr; by apply (Hv r Hr)].
Qed.

(** Running the feature engine on its own output changes nothing: every
    feature is computed again from columns the first run left alone, and
    comes out the same; the date, a datetime column after the first run,
    is not converted again. *)
Theorem features_idempotent (date_dtype : dtype) (df out : DataFrame) :
  well_formed df → empty df = false → scores_usable df →
  create_game_features_dated date_dtype df = Dated out →
  create_game_features_dated DatetimeDtype out = Dated out.
Proof.
  intros Hwf Hne _ Hout.
  destruct (dated_values date_dtype df out Hwf Hne Hout)
    as (Hwf' & Hpre & Hcols & t & Hrows & Hget).
  cbv zeta in Hcols, Hget.
  remember (has_column "home_score" df && has_column "away_score" df) as both eqn:Eb.
  remember (has_column "status" df) as status eqn:Es.
  remember (has_column "date" df) as date eqn:Ed.
  assert (empty out = false) as Hne'.
  { destruct Hpre as [k Hk]. unfold empty in *. rewrite Hk, Hrows.
    destruct (columns df) as [|c cs]; [done|]. cbn. by destruct (rows df). }
  assert (∀ r', r' ∈ rows out → ∃ r, r ∈ rows df ∧ r' = t r) as Hsrc.
  { intros r'. rewrite Hrows. intros (r & -> & Hr)%list_elem_of_fmap. by exists r. }
  assert (∀ c, c ∉ score_feature_columns → c ≠ "is_completed" →
               c ∉ calendar_columns → has_column c out = has_column c df) as Hsame.
  { intros c H1 H2 H3.
    rewrite Hcols, (bool_decide_eq_false_2 (c ∈ score_feature_columns)),
      (bool_decide_eq_false_2 (c = _)),
      (bool_decide_eq_false_2 (c ∈ calendar_columns)) by done.
    by rewrite !andb_false_r, !orb_false_r. }
  assert (∀ c, c ∉ score_feature_columns → c ≠ "is_completed" →
               c ∉ calendar_columns →
               ∀ r, r ∈ rows df → get out c (t r) = get df c r) as Hkeep.
  { intros c H1 H2 H3 r Hr. by apply (Hget r Hr). }
  assert (has_column "home_score" out && has_column "away_score" out = both) as Hb'.
  { rewrite Eb, !Hsame
      by (done || (unfold score_feature_columns, calendar_columns; not_in_labels)).
    done. }
  assert (has_column "status" out = status) as Hs'.
  { rewrite Es, Hsame
      by (done || (unfold score_feature_columns, calendar_columns; not_in_labels)).
    done. }
  assert (has_column "date" out = date) as Hd'.
  { rewrite Hcols, <- Ed. unfold score_feature_columns, calendar_columns.
    rewrite (bool_decide_eq_false_2 ("date" ∈ _)),
      (bool_decide_eq_false_2 ("date" = _)) by (done || not_in_labels).
    rewrite !andb_false_r, !orb_false_r. by destruct date. }
  assert (score_features out = out) as Hscore.
  { destruct both eqn:Hb.
    - apply score_features_fixed; [done|..].
      + intros c Hc. apply (bool_decide_unpack _). fold (has_column c out).
        rewrite Hcols, (bool_decide_eq_true_2 (c ∈ score_feature_columns)).
        * by destruct (has_column c df).
        * unfold score_feature_columns.
          repeat (apply elem_of_cons in Hc as [->|Hc]; [in_labels|]).
          by apply elem_of_nil in Hc.
      + intros r' Hr'. destruct (Hsrc r' Hr') as (r & Hr & ->).
        destruct (Hget r Hr) as (_ & V & _).
        destruct (V eq_refl) as (Hpd & Hw & Hm & Hcl & _).
        rewrite (Hkeep "home_score"), (Hkeep "away_score"),
          (Hkeep "home_team_id"), (Hkeep "away_team_id")
          by (done || (unfold score_feature_columns, calendar_columns; not_in_labels)).
        rewrite Hpd, Hw, Hm, Hcl. done.
    - unfold score_features. by rewrite Hb'. }
  assert (completion_flag out = out) as Hflag.
  { apply completion_flag_fixed; [done|]. rewrite Hs'. intros ->. split.
    - apply (bool_decide_unpack _). fold (has_column "is_completed" out).
      rewrite Hcols, (bool_decide_eq_true_2 ("is_completed" = _)) by done.
      cbn [andb]. by rewrite orb_true_r.
    - intros r' Hr'. destruct (Hsrc r' Hr') as (r & Hr & ->).
      destruct (Hget r Hr) as (_ & _ & V & _).
      rewrite (Hkeep "status")
        by (done || (unfold score_feature_columns, calendar_columns; not_in_labels)).
      by apply V. }
  assert (temporal_features DatetimeDtype out = Dated out) as Htemp.
  { unfold temporal_features. rewrite Hd'. destruct date; [|done]. f_equal.
    apply calendar_fixed; [done|..].
    - intros c Hc. apply (bool_decide_unpack _). fold (has_column c out).
      rewrite Hcols, (bool_decide_eq_true_2 (c ∈ calendar_columns)).
      + cbn [andb]. by rewrite orb_true_r.
      + unfold calendar_columns. by right.
    - intros r' Hr'. destruct (Hsrc r' Hr') as (r & Hr & ->).
      destruct (Hget r Hr) as (_ & _ & _ & V & _).
      destruct (V eq_refl) as (_ & H1 & H2 & H3 & H4 & H5 & H6 & H7).
      rewrite H1, H2, H3, H4, H5, H6, H7. done. }
  assert (total_features out = out) as Htotal.
  { destruct both eqn:Hb.
    - apply total_features_fixed; [done|..].
      + intros c Hc. apply (bool_decide_unpack _). fold (has_column c out).
        rewrite Hcols, (bool_decide_eq_true_2 (c ∈ score_feature_columns)).
        * by destruct (has_column c df).
        * unfold score_feature_columns.
          repeat (apply elem_of_cons in Hc as [->|Hc]; [in_labels|]).
          by apply elem_of_nil in Hc.
      + intros r' Hr'. destruct (Hsrc r' Hr') as (r & Hr & ->).
        destruct (Hget r Hr) as (_ & V & _).
        destruct (V eq_refl) as (_ & _ & _ & _ & Ht & Hsc).
        rewrite (Hkeep "home_score"), (Hkeep "away_score")
          by (done || (unfold score_feature_columns, calendar_columns; not_in_labels)).
        rewrite Ht, Hsc. done.
    - unfold total_features. by rewrite Hb'. }
  unfold create_game_features_dated. rewrite Hne'. cbv zeta.
  fold temporal_features. by rewrite Hscore, Hflag, Htemp, Htotal.
Qed.

(** The calendar block leaves the other features alone.  When the
    engine returns, its table has the rows of the table computed without
    the calendar block, and the same cell in every column that is not the
    date or one of the six calendar columns; on a table without a date
    the two tables are the same. *)
Theorem calendar_leaves_features (date_dtype : dtype) (df out : DataFrame) :
  well_formed df → empty df = false → scores_usable df →
  create_game_features_dated date_dtype df = Dated out →
  ("date" ∉ columns df → out = create_game_features df) ∧
  length (rows out) = length (rows (create_game_features df)) ∧
  ∀ k r1 r2 c, rows out !! k = Some r1 →
    rows (create_game_features df) !! k = Some r2 →
    c ∉ calendar_columns → get out c r1 = get (create_game_features df) c r2.
Proof.
  intros Hwf Hne _. unfold create_game_features_dated, create_game_features.
  rewrite Hne. cbv zeta.
  set (cf := completion_flag (score_features df)).
  assert (well_formed cf) as Hwf' by by destruct (first_stages_sets df Hwf).
  assert (has_column "date" cf = has_column "date" df) as Hdate.
  { unfold cf. rewrite has_column_completion_flag_other by done.
    apply has_column_score_features_other. not_in_labels. }
  destruct (temporal_features date_dtype cf) as [cal|e] eqn:Hcal; [|done].
  intros [= <-].
  destruct (has_column "date" cf) eqn:Hd.
  2:{ unfold temporal_features in Hcal. rewrite Hd in Hcal. injection Hcal as <-.
      split; [done|]. split; [done|].
      intros k r1 r2 c Hr1 Hr2 _. congruence. }
  split.
  { intros Hno. symmetry in Hdate. apply bool_decide_eq_true in Hdate. done. }
  destruct (temporal_features_values date_dtype cf cal Hwf' Hd Hcal)
    as (Hwfc & t & Hrows & Hget).
  assert (has_column "home_score" cal = has_column "home_score" cf) as Hh.
  { eapply has_column_temporal_other; [done..|]. unfold calendar_columns. not_in_labels. }
  assert (has_column "away_score" cal = has_column "away_score" cf) as Ha.
  { eapply has_column_temporal_other; [done..|]. unfold calendar_columns. not_in_labels. }
  destruct (has_column "home_score" cf && has_column "away_score" cf) eqn:Hb.
  - apply andb_true_iff in Hb as [Hh' Ha']. rewrite Hh' in Hh. rewrite Ha' in Ha.
    destruct (total_features_values cal Hwfc Hh Ha) as (_ & tc & Ec & Gc).
    destruct (total_features_values cf Hwf' Hh' Ha') as (_ & tf & Ef & Gf).
    split; [by rewrite Ec, Ef, Hrows, !length_fmap|].
    intros k r1 r2 c Hr1 Hr2 Hc.
    rewrite Ef, list_lookup_fmap in Hr2.
    destruct (rows cf !! k) as [r|] eqn:Hr; [|done]. injection Hr2 as <-.
    rewrite Ec, Hrows, !list_lookup_fmap, Hr in Hr1. injection Hr1 as <-.
    assert (r ∈ rows cf) as Hin by by eapply list_elem_of_lookup_2.
    destruct (Hget r Hin) as (Hin' & _ & _ & _ & _ & _ & _ & _ & _ & Hk).
    destruct (Gc _ Hin') as (_ & Htc & Hsc & Hkc).
    destruct (Gf _ Hin) as (_ & Htf & Hsf & Hkf).
    rewrite !Hk in Htc, Hsc by (unfold calendar_columns; not_in_labels).
    destruct (decide (c = "total_points")) as [->|H1]; [by rewrite Htc, Htf|].
    destruct (decide (c = "scoring_category")) as [->|H2]; [by rewrite Hsc, Hsf|].
    rewrite Hkc, Hkf, Hk; [done|done|..].
    all: intros Hin2; repeat (apply elem_of_cons in Hin2 as [?|Hin2]; [done|]);
      by apply elem_of_nil in Hin2.
  - assert (total_features cal = cal) as ->.
    { unfold total_features. by rewrite Hh, Ha, Hb. }
    assert (total_features cf = cf) as ->.
    { unfold total_features. by rewrite Hb. }
    split; [by rewrite Hrows, length_fmap|].
    intros k r1 r2 c Hr1 Hr2 Hc.
    rewrite Hrows, list_lookup_fmap, Hr2 in Hr1. injection Hr1 as <-.
    apply Hget; [|done]. by eapply list_elem_of_lookup_2.
Qed.

End CalendarFacts.

(** ** The cleaner and the engine together *)

Section Pipeline.

Variable parse_num : string → option Q.
Variable parse_datetime : string → option Z.
Variable num_datetime : Q → option Z.
Variable dt_year : Z → Z.
Variable dt_month : Z → Z.
Variable dt_dayofweek : Z → Z.
Variable dt_day_name : Z → string.

Local Abbreviation to_datetime := (to_datetime parse_datetime num_datetime).
Local Abbreviation clean_games_data := (clean_games_data parse_num parse_datetime num_datetime).
Local Abbreviation games_row := (games_row parse_num parse_datetime num_datetime).
Local Abbreviation games_keep := (games_keep parse_num parse_datetime num_datetime).
Local Abbreviation create_game_features_dated :=
  (create_game_features_dated parse_datetime num_datetime dt_year dt_month
     dt_dayofweek dt_day_name).

(** The cleaned game table is a frame as pandas holds one. *)
Lemma well_formed_cleaned_games df :
  empty df = false → labels_ok games_column_mapping df → well_formed df →
  well_formed (clean_games_data df).1.
Proof.
  intros Hne Hok [Hnd Hrect]. rewrite clean_games_view by done. split; [done|].
  cbn [view columns rows]. apply Forall_fmap, Forall_forall. intros r Hr. cbn.
  rewrite length_map_cells, length_fmap.
  rewrite Forall_forall in Hrect. apply Hrect.
  apply list_elem_of_filter in Hr as [_ Hr].
  unfold games_dedup in Hr. case_bool_decide; [|done].
  eapply elem_of_sublist; [done|]. apply dedup_sublist.
Qed.

(** A date of the cleaned game table is a calendar day. *)
Lemma cleaned_date_cell df (r' : row) :
  empty df = false → labels_ok games_column_mapping df → well_formed df →
  let cols := renamed games_column_mapping <$> columns df in
  "date" ∈ cols → r' ∈ rows (clean_games_data df).1 →
  ∃ d, getc cols "date" r' = CDate d.
Proof.
  intros Hne Hok Hwf cols Hd Hr'.
  destruct (cleaned_game_source parse_num parse_datetime num_datetime df r'
              Hne Hok Hwf Hr') as (r & _ & Hin & Hlen & Hkeep & ->).
  unfold games_keep in Hkeep. apply andb_true_iff in Hkeep as [Hkeep _].
  apply andb_true_iff in Hkeep as [Hdate _]. unfold date_ok in Hdate.
  rewrite bool_decide_eq_true_2 in Hdate by done. cbn [negb orb] in Hdate.
  unfold games_row in *.
  rewrite getc_map_cells_full, games_cell_date in * by done.
  destruct (to_datetime_cases parse_datetime num_datetime
              (getc (renamed games_column_mapping <$> columns df) "date" r))
    as [[t Ht]|Ht]; rewrite Ht in *; [|done].
  by eexists.
Qed.

(** The engine runs on what the cleaner returns.  On the cleaned game
    table, with its score and team columns, the engine raises nothing:
    the scores the cleaner leaves are numbers and its dates are calendar
    days, which [pd.to_datetime] reads.  When the cleaned scores are whole
    numbers of magnitude up to 2^52, on which the machine arithmetic of
    the code is exact, every game comes out with a point differential
    that is a number, one of the four closeness buckets and, when the
    table has dates, a date that is an instant. *)
Theorem cleaned_games_get_features (df : DataFrame) :
  empty df = false → labels_ok games_column_mapping df → well_formed df →
  let cols := renamed games_column_mapping <$> columns df in
  let cleaned := (clean_games_data df).1 in
  "home_score" ∈ cols → "away_score" ∈ cols →
  "home_team_id" ∈ cols → "away_team_id" ∈ cols → rows cleaned ≠ [] →
  scores_exact cleaned →
  scores_usable cleaned ∧
  ∃ out, create_game_features_dated ObjectDtype cleaned = Dated out ∧
    length (rows out) = length (rows cleaned) ∧
    Forall (λ r', (∃ d, get out "point_differential" r' = CNum d) ∧
                  (∃ l, l ∈ closeness_labels ∧ get out "game_closeness" r' = CStr l) ∧
                  ("date" ∈ cols → ∃ t, get out "date" r' = CStamp t))
           (rows out).
Proof.
  intros Hne Hok Hwf cols cleaned Hh Ha Hht Hat Hrows _.
  assert (well_formed cleaned) as Hwf' by by apply well_formed_cleaned_games.
  assert (columns cleaned = cols) as Hcols.
  { subst cleaned. by rewrite clean_games_view. }
  assert (empty cleaned = false) as Hne'.
  { unfold empty. rewrite Hcols. subst cols.
    destruct (columns df) as [|c cs]; [by apply elem_of_nil in Hh|]. cbn.
    by destruct (rows cleaned). }
  assert (∀ r, r ∈ rows cleaned →
            (∃ hs, get cleaned "home_score" r = CNum hs) ∧
            (∃ as_, get cleaned "away_score" r = CNum as_)) as Hscores.
  { intros r Hr. unfold get. rewrite Hcols. split.
    - apply (cleaned_score_cell parse_num parse_datetime num_datetime df r
               "home_score" Hne Hok Hwf Hr); [in_labels|done].
    - apply (cleaned_score_cell parse_num parse_datetime num_datetime df r
               "away_score" Hne Hok Hwf Hr); [in_labels|done]. }
  assert (∀ r, r ∈ rows cleaned → "date" ∈ cols →
            ∃ d, get cleaned "date" r = CDate d) as Hdates.
  { intros r Hr Hd. unfold get. rewrite Hcols.
    by apply (cleaned_date_cell df r Hne Hok Hwf). }
  split.
  { intros _ _. rewrite Hcols. split; [done|]. split; [done|].
    apply Forall_forall. intros r Hr.
    destruct (Hscores r Hr) as [[hs ->] [as_ ->]]. done. }
  assert (∃ out, create_game_features_dated ObjectDtype cleaned = Dated out)
    as [out Hout].
  { destruct (decide ("date" ∈ cols)) as [Hd|Hd].
    - destruct (dated_run parse_datetime num_datetime dt_year dt_month dt_dayofweek
                  dt_day_name ObjectDtype cleaned Hwf' Hne') as (_ & _ & Hobj);
        [by rewrite Hcols|].
      destruct (Hobj eq_refl) as [Hret _]. apply Hret.
      intros r Hr. destruct (Hdates r Hr Hd) as [d ->]. by eexists.
    - apply undated_run; [done|]. by rewrite Hcols. }
  exists out. split; [done|].
  destruct (dated_values parse_datetime num_datetime dt_year dt_month dt_dayofweek
              dt_day_name ObjectDtype cleaned out Hwf' Hne' Hout)
    as (_ & _ & _ & t & Erows & Hget).
  split; [by rewrite Erows, length_fmap|].
  rewrite Erows. apply Forall_fmap, Forall_forall. intros r Hr. cbn.
  destruct (Hget r Hr) as (_ & V & _ & D & _).
  destruct V as (Hd & _ & _ & Hc & _).
  { apply both_scores; by rewrite Hcols. }
  rewrite Hd, Hc. destruct (Hscores r Hr) as [[hs ->] [as_ ->]].
  cbn [num_sub num_abs]. split; [by eexists|]. split.
  - set (m := Qabs (hs - as_)).
    destruct (cut_four 0 3 7 14 "Very Close (1-3)" "Close (4-7)" "Moderate (8-14)"
                "Blowout (15+)" m) as (_ & H1 & H2 & H3 & H4); [done..|].
    unfold closeness_bins, closeness_labels.
    destruct (Qlt_le_dec 3 m) as [G3|L3];
      [|eexists; split; [|apply H1; [apply Qabs_nonneg|done]]; in_labels].
    destruct (Qlt_le_dec 7 m) as [G7|L7]; [|eexists; split; [|by apply H2]; in_labels].
    destruct (Qlt_le_dec 14 m) as [G14|L14]; [|eexists; split; [|by apply H3]; in_labels].
    eexists; split; [|by apply H4]; in_labels.
  - intros Hdate. destruct D as (_ & -> & _).
    { apply bool_decide_eq_true_2. by rewrite Hcols. }
    destruct (Hdates r Hr Hdate) as [d ->]. by eexists.
Qed.

End Pipeline.

(** ** The aggregator as a whole *)

(** The aggregator ranks no team.  Without a completed game it returns
    the empty table; with one or more it raises KeyError for the label
    team_id, at the merge of home_wins into home_stats. *)
Theorem aggregator_outcome (flagged : bool) (games_df : list Game) :
  create_team_aggregations flagged games_df
  = match completed flagged games_df with
    | [] => Returned []
    | _ => Raised (KeyError "team_id")
    end.
Proof.
  destruct (completed flagged games_df) as [|g C] eqn:HC.
  - by apply aggregations_empty.
  - apply aggregations_raise. by rewrite HC.
Qed.

(** ** The properties on concrete tables *)

(** Decides a closed decidable proposition by evaluation. *)
Ltac by_compute := apply (bool_decide_unpack _); vm_compute; exact I.

Lemma no_identifier_counterexample :
  empty teams_without_id = false ∧
  ("TeamID" ∉ columns teams_without_id) ∧
  ("team_id" ∉ columns teams_without_id) ∧
  ("Key" ∉ columns teams_without_id) ∧
  (clean_teams teams_without_id).1
  = mkDF ["name"; "city"; "conference"]
         [[CStr "Bears"; CStr "Chicago"; CStr "NFC"];
          [CStr "Bears"; CStr "Chicago"; CStr "Unknown"]] ∧
  empty (clean_teams teams_without_id).1 = false.
Proof. repeat split; try by_compute; by vm_compute. Qed.

Lemma no_identifier_witness :
  length (rows (clean_teams teams_without_id).1) = 2%nat ∧
  empty (clean_teams teams_without_id).1 = false.
Proof.
  destruct (no_identifier_keeps_every_row integer_literal show_num show_day show_day
              teams_without_id) as (_ & Hlen & Hne);
    [reflexivity | by_compute | by_compute | by_compute | by_compute |].
  split; [exact Hlen | exact Hne].
Defined.

Lemma unparsable_row_counterexample :
  (clean_games games_unparsable).1
  = mkDF ["game_id"; "season"; "week"; "home_team_id"; "away_team_id"]
         [[CNum 1; CNaN; CNaN; CNaN; CNum 2]] ∧
  create_game_features (clean_games games_unparsable).1
  = (clean_games games_unparsable).1.
Proof. split; by vm_compute. Qed.

Lemma unparsable_row_witness :
  [CNum 1; CNaN; CNaN; CNaN; CNum 2] ∈ rows (clean_games games_unparsable).1.
Proof.
  destruct (unparsable_numbers_are_kept integer_literal iso_date epoch_ns
              games_unparsable eq_refl ltac:(by_compute)
              [CNum 1; CStr "abc"; CStr "n/a"; CStr "?"; CNum 2]
              ltac:(vm_compute; apply list_elem_of_here))
    as (_ & _ & _ & Hkept).
  apply Hkept; reflexivity.
Defined.

Lemma fractional_id_counterexample :
  (clean_teams teams_fractional_id).1
  = mkDF ["team_id"; "name"] [[CNum 7; CStr "Bears"]; [CNum 7; CStr "Lions"]] ∧
  ¬ distinct (get (clean_teams teams_fractional_id).1 "team_id"
                <$> rows (clean_teams teams_fractional_id).1).
Proof.
  split; [by vm_compute|]. intros Hd. vm_compute in Hd.
  inversion Hd as [|? ? Hall _]; subst.
  apply Forall_cons in Hall as [Hsame _]. discriminate Hsame.
Qed.

Lemma dedup_witness :
  distinct (get (clean_games games_mixed).1 "game_id" <$> rows (clean_games games_mixed).1) ∧
  distinct (get (clean_teams teams_repeated_id).1 "team_id"
              <$> rows (clean_teams teams_repeated_id).1).
Proof.
  destruct (dedup_invariant integer_literal iso_date epoch_ns show_num show_day show_day
              teams_repeated_id games_mixed ltac:(by_compute) ltac:(by_compute))
    as [Hgames Hteams].
  split.
  - apply Hgames. by_compute.
  - apply (Hteams "TeamID" eq_refl).
    intros r1 r2 H1 H2.
    repeat (apply elem_of_cons in H1 as [->|H1]); try (by apply elem_of_nil in H1);
    repeat (apply elem_of_cons in H2 as [->|H2]); try (by apply elem_of_nil in H2);
    vm_compute; intros Heq; exact Heq.
Defined.

Lemma reclean_counterexample :
  (clean_teams (clean_teams teams_fractional_id).1).1
  ≠ (clean_teams teams_fractional_id).1 ∧
  length (rows (clean_teams teams_fractional_id).1) = 2%nat ∧
  length (rows (clean_teams (clean_teams teams_fractional_id).1).1) = 1%nat ∧
  (clean_games (clean_games games_week_25).1).1 ≠ (clean_games games_week_25).1 ∧
  (clean_games games_week_25).1 = mkDF ["game_id"; "week"] [] ∧
  (clean_games (clean_games games_week_25).1).1 = empty_frame.
Proof.
  repeat split; try (by vm_compute); intros Heq; vm_compute in Heq; discriminate Heq.
Qed.

Lemma reclean_witness :
  (clean_teams (clean_teams teams_repeated_id).1).1 = (clean_teams teams_repeated_id).1 ∧
  (clean_games (clean_games games_mixed).1).1 = (clean_games games_mixed).1.
Proof.
  destruct (cleaners_idempotent_on_rows integer_literal iso_date epoch_ns
              show_num show_day show_day teams_repeated_id games_mixed
              ltac:(by_compute) ltac:(by_compute))
    as [Hteams Hgames].
  split.
  - apply Hteams.
    + vm_compute. discriminate.
    + intros _. vm_compute. repeat constructor.
  - apply Hgames. vm_compute. discriminate.
Defined.

Lemma business_rules_witness :
  (clean_games games_mixed).2
  = [InfoCleaningGames; InfoDuplicateGames 1; WarnSelfPlay 2;
     WarnInvalidWeeks 1; InfoGamesCleaned 2].
Proof.
  destruct (business_rule_filters integer_literal iso_date epoch_ns games_mixed
              eq_refl ltac:(by_compute))
    as (_ & Hlog & _).
  unfold clean_games. rewrite Hlog. vm_compute. reflexivity.
Defined.

Lemma same_name_counterexample :
  (clean_games games_same_name).1
  = mkDF ["game_id"; "home_team_id"; "away_team_id"; "week"]
         [[CNum 1; CNaN; CNaN; CNum 1]] ∧
  (clean_games games_same_name).2
  = [InfoCleaningGames; InfoDuplicateGames 0; InfoGamesCleaned 1].
Proof. split; by vm_compute. Qed.



(** ** The cleaners' further properties on concrete tables *)

Lemma games_mixed_ok :
  empty games_mixed = false ∧ labels_ok games_column_mapping games_mixed ∧
  well_formed games_mixed.
Proof. split; [done|]. split; [by_compute|]. split; by_compute. Qed.

Lemma teams_mixed_ok :
  empty teams_mixed = false ∧ labels_ok teams_column_mapping teams_mixed ∧
  well_formed teams_mixed.
Proof. split; [done|]. split; [by_compute|]. split; by_compute. Qed.

Lemma cleaned_scores_witness :
  let r' := [CNum 1; CNum 1; CNum 10; CNum 20; CDate 19974; CNum 21; CNum 14] in
  r' ∈ rows (clean_games games_mixed).1 ∧
  ∃ q, getc (renamed games_column_mapping <$> columns games_mixed) "home_score" r'
       = CNum q.
Proof.
  intros r'.
  assert (r' ∈ rows (clean_games games_mixed).1) as Hin
    by (vm_compute; apply list_elem_of_here).
  split; [exact Hin|].
  destruct games_mixed_ok as (Hne & Hok & Hwf).
  destruct (cleaned_scores_are_numbers integer_literal iso_date epoch_ns
              games_mixed Hne Hok Hwf r' Hin) as (r & _ & _ & Hcol).
  apply (Hcol "home_score"); [in_labels|by_compute].
Defined.

Lemma cleaned_dates_witness :
  let r' := [CNum 5; CNum 3; CNum 20; CNum 10; CDate 19988; CNum 17; CNum 17] in
  r' ∈ rows (clean_games games_mixed).1 ∧
  ∃ t, getc (renamed games_column_mapping <$> columns games_mixed) "date" r'
       = CDate (t / day_ns).
Proof.
  intros r'.
  assert (r' ∈ rows (clean_games games_mixed).1) as Hin
    by (vm_compute; apply list_elem_of_further, list_elem_of_here).
  split; [exact Hin|].
  destruct games_mixed_ok as (Hne & Hok & Hwf).
  destruct (cleaned_dates_are_days integer_literal iso_date epoch_ns
              games_mixed Hne Hok Hwf ltac:(by_compute) r' Hin)
    as (r & t & _ & _ & _ & Hd).
  by exists t.
Defined.

Lemma first_row_witness :
  Forall (λ r', cell_eqb (getc (renamed games_column_mapping <$> columns games_bad_first)
                               "game_id" r')
                         (CNum 1) = false)
         (rows (clean_games games_bad_first).1) ∧
  rows (clean_games games_bad_first).1 = [[CNum 2; CDate 19981; CNum 2]].
Proof.
  split; [|by vm_compute].
  apply (first_row_decides integer_literal iso_date epoch_ns games_bad_first
           eq_refl ltac:(by_compute) ltac:(split; by_compute) ltac:(by_compute)
           0%nat [CNum 1; CStr "soon"; CNum 1]).
  - split; [reflexivity|]. intros j r0 Hj. lia.
  - by vm_compute.
Defined.

Lemma games_shape_witness :
  columns (clean_games games_mixed).1
  = ["game_id"; "week"; "home_team_id"; "away_team_id"; "date"; "home_score"; "away_score"] ∧
  (length (rows (clean_games games_mixed).1) ≤ 6)%nat.
Proof.
  destruct games_mixed_ok as (Hne & Hok & _).
  destruct (games_cleaner_keeps_shape integer_literal iso_date epoch_ns
              games_mixed Hne Hok) as (Hcols & _ & Hlen & _).
  split; [|exact Hlen]. etrans; [exact Hcols|]. by vm_compute.
Defined.


Lemma cleaned_team_ids_witness :
  let cols := renamed teams_column_mapping <$> columns teams_mixed in
  getc cols "team_id"
    (teams_row integer_literal show_num show_day show_day cols
       [CNum (5 # 2); CStr "Lions"; CNaN; CNaN])
  = CNum 2.
Proof.
  intros cols.
  destruct teams_mixed_ok as (Hne & Hok & Hwf).
  destruct (cleaned_team_ids_are_integers integer_literal show_num show_day show_day
              teams_mixed Hne Hok Hwf ltac:(by_compute)) as [_ Hid].
  apply (Hid [CNum (5 # 2); CStr "Lions"; CNaN; CNaN] (5 # 2)%Q).
  - vm_compute. do 3 apply list_elem_of_further. apply list_elem_of_here.
  - reflexivity.
  - by vm_compute.
Defined.


Lemma teams_shape_witness :
  columns (clean_teams teams_mixed).1 = ["team_id"; "name"; "city"; "conference"] ∧
  (length (rows (clean_teams teams_mixed).1) ≤ 4)%nat.
Proof.
  destruct teams_mixed_ok as (Hne & Hok & _).
  destruct (teams_cleaner_keeps_shape integer_literal show_num show_day show_day
              teams_mixed Hne Hok) as (Hcols & _ & Hlen & _).
  split; [|exact Hlen]. etrans; [exact Hcols|]. by vm_compute.
Defined.


Lemma accounting_witness :
  (6 = 1 + 0 + 2 + 1 + length (rows (clean_games games_mixed).1))%nat.
Proof.
  destruct games_mixed_ok as (Hne & Hok & _).
  destruct (game_rows_accounted_for integer_literal iso_date epoch_ns
              games_mixed Hne Hok) as [Hcount _].
  etrans; [exact Hcount|]. by vm_compute.
Defined.

(** ** The feature engine's further properties on concrete tables *)

Lemma games_dated_ok :
  well_formed games_dated ∧ empty games_dated = false ∧ scores_usable games_dated ∧
  "home_score" ∈ columns games_dated ∧ "away_score" ∈ columns games_dated ∧
  "status" ∈ columns games_dated ∧ "date" ∈ columns games_dated.
Proof.
  split; [split; by_compute|]. split; [done|].
  split; [unfold scores_usable; by_compute|]. repeat split; by_compute.
Qed.

Lemma games_dated_run :
  dated_features ObjectDtype games_dated = Dated games_dated_features.
Proof. vm_compute. reflexivity. Qed.

Lemma games_dated_first :
  rows games_dated !! 0%nat
  = Some [CNum 1; CDate 19974; CNum 10; CNum 20; CNum 21; CNum 14; CStr "Final"] ∧
  rows games_dated_features !! 0%nat
  = Some [CNum 1; CStamp 1725753600000000000; CNum 10; CNum 20; CNum 21; CNum 14;
          CStr "Final"; CNum 7; CNum 10; CNum 7; CStr "Close (4-7)"; CNum 1;
          CNum 2024; CNum 9; CNum 6; CStr "Sunday"; CNum 0; CNum 1; CNum 35;
          CStr "Low Scoring (≤35)"].
Proof. split; reflexivity. Qed.

Lemma games_one_score_ok :
  well_formed games_one_score ∧ empty games_one_score = false ∧
  scores_usable games_one_score.
Proof.
  split; [split; by_compute|]. split; [done|]. unfold scores_usable. by_compute.
Qed.

Lemma games_one_score_run :
  dated_features ObjectDtype games_one_score = Dated games_one_score_features.
Proof. vm_compute. reflexivity. Qed.

Lemma games_undated_ok :
  well_formed games_undated ∧ empty games_undated = false ∧
  scores_usable games_undated ∧ "date" ∈ columns games_undated.
Proof.
  split; [split; by_compute|]. split; [done|].
  split; [unfold scores_usable; by_compute|by_compute].
Qed.

Lemma closeness_witness :
  ∃ r', rows games_dated_features !! 0%nat = Some r' ∧
        get games_dated_features "game_closeness" r' = CStr "Close (4-7)".
Proof.
  destruct games_dated_ok as (Hwf & Hne & Hus & Hh & Ha & _).
  destruct games_dated_first as [Hin Hout].
  eexists. split; [exact Hout|].
  destruct (closeness_by_margin iso_date epoch_ns year_of month_of weekday_of
              weekday_name ObjectDtype games_dated games_dated_features
              Hwf Hne Hus Hh Ha games_dated_run 0%nat _ _ 21%Q 14%Q
              Hin Hout eq_refl eq_refl eq_refl eq_refl) as (_ & _ & H2 & _).
  apply H2; by vm_compute.
Defined.

Lemma scoring_witness :
  ∃ r', rows games_dated_features !! 0%nat = Some r' ∧
        get games_dated_features "scoring_category" r' = CStr "Low Scoring (≤35)".
Proof.
  destruct games_dated_ok as (Hwf & Hne & Hus & Hh & Ha & _).
  destruct games_dated_first as [Hin Hout].
  eexists. split; [exact Hout|].
  destruct (scoring_by_total iso_date epoch_ns year_of month_of weekday_of
              weekday_name ObjectDtype games_dated games_dated_features
              Hwf Hne Hus Hh Ha games_dated_run 0%nat _ _ 21%Q 14%Q
              Hin Hout eq_refl eq_refl eq_refl eq_refl) as (_ & _ & H1 & _).
  apply H1; by vm_compute.
Defined.

Lemma differential_witness :
  ∃ r', rows games_dated_features !! 0%nat = Some r' ∧
        get games_dated_features "point_differential" r' = CNum (21 - 14).
Proof.
  destruct games_dated_ok as (Hwf & Hne & Hus & Hh & Ha & _).
  destruct games_dated_first as [Hin Hout].
  eexists. split; [exact Hout|].
  destruct (differential_of_scores iso_date epoch_ns year_of month_of weekday_of
              weekday_name ObjectDtype games_dated games_dated_features
              Hwf Hne Hus Hh Ha games_dated_run 0%nat _ _ Hin Hout) as [Hd _].
  by apply (Hd 21%Q 14%Q).
Defined.

Lemma completion_flag_witness :
  ∃ r', rows games_dated_features !! 0%nat = Some r' ∧
        get games_dated_features "is_completed" r' = CNum 1.
Proof.
  destruct games_dated_ok as (Hwf & Hne & Hus & _ & _ & Hs & _).
  destruct games_dated_first as [Hin Hout].
  eexists. split; [exact Hout|].
  destruct (completion_flag_exact iso_date epoch_ns year_of month_of weekday_of
              weekday_name ObjectDtype games_dated games_dated_features
              Hwf Hne Hus Hs games_dated_run 0%nat _ _ Hin Hout) as [Hflag _].
  by rewrite (Hflag "Final").
Defined.

Lemma features_keep_witness :
  length (rows games_dated_features) = 2%nat ∧
  columns games_dated `prefix_of` columns games_dated_features.
Proof.
  destruct games_dated_ok as (Hwf & Hne & Hus & _).
  destruct (features_keep_input iso_date epoch_ns year_of month_of weekday_of
              weekday_name ObjectDtype games_dated games_dated_features
              Hwf Hne Hus games_dated_run) as (Hcols & Hlen & _).
  split; [exact Hlen|exact Hcols].
Defined.

Lemma engine_columns_witness :
  "is_completed" ∈ columns games_one_score_features ∧
  "point_differential" ∉ columns games_one_score_features.
Proof.
  destruct games_one_score_ok as (Hwf & Hne & Hus).
  pose proof (engine_columns iso_date epoch_ns year_of month_of weekday_of
                weekday_name ObjectDtype games_one_score games_one_score_features
                Hwf Hne Hus games_one_score_run) as Hcols.
  split.
  - apply Hcols. right. right. left. split; [by_compute|done].
  - intros [Hc|[(_ & Ha & _)|[[_ Hc]|[Hd _]]]]%Hcols.
    + revert Hc. by_compute.
    + revert Ha. by_compute.
    + done.
    + revert Hd. by_compute.
Defined.

Lemma features_twice_witness :
  dated_features DatetimeDtype games_dated_features = Dated games_dated_features.
Proof.
  destruct games_dated_ok as (Hwf & Hne & Hus & _).
  exact (features_idempotent iso_date epoch_ns year_of month_of weekday_of
           weekday_name ObjectDtype games_dated games_dated_features
           Hwf Hne Hus games_dated_run).
Defined.

Lemma weekday_flags_witness :
  ∃ r', r' ∈ rows games_dated_features ∧
        get games_dated_features "day_name" r' = CStr "Sunday" ∧
        get games_dated_features "is_sunday" r' = CNum 1 ∧
        get games_dated_features "is_prime_time" r' = CNum 0.
Proof.
  destruct games_dated_ok as (Hwf & Hne & Hus & _ & _ & _ & Hd).
  destruct games_dated_first as [_ Hout].
  apply list_elem_of_lookup_2 in Hout.
  eexists. split; [exact Hout|].
  destruct (weekday_flags iso_date epoch_ns year_of month_of weekday_of
              weekday_name ObjectDtype games_dated games_dated_features
              Hwf Hne Hus Hd games_dated_run _ Hout) as [Hflags _].
  destruct (Hflags 1725753600000000000%Z eq_refl)
    as (_ & _ & _ & Hn & Hp & Hs & _).
  rewrite Hn, Hp, Hs. by vm_compute.
Defined.

Lemma engine_outcome_witness :
  dated_features ObjectDtype games_undated = DateError ValueError ∧
  dated_features NumericDtype games_undated = DateError AttributeError.
Proof.
  destruct games_undated_ok as (Hwf & Hne & Hus & Hd).
  destruct (engine_outcome iso_date epoch_ns year_of month_of weekday_of
              weekday_name games_undated Hwf Hne Hus) as [_ Hdated].
  destruct (Hdated Hd) as (Herr & _ & Hnum).
  split; [|exact Hnum]. apply Herr.
  exists [CNum 2; CStr "soon"; CNum 30; CNum 40; CNum 17; CNum 17; CStr "Scheduled"].
  split; [|reflexivity]. vm_compute. apply list_elem_of_further, list_elem_of_here.
Defined.

Lemma days_witness :
  ∃ out, dated_features ObjectDtype games_dated = Dated out ∧
         length (rows out) = 2%nat.
Proof.
  destruct games_dated_ok as (Hwf & Hne & Hus & _ & _ & _ & Hd).
  destruct (days_become_instants iso_date epoch_ns year_of month_of weekday_of
              weekday_name games_dated Hwf Hne Hus Hd) as (out & Hout & Hlen & _).
  { repeat constructor; by eexists. }
  exists out. split; [exact Hout|exact Hlen].
Defined.

Lemma calendar_leaves_witness :
  length (rows games_dated_features)
  = length (rows (create_game_features games_dated)).
Proof.
  destruct games_dated_ok as (Hwf & Hne & Hus & _).
  destruct (calendar_leaves_features iso_date epoch_ns year_of month_of weekday_of
              weekday_name ObjectDtype games_dated games_dated_features
              Hwf Hne Hus games_dated_run) as (_ & Hlen & _).
  exact Hlen.
Defined.

Lemma pipeline_witness :
  ∃ out, dated_features ObjectDtype (clean_games games_mixed).1 = Dated out ∧
         length (rows out) = 2%nat.
Proof.
  destruct games_mixed_ok as (Hne & Hok & Hwf).
  destruct (cleaned_games_get_features integer_literal iso_date epoch_ns year_of
              month_of weekday_of weekday_name games_mixed Hne Hok Hwf
              ltac:(by_compute) ltac:(by_compute) ltac:(by_compute) ltac:(by_compute))
    as (_ & out & Hout & Hlen & _).
  { by vm_compute. }
  { unfold scores_exact. by_compute. }
  exists out. split; [exact Hout|]. etrans; [exact Hlen|]. by vm_compute.
Defined.

(** ** The aggregator's steps on concrete tables *)

Lemma weighted_average_witness :
  (avg_points_scored (overall 1 ten_home_games six_away_games) == 45 # 2)%Q ∧
  (win_percentage (overall 1 ten_home_games six_away_games) == 9 # 16)%Q.
Proof.
  destruct (overall_weighted_averages 1 ten_home_games six_away_games)
    as (_ & _ & Hnz & _); [by vm_compute..|].
  destruct Hnz as [Havg Hwin]; [by vm_compute|].
  split; [rewrite Havg|rewrite Hwin]; by vm_compute.
Defined.

Lemma tie_frames_witness :
  home_wins games_with_tie
  = home_wins [mkGame (Some 1%Z) (Some 10%Z) (Some 20%Z) 21 14 7 true;
               mkGame (Some 3%Z) (Some 30%Z) (Some 10%Z) 3 10 (-7) true] ∧
  ∃ s, (30%Z, s) ∈ body (home_stats games_with_tie) ∧ (agg_games s == 2)%Q.
Proof.
  destruct (tie_in_side_frames
              [mkGame (Some 1%Z) (Some 10%Z) (Some 20%Z) 21 14 7 true]
              [mkGame (Some 3%Z) (Some 30%Z) (Some 10%Z) 3 10 (-7) true]
              (mkGame (Some 2%Z) (Some 30%Z) (Some 40%Z) 17 17 0 true)
              30%Z 40%Z eq_refl eq_refl ltac:(by eexists) ltac:(reflexivity))
    as ((s & Hs & Hg) & _ & Hw & _).
  split; [exact Hw|]. exists s. split; [exact Hs|].
  rewrite Hg. by vm_compute.
Defined.
